(** * Model selection and rate-limit accounting of the multi-provider router

    A shallow embedding of [src/core/usage-tracker.ts] (class [UsageTracker])
    and of the model manager (class [ModelManager]), with the properties of
    the specification stated over them.

    Conventions of the embedding.
    - A JavaScript [number] is a value of [num]: either [NaN] or an exact
      rational.  [NaN] is kept because [parseInt] and [parseFloat] produce it
      and every comparison with it is false; rounding of doubles and the
      infinities are not represented.  A statement that pins a stored value
      or the size of a number therefore names the range it speaks of: whole
      numbers up to [2 ^ 53], where doubles are exact, texts of bounded
      length and numbers of bounded magnitude, where no result is infinite.
    - Objects mutated in place become values that are passed and returned;
      the [Map]s of the two classes are [gmap]s keyed by the model id.
    - [Date.now()], [new Date().setHours(0,0,0,0)] and [Math.random()] are
      inputs of the functions that read them.
    - Template strings are kept as data: one constructor per template, its
      arguments being the interpolated values. *)

From Stdlib Require Import ZArith QArith Qround Qpower Lia Lqa.
From Stdlib Require Import Ascii String List.
From Stdlib Require Import DecimalString DecimalN.
From stdpp Require Import base option list strings gmap.

Local Open Scope Z_scope.

(** ** Numbers *)

Inductive num : Type :=
  | NaN
  | Num (q : Q).

Definition ofZ (z : Z) : num := Num (inject_Z z).
Definition ofNat (n : nat) : num := ofZ (Z.of_nat n).

Definition nadd (a b : num) : num :=
  match a, b with
  | Num x, Num y => Num (x + y)
  | _, _ => NaN
  end.

Definition nsub (a b : num) : num :=
  match a, b with
  | Num x, Num y => Num (x - y)
  | _, _ => NaN
  end.

Definition nmul (a b : num) : num :=
  match a, b with
  | Num x, Num y => Num (x * y)
  | _, _ => NaN
  end.

(** Division by a positive literal ([/ 4], [/ 60], [/ 1000], [/ 3600]). *)
Definition ndivc (a : num) (d : positive) : num :=
  match a with
  | Num x => Num (x / inject_Z (Z.pos d))
  | NaN => NaN
  end.

Definition Qltb (x y : Q) : bool := negb (Qle_bool y x).

(** [a < b], [a <= b], [a > b]: false as soon as one side is [NaN]. *)
Definition nlt (a b : num) : bool :=
  match a, b with
  | Num x, Num y => Qltb x y
  | _, _ => false
  end.

Definition nle (a b : num) : bool :=
  match a, b with
  | Num x, Num y => Qle_bool x y
  | _, _ => false
  end.

Definition ngt (a b : num) : bool := nlt b a.

(** Truthiness of a number: [0] and [NaN] are falsy. *)
Definition truthy (a : num) : bool :=
  match a with
  | Num x => negb (Qeq_bool x 0)
  | NaN => false
  end.

(** [Math.ceil], [Math.floor]. *)
Definition nceil (a : num) : num :=
  match a with
  | Num x => ofZ (Qceiling x)
  | NaN => NaN
  end.

Definition nfloor (a : num) : num :=
  match a with
  | Num x => ofZ (Qfloor x)
  | NaN => NaN
  end.

(** [a % d] for a positive literal [d]: the remainder has the sign of [a]. *)
Definition Qtrunc (x : Q) : Z :=
  if Qle_bool 0 x then Qfloor x else Qceiling x.

Definition nremc (a : num) (d : positive) : num :=
  match a with
  | Num x =>
      Num (x - inject_Z (Z.pos d) * inject_Z (Qtrunc (x / inject_Z (Z.pos d))))
  | NaN => NaN
  end.

(** A number that holds a non-negative integer. *)
Definition is_count (a : num) : Prop :=
  exists z : Z, 0 <= z /\ a = Num (inject_Z z).

(** ** Reading numbers from header values *)

Definition code (c : ascii) : nat := nat_of_ascii c.

(** The white space that [parseInt] and [parseFloat] skip, among the
    characters a header value can hold. *)
Definition isWhite (c : ascii) : bool :=
  let n := code c in
  ((9 <=? n) && (n <=? 13) || (n =? 32) || (n =? 160))%nat.

Definition isDigit (c : ascii) : bool :=
  let n := code c in ((48 <=? n) && (n <=? 57))%nat.

Definition digit (c : ascii) : Z := Z.of_nat (code c - 48).

Fixpoint skipWhite (s : list ascii) : list ascii :=
  match s with
  | c :: r => if isWhite c then skipWhite r else s
  | [] => []
  end.

(** The longest run of decimal digits at the head of [s], and what follows. *)
Fixpoint takeDigits (s : list ascii) : list ascii * list ascii :=
  match s with
  | c :: r =>
      if isDigit c then let '(ds, rest) := takeDigits r in (c :: ds, rest)
      else ([], s)
  | [] => ([], [])
  end.

Definition digitsValue (ds : list ascii) : Z :=
  fold_left (fun acc c => 10 * acc + digit c) ds 0.

Definition takeSign (s : list ascii) : Z * list ascii :=
  match s with
  | "-"%char :: r => (-1, r)
  | "+"%char :: r => (1, r)
  | _ => (1, s)
  end.

(** [parseInt(str, 10)]. *)
Definition parseInt (str : string) : num :=
  let '(sign, s) := takeSign (skipWhite (list_ascii_of_string str)) in
  let '(ds, _) := takeDigits s in
  match ds with
  | [] => NaN
  | _ => ofZ (sign * digitsValue ds)
  end.

(** The value of [digits intPart . fracPart] times ten to the [e]. *)
Definition decimalValue (ip fp : list ascii) (e : Z) : Q :=
  inject_Z (digitsValue (ip ++ fp))
  * Qpower (inject_Z 10) (e - Z.of_nat (length fp)).

(** An exponent part [e±ddd] at the head of [s]; [0] when there is none. *)
Definition takeExponent (s : list ascii) : Z :=
  match s with
  | c :: r =>
      if (code c =? 101)%nat || (code c =? 69)%nat then
        let '(sign, r') := takeSign r in
        let '(ds, _) := takeDigits r' in
        match ds with
        | [] => 0
        | _ => sign * digitsValue ds
        end
      else 0
  | [] => 0
  end.

(** [parseFloat(str)] on decimal literals (the literal [Infinity] has no
    value in [num]). *)
Definition parseFloat (str : string) : num :=
  let '(sign, s) := takeSign (skipWhite (list_ascii_of_string str)) in
  let '(ip, r1) := takeDigits s in
  let '(fp, r2) :=
    match r1 with
    | "."%char :: r => takeDigits r
    | _ => ([], r1)
    end in
  match ip, fp with
  | [], [] => NaN
  | _, _ => Num (inject_Z sign * decimalValue ip fp (takeExponent r2))
  end.


(** One match of the pattern [(\d+(?:\.\d+)?)([hms])] anchored at the head
    of [s]: the value of group 1, the unit, and the text after the match.
    Both digit runs are maximal: a shorter run is followed by a digit, which
    is neither a dot nor a unit. *)
Definition isUnit (c : ascii) : bool :=
  ((code c =? 104) || (code c =? 109) || (code c =? 115))%nat.

(** The optional group [(?:\.\d+)?]: a dot and at least one digit. *)
Definition takeFraction (s : list ascii) : list ascii * list ascii :=
  match s with
  | "."%char :: r =>
      let '(fp, r') := takeDigits r in
      match fp with
      | [] => ([], s)
      | _ => (fp, r')
      end
  | _ => ([], s)
  end.

Definition matchDuration (s : list ascii) : option (Q * ascii * list ascii) :=
  let '(ip, r1) := takeDigits s in
  match ip with
  | [] => None
  | _ =>
      let '(fp, r2) := takeFraction r1 in
      match r2 with
      | u :: rest =>
          if isUnit u then Some (decimalValue ip fp 0, u, rest) else None
      | [] => None
      end
  end.

(** The [while ((match = regex.exec(duration)) !== null)] loop: the next
    match is searched from the end of the previous one, one character further
    after a failure.  [fuel] bounds the number of steps; the length of the
    text is enough. *)
Fixpoint scanDurations (fuel : nat) (s : list ascii) (ms : num) : num :=
  match fuel with
  | O => ms
  | S fuel' =>
      match s with
      | [] => ms
      | _ :: r =>
          match matchDuration s with
          | Some (value, unit, rest) =>
              let value := Num value in
              let ms :=
                if (code unit =? 104)%nat
                then nadd ms (nmul (nmul value (ofZ 3600)) (ofZ 1000))
                else if (code unit =? 109)%nat
                then nadd ms (nmul (nmul value (ofZ 60)) (ofZ 1000))
                else if (code unit =? 115)%nat
                then nadd ms (nmul value (ofZ 1000))
                else ms in
              scanDurations fuel' rest ms
          | None => scanDurations fuel' r ms
          end
      end
  end.

(** [parseGroqDuration]: "12m3.5s", "4s", "1h" to milliseconds. *)
Definition parseGroqDuration (duration : string) : num :=
  let s := list_ascii_of_string duration in
  scanDurations (length s) s (ofZ 0).

(** ** Types ([types.ts]) *)

Inductive ProviderName : Type := groq | cerebras.

Definition providerString (p : ProviderName) : string :=
  match p with
  | groq => "groq"
  | cerebras => "cerebras"
  end.

Inductive RotationStrategy : Type := round_robin | random | least_used.

(** [GroqRateLimits | CerebrasRateLimits]: the per-hour limits exist for
    Cerebras only. *)
Module RateLimits.
Record t : Type := mk {
  requestsPerMinute : Z;
  requestsPerHour : option Z;
  requestsPerDay : Z;
  tokensPerMinute : Z;
  tokensPerHour : option Z;
  tokensPerDay : Z;
}.
End RateLimits.
Abbreviation RateLimits := RateLimits.t (only parsing).

Module ModelConfig.
Record t : Type := mk {
  id : string;
  name : string;
  provider : ProviderName;
  limits : RateLimits;
  enabled : bool;
}.
End ModelConfig.
Abbreviation ModelConfig := ModelConfig.t (only parsing).

Module UsageRecord.
Record t : Type := mk {
  modelId : string;
  provider : ProviderName;
  timestamp : Z;
  inputTokens : num;
  outputTokens : num;
}.
End UsageRecord.
Abbreviation UsageRecord := UsageRecord.t (only parsing).

(** [RateLimitState = GroqRateLimitState | CerebrasRateLimitState].  The two
    interfaces are erased at run time and the casts [as GroqRateLimitState],
    [as CerebrasRateLimitState] are unchecked, so the state is the object
    itself: the properties the two interfaces share, and the properties of
    one interface only, which are absent ([None]) from an object built for
    the other.  An absent property reads as [undefined], which every use in
    the tracker converts to [NaN]. *)
Module RateLimitState.
Record t : Type := mk {
  remainingRequestsDay : num;
  remainingTokensMinute : num;
  limitRequestsDay : num;
  limitTokensMinute : num;
  (* GroqRateLimitState *)
  resetRequestsAt : option num;
  resetTokensAt : option num;
  retryAfter : option num;
  (* CerebrasRateLimitState *)
  resetRequestsDaySeconds : option num;
  resetTokensMinuteSeconds : option num;
  lastUpdated : num;
}.

Definition set_remainingRequestsDay (v : num) (s : t) : t :=
  mk v (remainingTokensMinute s) (limitRequestsDay s) (limitTokensMinute s)
     (resetRequestsAt s) (resetTokensAt s) (retryAfter s)
     (resetRequestsDaySeconds s) (resetTokensMinuteSeconds s) (lastUpdated s).

Definition set_remainingTokensMinute (v : num) (s : t) : t :=
  mk (remainingRequestsDay s) v (limitRequestsDay s) (limitTokensMinute s)
     (resetRequestsAt s) (resetTokensAt s) (retryAfter s)
     (resetRequestsDaySeconds s) (resetTokensMinuteSeconds s) (lastUpdated s).

Definition set_limitRequestsDay (v : num) (s : t) : t :=
  mk (remainingRequestsDay s) (remainingTokensMinute s) v (limitTokensMinute s)
     (resetRequestsAt s) (resetTokensAt s) (retryAfter s)
     (resetRequestsDaySeconds s) (resetTokensMinuteSeconds s) (lastUpdated s).

Definition set_limitTokensMinute (v : num) (s : t) : t :=
  mk (remainingRequestsDay s) (remainingTokensMinute s) (limitRequestsDay s) v
     (resetRequestsAt s) (resetTokensAt s) (retryAfter s)
     (resetRequestsDaySeconds s) (resetTokensMinuteSeconds s) (lastUpdated s).

Definition set_resetRequestsAt (v : num) (s : t) : t :=
  mk (remainingRequestsDay s) (remainingTokensMinute s) (limitRequestsDay s)
     (limitTokensMinute s) (Some v) (resetTokensAt s) (retryAfter s)
     (resetRequestsDaySeconds s) (resetTokensMinuteSeconds s) (lastUpdated s).

Definition set_resetTokensAt (v : num) (s : t) : t :=
  mk (remainingRequestsDay s) (remainingTokensMinute s) (limitRequestsDay s)
     (limitTokensMinute s) (resetRequestsAt s) (Some v) (retryAfter s)
     (resetRequestsDaySeconds s) (resetTokensMinuteSeconds s) (lastUpdated s).

Definition set_retryAfter (v : num) (s : t) : t :=
  mk (remainingRequestsDay s) (remainingTokensMinute s) (limitRequestsDay s)
     (limitTokensMinute s) (resetRequestsAt s) (resetTokensAt s) (Some v)
     (resetRequestsDaySeconds s) (resetTokensMinuteSeconds s) (lastUpdated s).

Definition set_resetRequestsDaySeconds (v : num) (s : t) : t :=
  mk (remainingRequestsDay s) (remainingTokensMinute s) (limitRequestsDay s)
     (limitTokensMinute s) (resetRequestsAt s) (resetTokensAt s) (retryAfter s)
     (Some v) (resetTokensMinuteSeconds s) (lastUpdated s).

Definition set_resetTokensMinuteSeconds (v : num) (s : t) : t :=
  mk (remainingRequestsDay s) (remainingTokensMinute s) (limitRequestsDay s)
     (limitTokensMinute s) (resetRequestsAt s) (resetTokensAt s) (retryAfter s)
     (resetRequestsDaySeconds s) (Some v) (lastUpdated s).

Definition set_lastUpdated (v : num) (s : t) : t :=
  mk (remainingRequestsDay s) (remainingTokensMinute s) (limitRequestsDay s)
     (limitTokensMinute s) (resetRequestsAt s) (resetTokensAt s) (retryAfter s)
     (resetRequestsDaySeconds s) (resetTokensMinuteSeconds s) v.

(** Reading a property in a numeric position. *)
Definition read (p : option num) : num :=
  match p with
  | Some v => v
  | None => NaN
  end.
End RateLimitState.
Abbreviation RateLimitState := RateLimitState.t (only parsing).
Import RateLimitState.

Module UsageStats.
Record t : Type := mk {
  provider : ProviderName;
  rateLimitState : RateLimitState;
  requestsToday : num;
  tokensToday : num;
  dayStart : Z;
}.

Definition set_rateLimitState (v : RateLimitState) (s : t) : t :=
  mk (provider s) v (requestsToday s) (tokensToday s) (dayStart s).
End UsageStats.
Abbreviation UsageStats := UsageStats.t (only parsing).

(** The [Headers] of a response: [get] is the lookup, [null] is [None]. *)
Abbreviation Headers := (gmap string string) (only parsing).

(** [if (value)] on the result of [headers.get]: [null] and the empty string
    are falsy. *)
Definition whenSet {A : Type} (value : option string) (f : string -> A -> A)
    (state : A) : A :=
  match value with
  | Some v => if String.eqb v "" then state else f v state
  | None => state
  end.

(** [formatDuration]: the three templates ["${s}s"], ["${m}m ${s}s"] and
    ["${h}h ${m}m"]. *)
Inductive Duration : Type :=
  | Seconds (seconds : num)
  | MinutesSeconds (minutes seconds : num)
  | HoursMinutes (hours mins : num).

Definition formatDuration (seconds : num) : Duration :=
  if nlt seconds (ofZ 60) then Seconds seconds
  else if nlt seconds (ofZ 3600)
  then MinutesSeconds (nfloor (ndivc seconds 60)) (nremc seconds 60)
  else
    let hours := nfloor (ndivc seconds 3600) in
    let mins := nfloor (ndivc (nremc seconds 3600) 60) in
    HoursMinutes hours mins.

(** The reasons of a denial:
    ["Rate limited: Retry after ${waitSec}s"],
    ["Daily requests exhausted: Reset in ${formatDuration(waitSec)}"],
    ["Token limit (TPM): Reset in ${waitSec}s"]. *)
Inductive Reason : Type :=
  | RetryAfterReason (waitSec : num)
  | DailyRequestsReason (resetIn : Duration)
  | TokenLimitReason (waitSec : num).

Module Check.
Record t : Type := mk {
  allowed : bool;
  reason : option Reason;
  stats : UsageStats;
}.
End Check.
Abbreviation Check := Check.t (only parsing).

(** What [getRemainingCapacity] returns. *)
Module Capacity.
Record t : Type := mk {
  requests : num;
  tokens : num;
  requestsResetAt : option num;
  tokensResetAt : option num;
}.
End Capacity.

(** The reset texts of [getRateLimitInfo]: ['now'], [formatDuration(...)]
    or ["${...}s"]. *)
Inductive ResetText : Type :=
  | ResetNow
  | ResetIn (d : Duration)
  | ResetInSeconds (s : num).

(** What [getRateLimitInfo] returns. *)
Module RateLimitInfo.
Record t : Type := mk {
  provider : ProviderName;
  remainingRequests : num;
  remainingTokens : num;
  limitRequests : num;
  limitTokens : num;
  (* "Requests reset: ${...}, Tokens reset: ${...}" *)
  resetInfo : ResetText * ResetText;
  lastUpdated : num;
}.
End RateLimitInfo.

(** Unary minus. *)
Definition nneg (a : num) : num :=
  match a with
  | Num x => Num (- x)
  | NaN => NaN
  end.

(** [array.slice(start)]: [start] is truncated to an integer ([NaN] to [0]);
    a negative one counts from the end. *)
Definition slice {A : Type} (start : num) (l : list A) : list A :=
  let len := Z.of_nat (length l) in
  let relativeStart :=
    match start with
    | Num x => Qtrunc x
    | NaN => 0
    end in
  let k :=
    if relativeStart <? 0 then Z.max (len + relativeStart) 0
    else Z.min relativeStart len in
  drop (Z.to_nat k) l.

(** ** The usage tracker ([core/usage-tracker.ts]) *)

Module UsageTracker.

Record t : Type := mk {
  stats : gmap string UsageStats;
  history : list UsageRecord;
}.

Definition maxHistorySize : Z := 10000.

(** [new UsageTracker()]. *)
Definition empty : t := mk ∅ [].

(** Writing a stats object back under its key. *)
Definition store (tr : t) (modelId : string) (s : UsageStats) : t :=
  mk (<[modelId := s]> (stats tr)) (history tr).

Definition createGroqState (limits : RateLimits) : RateLimitState :=
  {| remainingRequestsDay := ofZ (RateLimits.requestsPerDay limits);
     remainingTokensMinute := ofZ (RateLimits.tokensPerMinute limits);
     limitRequestsDay := ofZ (RateLimits.requestsPerDay limits);
     limitTokensMinute := ofZ (RateLimits.tokensPerMinute limits);
     resetRequestsAt := Some (ofZ 0);
     resetTokensAt := Some (ofZ 0);
     retryAfter := None;
     resetRequestsDaySeconds := None;
     resetTokensMinuteSeconds := None;
     lastUpdated := ofZ 0 |}.

Definition createCerebrasState (limits : RateLimits) : RateLimitState :=
  {| remainingRequestsDay := ofZ (RateLimits.requestsPerDay limits);
     remainingTokensMinute := ofZ (RateLimits.tokensPerMinute limits);
     limitRequestsDay := ofZ (RateLimits.requestsPerDay limits);
     limitTokensMinute := ofZ (RateLimits.tokensPerMinute limits);
     resetRequestsAt := None;
     resetTokensAt := None;
     retryAfter := None;
     resetRequestsDaySeconds := Some (ofZ 0);
     resetTokensMinuteSeconds := Some (ofZ 0);
     lastUpdated := ofZ 0 |}.

(** [getStats]: get or create the stats of a model, then reset the daily
    counters on a new day.  [dayStart] is the reading of
    [new Date().setHours(0, 0, 0, 0)]. *)
Definition getStats (tr : t) (model : ModelConfig) (dayStart : Z)
    : t * UsageStats :=
  let '(tr, stats) :=
    match stats tr !! ModelConfig.id model with
    | Some stats => (tr, stats)
    | None =>
        let rateLimitState :=
          match ModelConfig.provider model with
          | groq => createGroqState (ModelConfig.limits model)
          | cerebras => createCerebrasState (ModelConfig.limits model)
          end in
        let stats :=
          {| UsageStats.provider := ModelConfig.provider model;
             UsageStats.rateLimitState := rateLimitState;
             UsageStats.requestsToday := ofZ 0;
             UsageStats.tokensToday := ofZ 0;
             UsageStats.dayStart := dayStart |} in
        (store tr (ModelConfig.id model) stats, stats)
    end in
  if negb (UsageStats.dayStart stats =? dayStart) then
    let stats :=
      {| UsageStats.provider := UsageStats.provider stats;
         UsageStats.rateLimitState := UsageStats.rateLimitState stats;
         UsageStats.requestsToday := ofZ 0;
         UsageStats.tokensToday := ofZ 0;
         UsageStats.dayStart := dayStart |} in
    (store tr (ModelConfig.id model) stats, stats)
  else (tr, stats).

(** [updateFromGroqHeaders]; [now] is the reading of [Date.now()]. *)
Definition updateFromGroqHeaders (state : RateLimitState) (headers : Headers)
    (now : Z) : RateLimitState :=
  let remReq := headers !! "x-ratelimit-remaining-requests" in
  let remTok := headers !! "x-ratelimit-remaining-tokens" in
  let limitReq := headers !! "x-ratelimit-limit-requests" in
  let limitTok := headers !! "x-ratelimit-limit-tokens" in
  let resetReqStr := headers !! "x-ratelimit-reset-requests" in
  let resetTokStr := headers !! "x-ratelimit-reset-tokens" in
  let retryAfter := headers !! "retry-after" in
  let state := whenSet remReq (fun v => set_remainingRequestsDay (parseInt v)) state in
  let state := whenSet remTok (fun v => set_remainingTokensMinute (parseInt v)) state in
  let state := whenSet limitReq (fun v => set_limitRequestsDay (parseInt v)) state in
  let state := whenSet limitTok (fun v => set_limitTokensMinute (parseInt v)) state in
  let state :=
    whenSet resetReqStr
      (fun v => set_resetRequestsAt (nadd (ofZ now) (parseGroqDuration v))) state in
  let state :=
    whenSet resetTokStr
      (fun v => set_resetTokensAt (nadd (ofZ now) (parseGroqDuration v))) state in
  let state := whenSet retryAfter (fun v => set_retryAfter (parseInt v)) state in
  set_lastUpdated (ofZ now) state.

(** [updateFromCerebrasHeaders]. *)
Definition updateFromCerebrasHeaders (state : RateLimitState)
    (headers : Headers) (now : Z) : RateLimitState :=
  let remReq := headers !! "x-ratelimit-remaining-requests-day" in
  let remTok := headers !! "x-ratelimit-remaining-tokens-minute" in
  let limitReq := headers !! "x-ratelimit-limit-requests-day" in
  let limitTok := headers !! "x-ratelimit-limit-tokens-minute" in
  let resetReq := headers !! "x-ratelimit-reset-requests-day" in
  let resetTok := headers !! "x-ratelimit-reset-tokens-minute" in
  let state := whenSet remReq (fun v => set_remainingRequestsDay (parseInt v)) state in
  let state := whenSet remTok (fun v => set_remainingTokensMinute (parseInt v)) state in
  let state := whenSet limitReq (fun v => set_limitRequestsDay (parseInt v)) state in
  let state := whenSet limitTok (fun v => set_limitTokensMinute (parseInt v)) state in
  let state :=
    whenSet resetReq (fun v => set_resetRequestsDaySeconds (parseFloat v)) state in
  let state :=
    whenSet resetTok (fun v => set_resetTokensMinuteSeconds (parseFloat v)) state in
  set_lastUpdated (ofZ now) state.

(** [updateFromHeaders]: nothing happens for a model without stats. *)
Definition updateFromHeaders (tr : t) (modelId : string)
    (provider : ProviderName) (headers : Headers) (now : Z) : t :=
  match stats tr !! modelId with
  | None => tr
  | Some stats =>
      match provider with
      | groq =>
          store tr modelId
            (UsageStats.set_rateLimitState
               (updateFromGroqHeaders (UsageStats.rateLimitState stats) headers now)
               stats)
      | cerebras =>
          store tr modelId
            (UsageStats.set_rateLimitState
               (updateFromCerebrasHeaders (UsageStats.rateLimitState stats) headers now)
               stats)
      end
  end.

Definition canRequestGroq (stats : UsageStats) (estimatedTokens : num)
    (now : Z) : Check :=
  let state := UsageStats.rateLimitState stats in
  let now := ofZ now in
  (* Check retry-after (only set on 429) *)
  if truthy (read (retryAfter state))
     && ngt (nadd (lastUpdated state) (nmul (read (retryAfter state)) (ofZ 1000))) now
  then
    let waitSec :=
      nceil (nsub (read (retryAfter state))
                  (ndivc (nsub now (lastUpdated state)) 1000)) in
    Check.mk false (Some (RetryAfterReason waitSec)) stats
  (* Check requests per day *)
  else if nle (remainingRequestsDay state) (ofZ 0)
          && ngt (read (resetRequestsAt state)) now
  then
    let waitSec := nceil (ndivc (nsub (read (resetRequestsAt state)) now) 1000) in
    Check.mk false (Some (DailyRequestsReason (formatDuration waitSec))) stats
  (* Check tokens per minute *)
  else if nlt (remainingTokensMinute state) estimatedTokens
          && ngt (read (resetTokensAt state)) now
  then
    let waitSec := nceil (ndivc (nsub (read (resetTokensAt state)) now) 1000) in
    Check.mk false (Some (TokenLimitReason waitSec)) stats
  else Check.mk true None stats.

Definition canRequestCerebras (stats : UsageStats) (estimatedTokens : num)
    (_now : Z) : Check :=
  let state := UsageStats.rateLimitState stats in
  (* Check requests per day *)
  if nle (remainingRequestsDay state) (ofZ 0)
     && ngt (read (resetRequestsDaySeconds state)) (ofZ 0)
  then
    Check.mk false
      (Some (DailyRequestsReason
               (formatDuration (nceil (read (resetRequestsDaySeconds state))))))
      stats
  (* Check tokens per minute *)
  else if nlt (remainingTokensMinute state) estimatedTokens
          && ngt (read (resetTokensMinuteSeconds state)) (ofZ 0)
  then
    Check.mk false
      (Some (TokenLimitReason (nceil (read (resetTokensMinuteSeconds state)))))
      stats
  else Check.mk true None stats.

(** [canRequest]: check if a model can accept a request. *)
Definition canRequest (tr : t) (model : ModelConfig) (estimatedInputTokens : num)
    (dayStart now : Z) : t * Check :=
  let '(tr, stats) := getStats tr model dayStart in
  match ModelConfig.provider model with
  | groq => (tr, canRequestGroq stats estimatedInputTokens now)
  | cerebras => (tr, canRequestCerebras stats estimatedInputTokens now)
  end.

(** [recordRequest]: the optimistic update before the headers arrive.  The
    two branches on [model.provider] run the same two statements. *)
Definition recordRequest (tr : t) (model : ModelConfig) (_provider : ProviderName)
    (inputTokens : num) (dayStart : Z) : t :=
  let '(tr, stats) := getStats tr model dayStart in
  let requestsToday := nadd (UsageStats.requestsToday stats) (ofZ 1) in
  let tokensToday := nadd (UsageStats.tokensToday stats) inputTokens in
  let state := UsageStats.rateLimitState stats in
  let state :=
    if ngt (remainingRequestsDay state) (ofZ 0)
    then set_remainingRequestsDay (nsub (remainingRequestsDay state) (ofZ 1)) state
    else state in
  let state :=
    if ngt (remainingTokensMinute state) (ofZ 0)
    then set_remainingTokensMinute (nsub (remainingTokensMinute state) inputTokens) state
    else state in
  store tr (ModelConfig.id model)
    {| UsageStats.provider := UsageStats.provider stats;
       UsageStats.rateLimitState := state;
       UsageStats.requestsToday := requestsToday;
       UsageStats.tokensToday := tokensToday;
       UsageStats.dayStart := UsageStats.dayStart stats |}.

(** [recordUsage]: append to the history, keep its second half once it
    outgrows [maxHistorySize]. *)
Definition recordUsage (tr : t) (modelId : string) (provider : ProviderName)
    (inputTokens outputTokens : num) (now : Z) : t :=
  let record := UsageRecord.mk modelId provider now inputTokens outputTokens in
  let history := history tr ++ [record] in
  let history :=
    if maxHistorySize <? Z.of_nat (length history)
    then drop (length history - Z.to_nat (maxHistorySize / 2)) history
    else history in
  mk (stats tr) history.

Definition getUsageStats (tr : t) (modelId : string) : option UsageStats :=
  stats tr !! modelId.

Definition getRemainingCapacity (tr : t) (model : ModelConfig)
    (dayStart now : Z) : t * Capacity.t :=
  let '(tr, stats) := getStats tr model dayStart in
  let state := UsageStats.rateLimitState stats in
  match ModelConfig.provider model with
  | groq =>
      (tr, {| Capacity.requests := remainingRequestsDay state;
              Capacity.tokens := remainingTokensMinute state;
              Capacity.requestsResetAt := resetRequestsAt state;
              Capacity.tokensResetAt := resetTokensAt state |})
  | cerebras =>
      (tr, {| Capacity.requests := remainingRequestsDay state;
              Capacity.tokens := remainingTokensMinute state;
              Capacity.requestsResetAt :=
                Some (nadd (ofZ now)
                        (nmul (read (resetRequestsDaySeconds state)) (ofZ 1000)));
              Capacity.tokensResetAt :=
                Some (nadd (ofZ now)
                        (nmul (read (resetTokensMinuteSeconds state)) (ofZ 1000))) |})
  end.

Definition getRateLimitInfo (tr : t) (model : ModelConfig)
    (dayStart now : Z) : t * RateLimitInfo.t :=
  let '(tr, stats) := getStats tr model dayStart in
  let state := UsageStats.rateLimitState stats in
  match ModelConfig.provider model with
  | groq =>
      let now := ofZ now in
      let reqResetIn :=
        if ngt (read (resetRequestsAt state)) now
        then ResetIn (formatDuration
                        (nceil (ndivc (nsub (read (resetRequestsAt state)) now) 1000)))
        else ResetNow in
      let tokResetIn :=
        if ngt (read (resetTokensAt state)) now
        then ResetInSeconds (nceil (ndivc (nsub (read (resetTokensAt state)) now) 1000))
        else ResetNow in
      (tr, {| RateLimitInfo.provider := groq;
              RateLimitInfo.remainingRequests := remainingRequestsDay state;
              RateLimitInfo.remainingTokens := remainingTokensMinute state;
              RateLimitInfo.limitRequests := limitRequestsDay state;
              RateLimitInfo.limitTokens := limitTokensMinute state;
              RateLimitInfo.resetInfo := (reqResetIn, tokResetIn);
              RateLimitInfo.lastUpdated := lastUpdated state |})
  | cerebras =>
      (tr, {| RateLimitInfo.provider := cerebras;
              RateLimitInfo.remainingRequests := remainingRequestsDay state;
              RateLimitInfo.remainingTokens := remainingTokensMinute state;
              RateLimitInfo.limitRequests := limitRequestsDay state;
              RateLimitInfo.limitTokens := limitTokensMinute state;
              RateLimitInfo.resetInfo :=
                (ResetIn (formatDuration (nceil (read (resetRequestsDaySeconds state)))),
                 ResetInSeconds (nceil (read (resetTokensMinuteSeconds state))));
              RateLimitInfo.lastUpdated := lastUpdated state |})
  end.


(** The [options] of [getHistory]; [None] is an absent property. *)
Module HistoryOptions.
Record t : Type := mk {
  modelId : option string;
  provider : option ProviderName;
  since : option num;
  limit : option num;
}.
End HistoryOptions.

(** [getHistory]: the records of the history that pass the filters given,
    the last [limit] of them when a limit is given.  A filter is applied
    when its option is truthy ([since]: when it is defined). *)
Definition getHistory (tr : t) (options : option HistoryOptions.t)
    : list UsageRecord :=
  let filtered := history tr in
  let filtered :=
    match options ≫= HistoryOptions.modelId with
    | Some modelId =>
        if String.eqb modelId "" then filtered
        else filter (fun r => UsageRecord.modelId r = modelId) filtered
    | None => filtered
    end in
  let filtered :=
    match options ≫= HistoryOptions.provider with
    | Some provider =>
        filter (fun r => providerString (UsageRecord.provider r)
                         = providerString provider) filtered
    | None => filtered
    end in
  let filtered :=
    match options ≫= HistoryOptions.since with
    | Some since =>
        filter (fun r => nle since (ofZ (UsageRecord.timestamp r)) = true) filtered
    | None => filtered
    end in
  match options ≫= HistoryOptions.limit with
  | Some limit => if truthy limit then slice (nneg limit) filtered else filtered
  | None => filtered
  end.

End UsageTracker.

(** ** The configuration of providers and models *)

Module ProviderConfig.
Record t : Type := mk {
  name : ProviderName;
  apiKeyEnv : string;
  models : list ModelConfig;
}.
End ProviderConfig.

Module Config.

(** The helper functions read the module constant [providers]; here it is
    their first argument. *)

(** [getEnabledModels]: all enabled models across all providers. *)
Definition getEnabledModels (providers : list ProviderConfig.t)
    : list ModelConfig :=
  providers ≫=
    (fun p => filter (fun m => ModelConfig.enabled m = true) (ProviderConfig.models p)).

(** [getProviderConfig]: the first provider of that name. *)
Definition getProviderConfig (providers : list ProviderConfig.t) (name : string)
    : option ProviderConfig.t :=
  find (fun p => String.eqb (providerString (ProviderConfig.name p)) name) providers.

(** [getProviderModels]: the enabled models of a provider, [[]] for an
    unknown name. *)
Definition getProviderModels (providers : list ProviderConfig.t)
    (providerName : string) : list ModelConfig :=
  match getProviderConfig providers providerName with
  | Some provider =>
      filter (fun m => ModelConfig.enabled m = true) (ProviderConfig.models provider)
  | None => []
  end.

(** [getModelById]: the first model of that id, provider by provider,
    enabled or not. *)
Fixpoint getModelById (providers : list ProviderConfig.t) (modelId : string)
    : option ModelConfig :=
  match providers with
  | [] => None
  | provider :: rest =>
      match find (fun m => String.eqb (ModelConfig.id m) modelId)
              (ProviderConfig.models provider) with
      | Some model => Some model
      | None => getModelById rest modelId
      end
  end.

(** The constant [providers]. *)
Definition providers : list ProviderConfig.t := [
  {| ProviderConfig.name := groq;
     ProviderConfig.apiKeyEnv := "GROQ_API_KEY";
     ProviderConfig.models := [
      {| ModelConfig.id := "llama-3.3-70b-versatile";
         ModelConfig.name := "Llama 3.3 70B Versatile";
         ModelConfig.provider := groq;
         ModelConfig.limits :=
           RateLimits.mk 30 (None) 1000 12000 (None) 100000;
         ModelConfig.enabled := true |};
      {| ModelConfig.id := "llama-3.1-8b-instant";
         ModelConfig.name := "Llama 3.1 8B Instant";
         ModelConfig.provider := groq;
         ModelConfig.limits :=
           RateLimits.mk 30 (None) 14400 6000 (None) 500000;
         ModelConfig.enabled := true |};
      {| ModelConfig.id := "meta-llama/llama-4-maverick-17b-128e-instruct";
         ModelConfig.name := "Llama 4 Maverick 17B";
         ModelConfig.provider := groq;
         ModelConfig.limits :=
           RateLimits.mk 30 (None) 1000 6000 (None) 500000;
         ModelConfig.enabled := true |};
      {| ModelConfig.id := "meta-llama/llama-4-scout-17b-16e-instruct";
         ModelConfig.name := "Llama 4 Scout 17B";
         ModelConfig.provider := groq;
         ModelConfig.limits :=
           RateLimits.mk 30 (None) 1000 30000 (None) 500000;
         ModelConfig.enabled := true |};
      {| ModelConfig.id := "moonshotai/kimi-k2-instruct";
         ModelConfig.name := "Moonshot Kimi K2";
         ModelConfig.provider := groq;
         ModelConfig.limits :=
           RateLimits.mk 60 (None) 1000 10000 (None) 300000;
         ModelConfig.enabled := true |};
      {| ModelConfig.id := "openai/gpt-oss-120b";
         ModelConfig.name := "GPT OSS 120B";
         ModelConfig.provider := groq;
         ModelConfig.limits :=
           RateLimits.mk 30 (None) 1000 8000 (None) 200000;
         ModelConfig.enabled := true |};
      {| ModelConfig.id := "openai/gpt-oss-20b";
         ModelConfig.name := "GPT OSS 20B";
         ModelConfig.provider := groq;
         ModelConfig.limits :=
           RateLimits.mk 30 (None) 1000 8000 (None) 200000;
         ModelConfig.enabled := true |};
      {| ModelConfig.id := "qwen/qwen3-32b";
         ModelConfig.name := "Qwen 3 32B";
         ModelConfig.provider := groq;
         ModelConfig.limits :=
           RateLimits.mk 60 (None) 1000 6000 (None) 500000;
         ModelConfig.enabled := true |};
      {| ModelConfig.id := "meta-llama/llama-guard-4-12b";
         ModelConfig.name := "Llama Guard 4 12B";
         ModelConfig.provider := groq;
         ModelConfig.limits :=
           RateLimits.mk 30 (None) 14400 15000 (None) 500000;
         ModelConfig.enabled := false |} ] |};
  {| ProviderConfig.name := cerebras;
     ProviderConfig.apiKeyEnv := "CEREBRAS_API_KEY";
     ProviderConfig.models := [
      {| ModelConfig.id := "llama3.1-8b";
         ModelConfig.name := "Llama 3.1 8B";
         ModelConfig.provider := cerebras;
         ModelConfig.limits :=
           RateLimits.mk 30 (Some 900) 14400 60000 (Some 1000000) 1000000;
         ModelConfig.enabled := true |};
      {| ModelConfig.id := "llama-3.3-70b";
         ModelConfig.name := "Llama 3.3 70B";
         ModelConfig.provider := cerebras;
         ModelConfig.limits :=
           RateLimits.mk 30 (Some 900) 14400 60000 (Some 1000000) 1000000;
         ModelConfig.enabled := true |};
      {| ModelConfig.id := "qwen-3-32b";
         ModelConfig.name := "Qwen 3 32B";
         ModelConfig.provider := cerebras;
         ModelConfig.limits :=
           RateLimits.mk 30 (Some 900) 14400 60000 (Some 1000000) 1000000;
         ModelConfig.enabled := true |};
      {| ModelConfig.id := "qwen-3-235b-a22b-instruct-2507";
         ModelConfig.name := "Qwen 3 235B Instruct";
         ModelConfig.provider := cerebras;
         ModelConfig.limits :=
           RateLimits.mk 30 (Some 900) 14400 60000 (Some 1000000) 1000000;
         ModelConfig.enabled := true |};
      {| ModelConfig.id := "gpt-oss-120b";
         ModelConfig.name := "GPT OSS 120B";
         ModelConfig.provider := cerebras;
         ModelConfig.limits :=
           RateLimits.mk 30 (Some 900) 14400 60000 (Some 1000000) 1000000;
         ModelConfig.enabled := true |};
      {| ModelConfig.id := "zai-glm-4.6";
         ModelConfig.name := "ZAI GLM 4.6";
         ModelConfig.provider := cerebras;
         ModelConfig.limits :=
           RateLimits.mk 10 (Some 100) 100 150000 (Some 1000000) 1000000;
         ModelConfig.enabled := true |} ] |}
]%string.

End Config.

(** ** The model manager *)

(** A chat message; [content] is a string or something else (an array of
    parts, [null]).  The characters of a string stand for its UTF-16 code
    units, which is what [content.length] counts. *)
Inductive Content : Type :=
  | ContentString (s : string)
  | ContentOther.

Module ChatMessage.
Record t : Type := mk {
  role : string;
  content : Content;
}.
End ChatMessage.
Abbreviation ChatMessage := ChatMessage.t (only parsing).

(** One entry of [skipped]: ["${model.provider}/${model.id}: ${check.reason}"]. *)
Module Skipped.
Record t : Type := mk {
  provider : ProviderName;
  id : string;
  reason : option Reason;
}.
End Skipped.

(** What [getNextModel] throws:
    ["Model ${model.id} rate limited: ${check.reason}"],
    ["All models rate limited:\n${skipped.join('\n')}"],
    and the [TypeError] of reading a property of [undefined]. *)
Inductive Error : Type :=
  | RateLimitedError (id : string) (reason : option Reason)
  | AllExhaustedError (skipped : list Skipped.t)
  | TypeError.

Inductive Result (A : Type) : Type :=
  | Ok (value : A)
  | Throw (e : Error).
Arguments Ok {A} value.
Arguments Throw {A} e.

(** The readings one iteration of the selection loop takes from its
    environment. *)
Module Env.
Record t : Type := mk {
  dayStart : Z;
  now : Z;
  random : Q;
}.
End Env.

Module ModelManager.

Record t : Type := mk {
  models : list ModelConfig;
  currentIndex : nat;
  strategy : RotationStrategy;
  autoFallback : bool;
  usageCount : gmap string nat;
}.

Module Options.
Record t : Type := mk {
  strategy : option RotationStrategy;
  autoFallback : option bool;
  providers : option (list string);
  modelIds : option (list string);
}.
End Options.

Definition includes (l : list string) (s : string) : bool :=
  existsb (String.eqb s) l.

(** The constructor; [enabledModels] is the result of [getEnabledModels()]. *)
Definition new (options : Options.t) (enabledModels : list ModelConfig)
    : option t :=
  let models := enabledModels in
  let models :=
    match Options.providers options with
    | Some (p :: ps) =>
        filter (fun m => includes (p :: ps) (providerString (ModelConfig.provider m)) = true)
          models
    | _ => models
    end in
  let models :=
    match Options.modelIds options with
    | Some (i :: ids) =>
        filter (fun m => includes (i :: ids) (ModelConfig.id m) = true) models
    | _ => models
    end in
  match models with
  | [] => None (* 'No enabled models available with the specified filters' *)
  | _ =>
      Some {| models := models;
              currentIndex := 0;
              strategy := default round_robin (Options.strategy options);
              autoFallback := default true (Options.autoFallback options);
              usageCount := ∅ |}
  end.

(** [estimateTokens]: about four characters per token. *)
Definition estimateTokens (messages : list ChatMessage) : num :=
  let totalChars :=
    fold_left
      (fun sum m =>
         let content :=
           match ChatMessage.content m with
           | ContentString s => s
           | ContentOther => ""
           end in
         nadd sum (ofNat (String.length content)))
      messages (ofZ 0) in
  nceil (ndivc totalChars 4).

Definition count (mgr : t) (m : ModelConfig) : nat :=
  default 0%nat (usageCount mgr !! ModelConfig.id m).

(** [[...models].sort((a, b) => aCount - bCount)]: a stable sort, by
    insertion from the right. *)
Fixpoint insertByCount (mgr : t) (a : ModelConfig) (sorted : list ModelConfig)
    : list ModelConfig :=
  match sorted with
  | [] => [a]
  | b :: rest =>
      if (count mgr a <=? count mgr b)%nat then a :: sorted
      else b :: insertByCount mgr a rest
  end.

Definition sortByCount (mgr : t) (l : list ModelConfig) : list ModelConfig :=
  foldr (insertByCount mgr) [] l.

(** [selectByStrategy]: [None] is [undefined].  [rnd] is the reading of
    [Math.random()].  The [default:] branch of the [switch] is not
    represented: the strategy has one of the three values of
    [RotationStrategy]. *)
Definition selectByStrategy (mgr : t) (rnd : Q) : option ModelConfig * t :=
  match strategy mgr with
  | round_robin =>
      let model := models mgr !! currentIndex mgr in
      (model,
       {| models := models mgr;
          currentIndex := (currentIndex mgr + 1) mod length (models mgr);
          strategy := strategy mgr;
          autoFallback := autoFallback mgr;
          usageCount := usageCount mgr |})
  | random =>
      let i := Qfloor (rnd * inject_Z (Z.of_nat (length (models mgr)))) in
      ((if i <? 0 then None else models mgr !! Z.to_nat i), mgr)
  | least_used =>
      let sorted := sortByCount mgr (models mgr) in
      (sorted !! 0%nat, mgr)
  end.

(** [usageCount.set(id, (usageCount.get(id) ?? 0) + 1)]. *)
Definition addUsage (mgr : t) (modelId : string) : t :=
  {| models := models mgr;
     currentIndex := currentIndex mgr;
     strategy := strategy mgr;
     autoFallback := autoFallback mgr;
     usageCount :=
       <[modelId := (default 0 (usageCount mgr !! modelId) + 1)%nat]> (usageCount mgr) |}.

Definition skippedEntry (model : ModelConfig) (check : Check) : Skipped.t :=
  Skipped.mk (ModelConfig.provider model) (ModelConfig.id model) (Check.reason check).

(** The [while (attempts < this.models.length)] loop of [getNextModel].
    [remaining] is [this.models.length - attempts]; [env attempts] holds the
    readings of the iteration. *)
Fixpoint selectLoop (remaining attempts : nat) (env : nat -> Env.t)
    (estimatedTokens : num) (mgr : t) (tr : UsageTracker.t)
    (skipped : list Skipped.t)
    : t * UsageTracker.t * Result (ModelConfig * list Skipped.t) :=
  match remaining with
  | O => (mgr, tr, Throw (AllExhaustedError skipped))
  | S remaining' =>
      let '(model, mgr) := selectByStrategy mgr (Env.random (env attempts)) in
      match model with
      | None => (mgr, tr, Throw TypeError)
      | Some model =>
          let '(tr, check) :=
            UsageTracker.canRequest tr model estimatedTokens
              (Env.dayStart (env attempts)) (Env.now (env attempts)) in
          if Check.allowed check then
            (addUsage mgr (ModelConfig.id model), tr, Ok (model, skipped))
          else if autoFallback mgr then
            selectLoop remaining' (S attempts) env estimatedTokens mgr tr
              (skipped ++ [skippedEntry model check])
          else
            (mgr, tr, Throw (RateLimitedError (ModelConfig.id model) (Check.reason check)))
      end
  end.

(** [getNextModel]: the next available model that respects rate limits. *)
Definition getNextModel (mgr : t) (tr : UsageTracker.t)
    (messages : list ChatMessage) (env : nat -> Env.t)
    : t * UsageTracker.t * Result (ModelConfig * list Skipped.t) :=
  let estimatedTokens := estimateTokens messages in
  selectLoop (length (models mgr)) 0 env estimatedTokens mgr tr [].

Definition getModel (mgr : t) (modelId : string) : option ModelConfig :=
  find (fun m => String.eqb (ModelConfig.id m) modelId) (models mgr).

Definition setStrategy (mgr : t) (strategy : RotationStrategy) : t :=
  {| models := models mgr;
     currentIndex := currentIndex mgr;
     strategy := strategy;
     autoFallback := autoFallback mgr;
     usageCount := usageCount mgr |}.

Definition resetUsageCount (mgr : t) : t :=
  {| models := models mgr;
     currentIndex := currentIndex mgr;
     strategy := strategy mgr;
     autoFallback := autoFallback mgr;
     usageCount := ∅ |}.


(** [getAllModels]: a copy of the candidates. *)
Definition getAllModels (mgr : t) : list ModelConfig := models mgr.

(** [getAvailableModels]: the candidates whose admission check allows, in
    order; the checks run one after the other on the tracker, [env i]
    holding the readings of the check of candidate [i]. *)
Fixpoint availableFrom (candidates : list ModelConfig) (i : nat)
    (env : nat -> Env.t) (estimatedTokens : num) (tr : UsageTracker.t)
    : UsageTracker.t * list ModelConfig :=
  match candidates with
  | [] => (tr, [])
  | m :: rest =>
      let '(tr, check) :=
        UsageTracker.canRequest tr m estimatedTokens
          (Env.dayStart (env i)) (Env.now (env i)) in
      let '(tr, available) := availableFrom rest (S i) env estimatedTokens tr in
      (tr, if Check.allowed check then m :: available else available)
  end.

Definition getAvailableModels (mgr : t) (tr : UsageTracker.t)
    (estimatedTokens : num) (env : nat -> Env.t)
    : UsageTracker.t * list ModelConfig :=
  availableFrom (models mgr) 0 env estimatedTokens tr.

(** One entry of [getStatus]. *)
Module Status.
Record t : Type := mk {
  model : ModelConfig;
  available : bool;
  reason : option Reason;
  remaining : Capacity.t;
}.
End Status.

(** [getStatus]: for each candidate the admission check (with the default
    estimate [0]) and then the remaining capacity.  The two calls of a
    candidate take their readings one after the other: [env i] for the
    check, [env (i + 1)] for the capacity. *)
Fixpoint statusFrom (candidates : list ModelConfig) (i : nat)
    (env : nat -> Env.t) (tr : UsageTracker.t)
    : UsageTracker.t * list Status.t :=
  match candidates with
  | [] => (tr, [])
  | m :: rest =>
      let '(tr, check) :=
        UsageTracker.canRequest tr m (ofZ 0)
          (Env.dayStart (env i)) (Env.now (env i)) in
      let '(tr, remaining) :=
        UsageTracker.getRemainingCapacity tr m
          (Env.dayStart (env (S i))) (Env.now (env (S i))) in
      let '(tr, statuses) := statusFrom rest (S (S i)) env tr in
      (tr, Status.mk m (Check.allowed check) (Check.reason check) remaining
             :: statuses)
  end.

Definition getStatus (mgr : t) (tr : UsageTracker.t) (env : nat -> Env.t)
    : UsageTracker.t * list Status.t :=
  statusFrom (models mgr) 0 env tr.

End ModelManager.

(** ** The chat route ([index.ts]) *)

(** The estimate the route passes to [recordRequest]: each message rounded
    up on its own. *)
Definition chatEstimatedTokens (messages : list ChatMessage) : num :=
  fold_left
    (fun sum m =>
       let content :=
         match ChatMessage.content m with
         | ContentString s => s
         | ContentOther => ""
         end in
       nadd sum (nceil (ndivc (ofNat (String.length content)) 4)))
    messages (ofZ 0).



(** The part of the [/chat] handler that runs before the provider is
    called: the validation of the body, the selection of the model and the
    optimistic record of the request.  [getProvider] finds both provider
    names in its registry and is not represented. *)
Module Chat.

(** The [error] of a JSON response. *)
Inductive ErrorBody : Type :=
  | MessagesRequired (* 'messages is required and must be a non-empty array' *)
  | InvalidRole (* 'Each message must have a valid role' *)
  | ModelNotFound (requestedModelId : string)
      (* `Model "${requestedModelId}" not found` *)
  | CheckReason (reason : option Reason) (* check.reason *)
  | ErrorMessage (e : Error) (* error.message, from the catch block *)
  | ParseMessage (message : string). (* the message of the JSON parser *)

(** What the handler does next: it answers with a status and an error, or
    it goes on to [provider.chat(messages, model)]. *)
Inductive Response : Type :=
  | Json (status : Z) (body : ErrorBody)
  | Call (model : ModelConfig) (skipped : list Skipped.t).

(** [message.includes('rate limit')] on the messages of the errors of
    [getNextModel]: 'Model ... rate limited: ...' and
    'All models rate limited: ...' include it, the message of the
    [TypeError] does not. *)
Definition includesRateLimit (e : Error) : bool :=
  match e with
  | RateLimitedError _ _ => true
  | AllExhaustedError _ => true
  | TypeError => false
  end.

(** [!msg.role]: the role is the empty string.  ([role] is a string here,
    as in the type [ChatMessage].) *)
Definition invalidRole (msg : ChatMessage) : bool :=
  String.eqb (ChatMessage.role msg) "".

(** The handler on a body whose [messages], if an array, holds messages
    ([post] below takes the body as it arrives).  [messages] is [None] when
    the body has no array under [messages]; [requestedModelId] is [None]
    when the body has no [model].  The readings of [env] are taken in order:
    one per admission check, then one for the record. *)
Definition chat (mgr : ModelManager.t) (tr : UsageTracker.t)
    (messages : option (list ChatMessage)) (requestedModelId : option string)
    (env : nat -> Env.t)
    : ModelManager.t * UsageTracker.t * Response :=
  match messages with
  | None => (mgr, tr, Json 400 MessagesRequired)
  | Some [] => (mgr, tr, Json 400 MessagesRequired)
  | Some messages =>
      if existsb invalidRole messages then (mgr, tr, Json 400 InvalidRole)
      else
        let record '(mgr, tr, model, skipped) :=
          let estimatedTokens := chatEstimatedTokens messages in
          let tr :=
            UsageTracker.recordRequest tr model (ModelConfig.provider model)
              estimatedTokens (Env.dayStart (env (S (length skipped)))) in
          (mgr, tr, Call model skipped) in
        let rotate :=
          match ModelManager.getNextModel mgr tr messages env with
          | (mgr, tr, Ok (model, skipped)) => record (mgr, tr, model, skipped)
          | (mgr, tr, Throw e) =>
              if includesRateLimit e then (mgr, tr, Json 429 (ErrorMessage e))
              else (mgr, tr, Json 500 (ErrorMessage e))
          end in
        match requestedModelId with
        | None => rotate
        | Some requestedModelId =>
            if String.eqb requestedModelId "" then rotate
            else
              match ModelManager.getModel mgr requestedModelId with
              | None => (mgr, tr, Json 404 (ModelNotFound requestedModelId))
              | Some model =>
                  let '(tr, check) :=
                    UsageTracker.canRequest tr model (ofZ 0)
                      (Env.dayStart (env 0%nat)) (Env.now (env 0%nat)) in
                  if Check.allowed check then record (mgr, tr, model, [])
                  else (mgr, tr, Json 429 (CheckReason (Check.reason check)))
              end
        end
  end.

(** The body as it arrives.  [c.req.json()] throws on a text that is not
    JSON, with a message of the parser; the JSON [null] cannot be
    destructured; otherwise [messages] and [model] are read from the value
    ([undefined] when it has no such property). *)

(** An element of the array [messages]: [null] (reading [msg.role] throws),
    another value whose [role] is not a string, or a message. *)
Inductive Element : Type :=
  | ElementNull
  | ElementNoRole
  | ElementMessage (msg : ChatMessage).

(** The property [model]: absent or falsy, a string, or another truthy
    value, with the text it has in a template literal. *)
Inductive ModelField : Type :=
  | ModelAbsent
  | ModelId (requestedModelId : string)
  | ModelOther (shown : string).

(** [messages] is [None] when the property is falsy or not an array. *)
Inductive Body : Type :=
  | Unparsable (message : string)
  | BodyNull
  | Parsed (messages : option (list Element)) (model : ModelField).

(** The [for (const msg of messages)] loop: the answer of the first element
    that ends the handler, [None] when every element has a role. *)
Fixpoint checkRoles (elements : list Element) : option Response :=
  match elements with
  | [] => None
  | ElementNull :: _ => Some (Json 500 (ErrorMessage TypeError))
  | ElementNoRole :: _ => Some (Json 400 InvalidRole)
  | ElementMessage msg :: rest =>
      if invalidRole msg then Some (Json 400 InvalidRole) else checkRoles rest
  end.

Definition messagesOf (elements : list Element) : list ChatMessage :=
  omap (fun element =>
          match element with
          | ElementMessage msg => Some msg
          | _ => None
          end) elements.

(** The handler from the body on, up to the call of the provider. *)
Definition post (mgr : ModelManager.t) (tr : UsageTracker.t) (body : Body)
    (env : nat -> Env.t)
    : ModelManager.t * UsageTracker.t * Response :=
  match body with
  | Unparsable message =>
      (* message.includes('rate limit') *)
      match String.index 0 "rate limit" message with
      | Some _ => (mgr, tr, Json 429 (ParseMessage message))
      | None => (mgr, tr, Json 500 (ParseMessage message))
      end
  | BodyNull => (mgr, tr, Json 500 (ErrorMessage TypeError))
  | Parsed None _ => (mgr, tr, Json 400 MessagesRequired)
  | Parsed (Some []) _ => (mgr, tr, Json 400 MessagesRequired)
  | Parsed (Some elements) model =>
      match checkRoles elements with
      | Some response => (mgr, tr, response)
      | None =>
          match model with
          | ModelAbsent => chat mgr tr (Some (messagesOf elements)) None env
          | ModelId requestedModelId =>
              chat mgr tr (Some (messagesOf elements)) (Some requestedModelId) env
          | ModelOther shown => (mgr, tr, Json 404 (ModelNotFound shown))
          end
      end
  end.

End Chat.


(** * Vocabulary of the statements *)

Import UsageTracker.

(** [a === b] on numbers. *)
Definition numEq (a b : num) : bool :=
  match a, b with
  | Num x, Num y => Qeq_bool x y
  | _, _ => false
  end.

(** ** Headers *)

Definition supplied (headers : Headers) (key : string) : Prop :=
  exists v, headers !! key = Some v /\ v <> ""%string.

Definition missing (headers : Headers) (key : string) : Prop :=
  headers !! key = None \/ headers !! key = Some ""%string.

(** The text of a header, [""] for [null]. *)
Definition text (headers : Headers) (key : string) : string :=
  default ""%string (headers !! key).

(** The properties of a rate-limit state that a response can report. *)
Inductive Field : Type :=
  | RemainingRequests | RemainingTokens | LimitRequests | LimitTokens
  | ResetRequestsAt | ResetTokensAt | RetryAfter
  | ResetRequestsDaySeconds | ResetTokensMinuteSeconds.

Definition fieldValue (f : Field) (state : RateLimitState) : option num :=
  match f with
  | RemainingRequests => Some (remainingRequestsDay state)
  | RemainingTokens => Some (remainingTokensMinute state)
  | LimitRequests => Some (limitRequestsDay state)
  | LimitTokens => Some (limitTokensMinute state)
  | ResetRequestsAt => resetRequestsAt state
  | ResetTokensAt => resetTokensAt state
  | RetryAfter => retryAfter state
  | ResetRequestsDaySeconds => resetRequestsDaySeconds state
  | ResetTokensMinuteSeconds => resetTokensMinuteSeconds state
  end.

(** The header each update function reads for a field. *)
Definition headerOf (provider : ProviderName) (f : Field) : option string :=
  match provider, f with
  | groq, RemainingRequests => Some "x-ratelimit-remaining-requests"
  | groq, RemainingTokens => Some "x-ratelimit-remaining-tokens"
  | groq, LimitRequests => Some "x-ratelimit-limit-requests"
  | groq, LimitTokens => Some "x-ratelimit-limit-tokens"
  | groq, ResetRequestsAt => Some "x-ratelimit-reset-requests"
  | groq, ResetTokensAt => Some "x-ratelimit-reset-tokens"
  | groq, RetryAfter => Some "retry-after"
  | cerebras, RemainingRequests => Some "x-ratelimit-remaining-requests-day"
  | cerebras, RemainingTokens => Some "x-ratelimit-remaining-tokens-minute"
  | cerebras, LimitRequests => Some "x-ratelimit-limit-requests-day"
  | cerebras, LimitTokens => Some "x-ratelimit-limit-tokens-minute"
  | cerebras, ResetRequestsDaySeconds => Some "x-ratelimit-reset-requests-day"
  | cerebras, ResetTokensMinuteSeconds => Some "x-ratelimit-reset-tokens-minute"
  | _, _ => None
  end%string.

(** The value an update function stores for a field from the text [v]. *)
Definition reportedValue (f : Field) (now : Z) (v : string) : num :=
  match f with
  | RemainingRequests | RemainingTokens | LimitRequests | LimitTokens
  | RetryAfter => parseInt v
  | ResetRequestsAt | ResetTokensAt => nadd (ofZ now) (parseGroqDuration v)
  | ResetRequestsDaySeconds | ResetTokensMinuteSeconds => parseFloat v
  end.

Definition updateFor (provider : ProviderName)
    : RateLimitState -> Headers -> Z -> RateLimitState :=
  match provider with
  | groq => updateFromGroqHeaders
  | cerebras => updateFromCerebrasHeaders
  end.



(** ** Runs of the tracker *)

(** A sequence of [recordRequest] calls for one model, each with its token
    estimate and the day start read at the call. *)
Definition recordRequests (tr : UsageTracker.t) (model : ModelConfig)
    (reqs : list (num * Z)) : UsageTracker.t :=
  foldl (fun tr r => recordRequest tr model (ModelConfig.provider model) r.1 r.2)
    tr reqs.

(** The state of a model, as [getUsageStats] shows it. *)
Definition stateOf (tr : UsageTracker.t) (modelId : string) : option RateLimitState :=
  UsageStats.rateLimitState <$> getUsageStats tr modelId.

(** ** Sample configuration *)

Definition sampleLimits : RateLimits :=
  {| RateLimits.requestsPerMinute := 30;
     RateLimits.requestsPerHour := None;
     RateLimits.requestsPerDay := 1;
     RateLimits.tokensPerMinute := 6000;
     RateLimits.tokensPerHour := None;
     RateLimits.tokensPerDay := 500000 |}.

Definition sampleModel (id : string) (provider : ProviderName) : ModelConfig :=
  {| ModelConfig.id := id;
     ModelConfig.name := id;
     ModelConfig.provider := provider;
     ModelConfig.limits := sampleLimits;
     ModelConfig.enabled := true |}.

Definition modelA : ModelConfig := sampleModel "model-a" groq.
Definition modelB : ModelConfig := sampleModel "model-b" cerebras.
Definition modelC : ModelConfig := sampleModel "model-c" groq.

(** A tracker that has seen [model] once, at [now = 1000] on day [0]. *)
Definition seen (model : ModelConfig) : UsageTracker.t :=
  (canRequest UsageTracker.empty model (ofZ 0) 0 1000).1.


(** Headers of a Groq response that report a full snapshot. *)
Definition sampleGroqHeaders : Headers :=
  list_to_map
    [("x-ratelimit-remaining-requests", "0");
     ("x-ratelimit-remaining-tokens", "5000");
     ("x-ratelimit-limit-requests", "1000");
     ("x-ratelimit-limit-tokens", "6000");
     ("x-ratelimit-reset-requests", "1h");
     ("x-ratelimit-reset-tokens", "7.66s")]%string.

(** Headers of a Cerebras response: no request left today, the daily window
    resets in sixty seconds. *)
Definition sampleCerebrasHeaders : Headers :=
  list_to_map
    [("x-ratelimit-remaining-requests-day", "0");
     ("x-ratelimit-reset-requests-day", "60")]%string.

(** A response whose remaining-requests header is not a number. *)
Definition malformedHeaders : Headers :=
  {[ "x-ratelimit-remaining-requests"%string := "abc"%string ]}.


(** ** Admission *)

(** The four outcomes of the admission check. *)
Inductive Decision : Type :=
  | Allowed
  | DeniedCooldown
  | DeniedRequests
  | DeniedTokens.

(** The outcome a [Check] stands for; a denial without a reason is none. *)
Definition decisionOf (check : Check) : option Decision :=
  if Check.allowed check then Some Allowed
  else
    match Check.reason check with
    | Some (RetryAfterReason _) => Some DeniedCooldown
    | Some (DailyRequestsReason _) => Some DeniedRequests
    | Some (TokenLimitReason _) => Some DeniedTokens
    | None => None
    end.

(** The rate budget of the specification: both reset markers are instants
    of the shared clock, in milliseconds. *)
Module RateBudget.
Record t : Type := mk {
  remainingRequests : num;
  remainingTokens : num;
  resetRequestsAt : num;
  resetTokensAt : num;
  retryAfter : option num;
  lastUpdated : num;
}.
End RateBudget.

(** The budget a state stands for.  Groq stores the reset instants; Cerebras
    stores the seconds that were left when the state was last updated, and
    has no cooldown. *)
Definition budgetOf (provider : ProviderName) (state : RateLimitState)
    : RateBudget.t :=
  match provider with
  | groq =>
      {| RateBudget.remainingRequests := remainingRequestsDay state;
         RateBudget.remainingTokens := remainingTokensMinute state;
         RateBudget.resetRequestsAt := read (resetRequestsAt state);
         RateBudget.resetTokensAt := read (resetTokensAt state);
         RateBudget.retryAfter := retryAfter state;
         RateBudget.lastUpdated := lastUpdated state |}
  | cerebras =>
      {| RateBudget.remainingRequests := remainingRequestsDay state;
         RateBudget.remainingTokens := remainingTokensMinute state;
         RateBudget.resetRequestsAt :=
           nadd (lastUpdated state)
             (nmul (read (resetRequestsDaySeconds state)) (ofZ 1000));
         RateBudget.resetTokensAt :=
           nadd (lastUpdated state)
             (nmul (read (resetTokensMinuteSeconds state)) (ofZ 1000));
         RateBudget.retryAfter := None;
         RateBudget.lastUpdated := lastUpdated state |}
  end.

(** A cooldown of [retryAfter] seconds is active until that long after the
    last update. *)
Definition cooldownActive (b : RateBudget.t) (now : Z) : bool :=
  truthy (read (RateBudget.retryAfter b))
  && ngt (nadd (RateBudget.lastUpdated b)
            (nmul (read (RateBudget.retryAfter b)) (ofZ 1000)))
         (ofZ now).

(** The admission order in the words of the specification: (1) an active
    cooldown denies; (2) a request budget <= 0 whose reset instant is in the
    future denies; (3) a token budget below the estimated cost whose reset
    instant is in the future denies; (4) otherwise allow. *)
Definition specAdmission (b : RateBudget.t) (estimatedTokens : num) (now : Z)
    : Decision :=
  if cooldownActive b now then DeniedCooldown
  else if nle (RateBudget.remainingRequests b) (ofZ 0)
          && ngt (RateBudget.resetRequestsAt b) (ofZ now)
  then DeniedRequests
  else if nlt (RateBudget.remainingTokens b) estimatedTokens
          && ngt (RateBudget.resetTokensAt b) (ofZ now)
  then DeniedTokens
  else Allowed.

(** What [canRequestCerebras] computes: the same order without a cooldown,
    a window counting as open while the stored seconds are positive. *)
Definition cerebrasDecision (state : RateLimitState) (estimatedTokens : num)
    : Decision :=
  if nle (remainingRequestsDay state) (ofZ 0)
     && ngt (read (resetRequestsDaySeconds state)) (ofZ 0)
  then DeniedRequests
  else if nlt (remainingTokensMinute state) estimatedTokens
          && ngt (read (resetTokensMinuteSeconds state)) (ofZ 0)
  then DeniedTokens
  else Allowed.

(** The Cerebras model of the sample, after a response at [now = 2000]
    reported no request left and a reset in sixty seconds. *)
Definition exhaustedCerebras : UsageTracker.t :=
  updateFromHeaders (seen modelB) "model-b" cerebras sampleCerebrasHeaders 2000.


(** The tracker after one optimistic admission of the Groq model of the
    sample: its single daily request is used up and no response has been
    reconciled yet. *)
Definition afterOneAdmission : UsageTracker.t :=
  recordRequest UsageTracker.empty modelA groq (ofZ 10) 0.


(** The Groq model of the sample after a response at [now = 2000] reported
    no request left and a reset in one hour. *)
Definition exhaustedGroq : UsageTracker.t :=
  updateFromHeaders (seen modelA) "model-a" groq sampleGroqHeaders 2000.

(** Headers of a Groq response that report one request left, a request
    window of one hour and 5000 tokens left. *)
Definition lastRequestHeaders : Headers :=
  list_to_map
    [("x-ratelimit-remaining-requests", "1");
     ("x-ratelimit-remaining-tokens", "5000");
     ("x-ratelimit-limit-requests", "1000");
     ("x-ratelimit-limit-tokens", "6000");
     ("x-ratelimit-reset-requests", "1h");
     ("x-ratelimit-reset-tokens", "7.66s")]%string.

(** The Groq model of the sample after that response, received at
    [now = 2000]: its request window is open until [now = 3602000]. *)
Definition oneRequestLeft : UsageTracker.t :=
  updateFromHeaders (seen modelA) "model-a" groq lastRequestHeaders 2000.


(** ** Messages *)

(** The length that counts for a message: that of a string content. *)
Definition contentLength (m : ChatMessage) : nat :=
  match ChatMessage.content m with
  | ContentString s => String.length s
  | ContentOther => 0
  end.

(** The combined content length of a message list. *)
Definition totalChars (messages : list ChatMessage) : nat :=
  foldr (fun m total => (contentLength m + total)%nat) 0%nat messages.

(** Four user messages of a hundred characters each. *)
Definition hundredChars : string :=
  let ten := "0123456789"%string in
  (ten ++ ten ++ ten ++ ten ++ ten ++ ten ++ ten ++ ten ++ ten ++ ten)%string.

Definition sampleMessages : list ChatMessage :=
  replicate 4 (ChatMessage.mk "user" (ContentString hundredChars)).


(** ** Runs of the manager *)

Abbreviation Selection := (Result (ModelConfig * list Skipped.t)) (only parsing).

(** What a call of [getNextModel] finds: the tracker (other requests may
    have changed it since the previous call), the messages, and the
    readings of its iterations. *)
Abbreviation World :=
  (nat -> UsageTracker.t * list ChatMessage * (nat -> Env.t)) (only parsing).

(** [k] consecutive calls of [getNextModel] on a manager, numbered from
    [call]. *)
Fixpoint consecutiveCalls (k call : nat) (mgr : ModelManager.t) (world : World)
    : list Selection :=
  match k with
  | O => []
  | S k' =>
      let '(tr, messages, env) := world call in
      let '(mgr', _, result) := ModelManager.getNextModel mgr tr messages env in
      result :: consecutiveCalls k' (S call) mgr' world
  end.

(** A call without rejection: a model is returned and nothing was skipped. *)
Definition noRejection (result : Selection) : Prop :=
  exists model, result = Ok (model, []).

(** The admission check that a call makes first allows [model]: the check on
    the tracker the call finds, with the estimate of its messages and the
    readings of its first iteration. *)
Definition admits (found : UsageTracker.t * list ChatMessage * (nat -> Env.t))
    (model : ModelConfig) : Prop :=
  let '(tr, messages, env) := found in
  Check.allowed
    (canRequest tr model (ModelManager.estimateTokens messages)
       (Env.dayStart (env 0%nat)) (Env.now (env 0%nat))).2 = true.

(** The candidates met by [k] steps of a cursor that starts at [c] and wraps
    around. *)
Fixpoint cycle {A : Type} (l : list A) (k c : nat) : list A :=
  match k with
  | O => []
  | S k' =>
      match l !! c with
      | Some x => x :: cycle l k' ((c + 1) mod length l)
      | None => []
      end
  end.

(** The readings of a quiet moment: day [0], [now = 5000]. *)
Definition quiet : nat -> Env.t := fun _ => Env.mk 0 5000 0.

Definition sampleManager (strategy : RotationStrategy) : ModelManager.t :=
  {| ModelManager.models := [modelA; modelB; modelC];
     ModelManager.currentIndex := 0;
     ModelManager.strategy := strategy;
     ModelManager.autoFallback := true;
     ModelManager.usageCount := ∅ |}.

(** The three models of the sample, each out of requests with its window
    still open at [now = 5000]. *)
Definition allExhausted : UsageTracker.t :=
  let tr := UsageTracker.empty in
  let tr := (canRequest tr modelA (ofZ 0) 0 1000).1 in
  let tr := (canRequest tr modelB (ofZ 0) 0 1000).1 in
  let tr := (canRequest tr modelC (ofZ 0) 0 1000).1 in
  let tr := updateFromHeaders tr "model-a" groq sampleGroqHeaders 2000 in
  let tr := updateFromHeaders tr "model-b" cerebras sampleCerebrasHeaders 2000 in
  updateFromHeaders tr "model-c" groq sampleGroqHeaders 2000.

(** The skipped entry of a sample model denied for its daily requests. *)
Definition deniedEntry (model : ModelConfig) (resetIn : Duration) : Skipped.t :=
  Skipped.mk (ModelConfig.provider model) (ModelConfig.id model)
    (Some (DailyRequestsReason resetIn)).


(** A response that carries nothing but a cooldown of thirty seconds. *)
Definition cooldownHeaders : Headers :=
  {[ "retry-after"%string := "30"%string ]}.

(** The budget that such a response, received at [now = 2000], reports for a
    model of the sample. *)
Definition cooldownBudget : RateBudget.t :=
  {| RateBudget.remainingRequests := ofZ 1;
     RateBudget.remainingTokens := ofZ 6000;
     RateBudget.resetRequestsAt := ofZ 0;
     RateBudget.resetTokensAt := ofZ 0;
     RateBudget.retryAfter := Some (ofZ 30);
     RateBudget.lastUpdated := ofZ 2000 |}.

(** The stored windows of a Cerebras state have not elapsed at [now]: the
    clock is not behind the last update, and a window with seconds left
    ends after [now]. *)
Definition windowsNotElapsed (state : RateLimitState) (now : Z) : Prop :=
  nle (lastUpdated state) (ofZ now) = true
  /\ (ngt (read (resetRequestsDaySeconds state)) (ofZ 0) = true ->
      ngt (RateBudget.resetRequestsAt (budgetOf cerebras state)) (ofZ now) = true)
  /\ (ngt (read (resetTokensMinuteSeconds state)) (ofZ 0) = true ->
      ngt (RateBudget.resetTokensAt (budgetOf cerebras state)) (ofZ now) = true).


(** ** Verdicts and seeds *)

(** What a check says: allowed or not, and why not. *)
Definition verdict (check : Check) : bool * option Reason :=
  (Check.allowed check, Check.reason check).

(** A number that is finite and not negative. *)
Definition nonNegative (a : num) : Prop :=
  exists q, a = Num q /\ (0 <= q)%Q.

(** The reset markers of a state are those of its creation: no response has
    been reconciled into them. *)
Definition seedMarkers (provider : ProviderName) (state : RateLimitState) : Prop :=
  match provider with
  | groq =>
      resetRequestsAt state = Some (ofZ 0)
      /\ resetTokensAt state = Some (ofZ 0)
      /\ retryAfter state = None
  | cerebras =>
      resetRequestsDaySeconds state = Some (ofZ 0)
      /\ resetTokensMinuteSeconds state = Some (ofZ 0)
  end.


(** ** Operations of the tracker *)

(** The public operations that take a model or a model id. *)
Inductive Op : Type :=
  | OpCanRequest (model : ModelConfig) (estimatedTokens : num) (dayStart now : Z)
  | OpRecordRequest (model : ModelConfig) (provider : ProviderName)
      (inputTokens : num) (dayStart : Z)
  | OpUpdateFromHeaders (modelId : string) (provider : ProviderName)
      (headers : Headers) (now : Z)
  | OpRecordUsage (modelId : string) (provider : ProviderName)
      (inputTokens outputTokens : num) (now : Z)
  | OpGetRemainingCapacity (model : ModelConfig) (dayStart now : Z)
  | OpGetRateLimitInfo (model : ModelConfig) (dayStart now : Z).

(** The tracker after an operation. *)
Definition run (tr : UsageTracker.t) (op : Op) : UsageTracker.t :=
  match op with
  | OpCanRequest model estimatedTokens dayStart now =>
      (canRequest tr model estimatedTokens dayStart now).1
  | OpRecordRequest model provider inputTokens dayStart =>
      recordRequest tr model provider inputTokens dayStart
  | OpUpdateFromHeaders modelId provider headers now =>
      updateFromHeaders tr modelId provider headers now
  | OpRecordUsage modelId provider inputTokens outputTokens now =>
      recordUsage tr modelId provider inputTokens outputTokens now
  | OpGetRemainingCapacity model dayStart now =>
      (getRemainingCapacity tr model dayStart now).1
  | OpGetRateLimitInfo model dayStart now =>
      (getRateLimitInfo tr model dayStart now).1
  end.

(** The model id whose stats an operation works on; [recordUsage] works on
    none. *)
Definition target (op : Op) : option string :=
  match op with
  | OpCanRequest model _ _ _ | OpRecordRequest model _ _ _
  | OpGetRemainingCapacity model _ _ | OpGetRateLimitInfo model _ _ =>
      Some (ModelConfig.id model)
  | OpUpdateFromHeaders modelId _ _ _ => Some modelId
  | OpRecordUsage _ _ _ _ _ => None
  end.

(** The operations that leave every rate-limit state as it is. *)
Definition readsOnly (op : Op) : bool :=
  match op with
  | OpCanRequest _ _ _ _ | OpRecordUsage _ _ _ _ _
  | OpGetRemainingCapacity _ _ _ | OpGetRateLimitInfo _ _ _ => true
  | OpRecordRequest _ _ _ _ | OpUpdateFromHeaders _ _ _ _ => false
  end.


(** ** Daily counters *)

(** The sum of the token estimates of a sequence of requests. *)
Definition sumTokens (reqs : list (num * Z)) : num :=
  foldr (fun r total => nadd r.1 total) (ofZ 0) reqs.


(** ** Queries of the history *)

(** The options without their limit. *)
Definition withoutLimit (options : option UsageTracker.HistoryOptions.t)
    : option UsageTracker.HistoryOptions.t :=
  (fun o =>
     UsageTracker.HistoryOptions.mk
       (UsageTracker.HistoryOptions.modelId o)
       (UsageTracker.HistoryOptions.provider o)
       (UsageTracker.HistoryOptions.since o) None) <$> options.


(** ** Admission along a selection *)

(** The admission check of [model] on the tracker [tr], with the readings
    of attempt [i]. *)
Definition checkAt (tr : UsageTracker.t) (estimatedTokens : num)
    (env : nat -> Env.t) (i : nat) (model : ModelConfig) : Check :=
  (canRequest tr model estimatedTokens
     (Env.dayStart (env i)) (Env.now (env i))).2.

(** The entries of the candidates [pre], denied one after the other from
    attempt [attempts] on. *)
Definition deniedEntries (tr : UsageTracker.t) (estimatedTokens : num)
    (env : nat -> Env.t) (attempts : nat) (pre : list ModelConfig)
    : list Skipped.t :=
  imap (fun i m =>
          ModelManager.skippedEntry m
            (checkAt tr estimatedTokens env (attempts + i) m))
    pre.

(** The usage count of a model id. *)
Definition countOf (mgr : ModelManager.t) (modelId : string) : nat :=
  default 0%nat (ModelManager.usageCount mgr !! modelId).


(** ** The constructor's filters *)

(** A filter of the options lets a string pass; an absent list and an empty
    list let every string pass. *)
Definition passes (allowed : option (list string)) (s : string) : Prop :=
  match allowed with
  | Some (x :: xs) => s ∈ x :: xs
  | _ => True
  end.

(** [m] is an enabled model of one of the providers. *)
Definition configured (providers : list ProviderConfig.t) (m : ModelConfig)
    : Prop :=
  exists p,
    p ∈ providers /\ m ∈ ProviderConfig.models p /\ ModelConfig.enabled m = true.

(** [m] is an enabled model that passes both filters of the options. *)
Definition kept (options : ModelManager.Options.t)
    (providers : list ProviderConfig.t) (m : ModelConfig) : Prop :=
  configured providers m
  /\ passes (ModelManager.Options.providers options)
       (providerString (ModelConfig.provider m))
  /\ passes (ModelManager.Options.modelIds options) (ModelConfig.id m).

(** The options that name a provider and no model id. *)
Definition onlyProvider (name : string) : ModelManager.Options.t :=
  ModelManager.Options.mk None None (Some [name]) (Some []).



(** ** Availability and status *)

(** The candidates of [l] that the tracker [tr] admits, candidate [k] of
    the list being checked with the readings [env (i + k)]. *)
Fixpoint admittedFrom (tr : UsageTracker.t) (estimatedTokens : num)
    (env : nat -> Env.t) (i : nat) (l : list ModelConfig) : list ModelConfig :=
  match l with
  | [] => []
  | m :: rest =>
      if Check.allowed (checkAt tr estimatedTokens env i m)
      then m :: admittedFrom tr estimatedTokens env (S i) rest
      else admittedFrom tr estimatedTokens env (S i) rest
  end.

(** What the tracker [tr] answers about [m]: its check with the readings
    [env i] and its capacity with the readings [env (i + 1)]. *)
Definition statusOf (tr : UsageTracker.t) (env : nat -> Env.t) (i : nat)
    (m : ModelConfig) : ModelManager.Status.t :=
  let check := checkAt tr (ofZ 0) env i m in
  ModelManager.Status.mk m (Check.allowed check) (Check.reason check)
    (getRemainingCapacity tr m (Env.dayStart (env (S i))) (Env.now (env (S i)))).2.

(** The statuses of the candidates of [l] as [tr] answers them. *)
Fixpoint reportedFrom (tr : UsageTracker.t) (env : nat -> Env.t) (i : nat)
    (l : list ModelConfig) : list ModelManager.Status.t :=
  match l with
  | [] => []
  | m :: rest => statusOf tr env i m :: reportedFrom tr env (S (S i)) rest
  end.

(** The readings of the checks alone, out of readings taken two per
    candidate. *)
Definition checksOf (env : nat -> Env.t) : nat -> Env.t :=
  fun i => env (2 * i)%nat.


(** A Groq model of the sample in a cooldown of thirty seconds that started
    at [now = 2000]. *)
Definition cooldownTracker : UsageTracker.t :=
  updateFromHeaders (seen modelA) "model-a" groq cooldownHeaders 2000.


(** A skipped entry names a candidate of the manager. *)
Definition namesCandidate (mgr : ModelManager.t) (entry : Skipped.t) : Prop :=
  exists m,
    m ∈ ModelManager.models mgr
    /\ Skipped.provider entry = ModelConfig.provider m
    /\ Skipped.id entry = ModelConfig.id m.


(** ** Selection from the history *)

(** The filter of [getHistory] in one test: a record is selected when it
    has the model id asked for (an absent or empty id asks for nothing),
    the provider asked for, and a time stamp not before [since]. *)
Definition selects (options : option UsageTracker.HistoryOptions.t)
    (r : UsageRecord) : bool :=
  match options with
  | None => true
  | Some o =>
      match UsageTracker.HistoryOptions.modelId o with
      | Some modelId =>
          String.eqb modelId "" || String.eqb (UsageRecord.modelId r) modelId
      | None => true
      end
      && match UsageTracker.HistoryOptions.provider o with
         | Some provider =>
             match UsageRecord.provider r, provider with
             | groq, groq | cerebras, cerebras => true
             | _, _ => false
             end
         | None => true
         end
      && match UsageTracker.HistoryOptions.since o with
         | Some since => nle since (ofZ (UsageRecord.timestamp r))
         | None => true
         end
  end.

(** The records of the history that are selected, in their order. *)
Definition selection (tr : UsageTracker.t)
    (options : option UsageTracker.HistoryOptions.t) : list UsageRecord :=
  filter (fun r => selects options r = true) (UsageTracker.history tr).


(** ** What a response reports *)

(** The decimal notation of a whole number, as a header carries it. *)
Definition decimal (n : N) : string := NilEmpty.string_of_uint (N.to_uint n).

(** The units of a Groq duration. *)
Inductive TimeUnit : Type := InHours | InMinutes | InSeconds.

Definition unitLetter (u : TimeUnit) : ascii :=
  match u with
  | InHours => "h"
  | InMinutes => "m"
  | InSeconds => "s"
  end%char.


(** What a header reports: a whole number (a count, or whole seconds), or
    a duration in whole hours, minutes and seconds, such as ["2m59s"]. *)
Inductive Report : Type :=
  | Count (n : N)
  | Elapse (parts : list (N * TimeUnit)).

(** The text of a report. *)
Fixpoint durationText (parts : list (N * TimeUnit)) : string :=
  match parts with
  | [] => ""
  | (n, u) :: rest => decimal n ++ String (unitLetter u) (durationText rest)
  end%string.

Definition reportText (r : Report) : string :=
  match r with
  | Count n => decimal n
  | Elapse parts => durationText parts
  end.



(** The kind of report a field takes: the two Groq reset instants take a
    duration that is not empty, every other field a whole number. *)
Definition reportFor (f : Field) (r : Report) : Prop :=
  match f, r with
  | (ResetRequestsAt | ResetTokensAt), Elapse parts => parts <> []
  | (ResetRequestsAt | ResetTokensAt), Count _ => False
  | _, Count _ => True
  | _, Elapse _ => False
  end.


(** ** Numbers of ordinary size *)

(** A number that is [NaN] or of magnitude at most [2 ^ 53]: the range in
    which a stored number is far from the infinities that [num] does not
    represent. *)
Definition ordinary (a : num) : Prop :=
  forall q, a = Num q ->
    (- inject_Z (2 ^ 53) <= q)%Q /\ (q <= inject_Z (2 ^ 53))%Q.

(** A number that is [NaN] or a whole number of magnitude at most [bound],
    as [Date.now()] and [parseInt] give them. *)
Definition wholeWithin (bound : Z) (a : num) : Prop :=
  forall q, a = Num q -> exists z, q = inject_Z z /\ - bound <= z <= bound.

(** The numbers that the admission check computes a wait from are of
    ordinary size: the instant of the last update and the seconds of the
    cooldown are whole (at most [2 ^ 52] milliseconds), the reset instants
    and the reset seconds are at most [2 ^ 53] in magnitude. *)
Definition ordinaryState (state : RateLimitState) : Prop :=
  wholeWithin (2 ^ 52) (lastUpdated state)
  /\ wholeWithin (2 ^ 42) (read (retryAfter state))
  /\ ordinary (read (resetRequestsAt state))
  /\ ordinary (read (resetTokensAt state))
  /\ ordinary (read (resetRequestsDaySeconds state))
  /\ ordinary (read (resetTokensMinuteSeconds state)).


(** ** Bodies the chat route cannot read *)



(** * Properties *)

(** ** Numbers *)

Lemma Qltb_lt (x y : Q) : Qltb x y = true <-> (x < y)%Q.
Proof.
  unfold Qltb. rewrite negb_true_iff.
  destruct (Qle_bool y x) eqn:E.
  - apply Qle_bool_iff in E. split; [discriminate | intros H; lra].
  - split; [intros _ | reflexivity].
    destruct (Qlt_le_dec x y) as [H | H]; [exact H |].
    apply Qle_bool_iff in H. congruence.
Qed.

Lemma nlt_Num (x y : Q) : nlt (Num x) (Num y) = true <-> (x < y)%Q.
Proof. apply Qltb_lt. Qed.

Lemma nle_Num (x y : Q) : nle (Num x) (Num y) = true <-> (x <= y)%Q.
Proof. apply Qle_bool_iff. Qed.

Lemma ngt_Num (x y : Q) : ngt (Num x) (Num y) = true <-> (y < x)%Q.
Proof. apply Qltb_lt. Qed.

Lemma nlt_true_inv (a b : num) :
  nlt a b = true -> exists x y, a = Num x /\ b = Num y /\ (x < y)%Q.
Proof.
  destruct a as [| x], b as [| y]; simpl; try discriminate.
  intros H. exists x, y. repeat split. by apply Qltb_lt.
Qed.

Lemma nle_true_inv (a b : num) :
  nle a b = true -> exists x y, a = Num x /\ b = Num y /\ (x <= y)%Q.
Proof.
  destruct a as [| x], b as [| y]; simpl; try discriminate.
  intros H. exists x, y. repeat split. by apply Qle_bool_iff.
Qed.

(** ** The readers on sample texts *)

Example parseInt_samples :
  parseInt "42" = ofZ 42
  /\ parseInt "  -7 requests" = ofZ (-7)
  /\ parseInt "12.7" = ofZ 12
  /\ parseInt "abc" = NaN
  /\ parseInt "" = NaN.
Proof. repeat split; reflexivity. Qed.

Example parseFloat_samples :
  numEq (parseFloat "33011.382867") (Num (33011382867 # 1000000)) = true
  /\ numEq (parseFloat "60") (ofZ 60) = true
  /\ numEq (parseFloat "5.") (ofZ 5) = true
  /\ numEq (parseFloat "1e-2") (Num (1 # 100)) = true
  /\ parseFloat "s" = NaN.
Proof. repeat split; reflexivity. Qed.

Example parseGroqDuration_samples :
  numEq (parseGroqDuration "12m3.5s") (ofZ 723500) = true
  /\ numEq (parseGroqDuration "4s") (ofZ 4000) = true
  /\ numEq (parseGroqDuration "1h") (ofZ 3600000) = true
  /\ numEq (parseGroqDuration "7.66s") (ofZ 7660) = true
  /\ parseGroqDuration "abc" = ofZ 0.
Proof. repeat split; reflexivity. Qed.

(** ** Durations *)

Lemma takeDigits_length (s : list ascii) :
  (length (takeDigits s).2 <= length s)%nat.
Proof.
  induction s as [| c r IH]; simpl; [lia |].
  destruct (isDigit c); simpl; [| lia].
  destruct (takeDigits r) as [ds rest]. simpl in *. lia.
Qed.

Lemma takeFraction_length (s : list ascii) :
  (length (takeFraction s).2 <= length s)%nat.
Proof.
  destruct s as [| c r]; [done |].
  pose proof (takeDigits_length r) as H.
  unfold takeFraction.
  destruct c as [[] [] [] [] [] [] [] []]; try done.
  destruct (takeDigits r) as [fp r']. simpl in H.
  destruct fp; simpl; lia.
Qed.

Lemma matchDuration_shorter (s : list ascii) value unit rest :
  matchDuration s = Some (value, unit, rest) ->
  (length rest < length s)%nat.
Proof.
  unfold matchDuration.
  pose proof (takeDigits_length s) as H1.
  destruct (takeDigits s) as [ip r1]. simpl in H1.
  destruct ip as [| d ip]; [discriminate |].
  pose proof (takeFraction_length r1) as H2.
  destruct (takeFraction r1) as [fp r2]. simpl in H2.
  destruct r2 as [| u rest']; [discriminate |].
  destruct (isUnit u); [| discriminate].
  intros [= _ _ <-]. simpl in H2. lia.
Qed.

(** The loop of [parseGroqDuration] ends: any fuel at least the length of
    the text gives the same result. *)
Lemma scanDurations_enough_fuel fuel1 :
  forall fuel2 s ms,
    (length s <= fuel1)%nat -> (length s <= fuel2)%nat ->
    scanDurations fuel1 s ms = scanDurations fuel2 s ms.
Proof.
  induction fuel1 as [| fuel1 IH]; intros fuel2 s ms H1 H2.
  - destruct s; [| simpl in H1; lia]. by destruct fuel2.
  - destruct fuel2 as [| fuel2]; [destruct s; [done | simpl in H2; lia] |].
    simpl. destruct s as [| c r]; [done |].
    destruct (matchDuration (c :: r)) as [[[value unit] rest] |] eqn:E.
    + apply matchDuration_shorter in E. simpl in *. apply IH; lia.
    + simpl in *. apply IH; lia.
Qed.

(** ** The header guard *)

Lemma whenSet_supplied {A} (headers : Headers) key (f : string -> A -> A) st :
  supplied headers key ->
  whenSet (headers !! key) f st = f (text headers key) st.
Proof.
  intros (v & Hv & Hne). unfold text, whenSet. rewrite Hv. simpl.
  destruct (String.eqb v "") eqn:E; [| reflexivity].
  apply String.eqb_eq in E. contradiction.
Qed.

Lemma whenSet_missing {A} (headers : Headers) key (f : string -> A -> A) st :
  missing headers key -> whenSet (headers !! key) f st = st.
Proof. intros [H | H]; unfold whenSet; rewrite H; reflexivity. Qed.

Lemma supplied_or_missing (headers : Headers) key :
  supplied headers key \/ missing headers key.
Proof.
  unfold supplied, missing. destruct (headers !! key) as [v |] eqn:E.
  - destruct (String.eqb v "") eqn:Ev.
    + apply String.eqb_eq in Ev. subst. right. by right.
    + apply String.eqb_neq in Ev. left. eauto.
  - right. by left.
Qed.

(** ** [getStats] *)

Section GetStats.
Variables (tr : UsageTracker.t) (model : ModelConfig) (dayStart : Z).

Lemma getStats_lookup :
  stats (getStats tr model dayStart).1 !! ModelConfig.id model
  = Some (getStats tr model dayStart).2.
Proof.
  unfold getStats.
  destruct (stats tr !! ModelConfig.id model) as [s |] eqn:E; simpl.
  - destruct (UsageStats.dayStart s =? dayStart); simpl; [exact E |].
    apply lookup_insert_eq.
  - rewrite Z.eqb_refl. simpl. apply lookup_insert_eq.
Qed.

Lemma getStats_other (j : string) :
  j <> ModelConfig.id model ->
  stats (getStats tr model dayStart).1 !! j = stats tr !! j.
Proof.
  intros Hne. unfold getStats.
  destruct (stats tr !! ModelConfig.id model) as [s |] eqn:E; simpl.
  - destruct (UsageStats.dayStart s =? dayStart); simpl; [reflexivity |].
    by apply lookup_insert_ne.
  - rewrite Z.eqb_refl. simpl. by apply lookup_insert_ne.
Qed.

Lemma getStats_history :
  history (getStats tr model dayStart).1 = history tr.
Proof.
  unfold getStats.
  destruct (stats tr !! ModelConfig.id model) as [s |]; simpl.
  - by destruct (UsageStats.dayStart s =? dayStart).
  - by rewrite Z.eqb_refl.
Qed.

Lemma getStats_existing (s : UsageStats) :
  stats tr !! ModelConfig.id model = Some s ->
  getStats tr model dayStart =
    if UsageStats.dayStart s =? dayStart then (tr, s)
    else
      let s' :=
        UsageStats.mk (UsageStats.provider s) (UsageStats.rateLimitState s)
          (ofZ 0) (ofZ 0) dayStart in
      (store tr (ModelConfig.id model) s', s').
Proof.
  intros E. unfold getStats. rewrite E.
  by destruct (UsageStats.dayStart s =? dayStart).
Qed.

Lemma getStats_state_existing (s : UsageStats) :
  stats tr !! ModelConfig.id model = Some s ->
  UsageStats.rateLimitState (getStats tr model dayStart).2
  = UsageStats.rateLimitState s.
Proof.
  intros E. rewrite (getStats_existing s E).
  by destruct (UsageStats.dayStart s =? dayStart).
Qed.

Lemma getStats_fresh :
  stats tr !! ModelConfig.id model = None ->
  getStats tr model dayStart =
    let s :=
      UsageStats.mk (ModelConfig.provider model)
        (match ModelConfig.provider model with
         | groq => createGroqState (ModelConfig.limits model)
         | cerebras => createCerebrasState (ModelConfig.limits model)
         end)
        (ofZ 0) (ofZ 0) dayStart in
    (store tr (ModelConfig.id model) s, s).
Proof.
  intros E. unfold getStats. rewrite E. simpl. by rewrite Z.eqb_refl.
Qed.

End GetStats.

(** ** Reconciliation, field by field *)

Lemma whenSet_frame {A B} (proj : A -> B) value (f : string -> A -> A) st :
  (forall v s, proj (f v s) = proj s) ->
  proj (whenSet value f st) = proj st.
Proof.
  intros H. unfold whenSet. destruct value as [v |]; [| reflexivity].
  destruct (String.eqb v ""); [reflexivity | apply H].
Qed.

Ltac frame_headers :=
  repeat (rewrite whenSet_frame by (intros; reflexivity)).

Ltac open_update :=
  unfold updateFor, updateFromGroqHeaders, updateFromCerebrasHeaders,
    fieldValue;
  cbn [remainingRequestsDay remainingTokensMinute limitRequestsDay
       limitTokensMinute resetRequestsAt resetTokensAt retryAfter
       resetRequestsDaySeconds resetTokensMinuteSeconds lastUpdated
       set_lastUpdated].

Lemma update_field_supplied provider f key state (headers : Headers) now :
  headerOf provider f = Some key ->
  supplied headers key ->
  fieldValue f (updateFor provider state headers now)
  = Some (reportedValue f now (text headers key)).
Proof.
  intros Hkey Hs.
  destruct provider, f; simpl in Hkey; try discriminate;
    injection Hkey as <-; open_update; frame_headers;
    rewrite (whenSet_supplied _ _ _ _ Hs); reflexivity.
Qed.

Lemma update_field_missing provider f key state (headers : Headers) now :
  headerOf provider f = Some key ->
  missing headers key ->
  fieldValue f (updateFor provider state headers now) = fieldValue f state.
Proof.
  intros Hkey Hm.
  destruct provider, f; simpl in Hkey; try discriminate;
    injection Hkey as <-; open_update; frame_headers;
    rewrite (whenSet_missing _ _ _ _ Hm); frame_headers; reflexivity.
Qed.

Lemma update_field_unread provider f state (headers : Headers) now :
  headerOf provider f = None ->
  fieldValue f (updateFor provider state headers now) = fieldValue f state.
Proof.
  intros Hkey.
  destruct provider, f; simpl in Hkey; try discriminate;
    open_update; frame_headers; reflexivity.
Qed.

Lemma update_lastUpdated provider state (headers : Headers) now :
  lastUpdated (updateFor provider state headers now) = ofZ now.
Proof. destruct provider; reflexivity. Qed.

Lemma updateFromHeaders_lookup tr modelId provider (headers : Headers) now s :
  stats tr !! modelId = Some s ->
  stats (updateFromHeaders tr modelId provider headers now) !! modelId
  = Some (UsageStats.set_rateLimitState
            (updateFor provider (UsageStats.rateLimitState s) headers now) s).
Proof.
  intros E. unfold updateFromHeaders. rewrite E.
  destruct provider; simpl; apply lookup_insert_eq.
Qed.

(** ** Reconciliation on the tracker *)



(** ** The readers on decimal notation *)

Lemma list_ascii_app (s1 s2 : string) :
  list_ascii_of_string (s1 ++ s2) = list_ascii_of_string s1 ++ list_ascii_of_string s2.
Proof. induction s1 as [| c s1 IH]; simpl; [done | by rewrite IH]. Qed.






Lemma decimal_nonempty (n : N) : list_ascii_of_string (decimal n) <> [].
Proof.
  unfold decimal. intros H.
  pose proof (DecimalN.Unsigned.of_to n) as Hn.
  destruct (N.to_uint n) eqn:E; try discriminate.
  destruct n; simpl in E; [discriminate |].
  simpl in Hn. discriminate.
Qed.







Lemma durationText_cons n u rest :
  list_ascii_of_string (durationText ((n, u) :: rest))
  = list_ascii_of_string (decimal n)
    ++ unitLetter u :: list_ascii_of_string (durationText rest).
Proof. cbn [durationText]. by rewrite list_ascii_app. Qed.





Lemma reportText_nonempty f r : reportFor f r -> reportText r <> ""%string.
Proof.
  intros Hf H.
  assert (E : list_ascii_of_string (reportText r) = []) by (by rewrite H).
  destruct r as [n | parts]; cbn [reportText] in E.
  - by apply (decimal_nonempty n).
  - destruct parts as [| [n u] rest]; [by destruct f |].
    rewrite durationText_cons in E. apply app_eq_nil in E as [E _].
    by apply (decimal_nonempty n).
Qed.




(** C8, as amended. [updateFromHeaders] is a total function, it has no
    failure to report.  A field whose header is absent or empty keeps its
    value, and so does a field the provider has no header for; a header that
    is present is parsed and stored whatever its text, and [lastUpdated] is
    set to the clock. *)
Theorem reconcile_keeps_fields_without_header
    tr modelId provider (headers : Headers) now s :
  stats tr !! modelId = Some s ->
  exists state,
    stateOf (updateFromHeaders tr modelId provider headers now) modelId
      = Some state
    /\ (forall f key,
          headerOf provider f = Some key -> missing headers key ->
          fieldValue f state = fieldValue f (UsageStats.rateLimitState s))
    /\ (forall f,
          headerOf provider f = None ->
          fieldValue f state = fieldValue f (UsageStats.rateLimitState s))
    /\ (forall f key,
          headerOf provider f = Some key -> supplied headers key ->
          fieldValue f state = Some (reportedValue f now (text headers key)))
    /\ lastUpdated state = ofZ now.
Proof.
  intros Hs. eexists. split.
  - unfold stateOf, getUsageStats.
    rewrite (updateFromHeaders_lookup _ _ provider headers now s Hs).
    reflexivity.
  - simpl. repeat split.
    + intros f key. apply update_field_missing.
    + intros f. apply update_field_unread.
    + intros f key. apply update_field_supplied.
    + apply update_lastUpdated.
Qed.

(** C10. For a model identifier without a stats entry [updateFromHeaders]
    returns the tracker it was given: no entry is created and the header
    values are dropped. *)
Theorem updateFromHeaders_without_stats_is_noop
    tr modelId provider (headers : Headers) now :
  getUsageStats tr modelId = None ->
  updateFromHeaders tr modelId provider headers now = tr.
Proof.
  unfold getUsageStats, updateFromHeaders. intros ->. reflexivity.
Qed.



(** C8, the claim as stated fails: a header that is present but is not a
    number does not leave the field untouched, the field becomes [NaN]. *)
Lemma malformed_header_replaces_field :
  let before := seen modelA in
  let after := updateFromHeaders before "model-a" groq malformedHeaders 2000 in
  parseInt "abc" = NaN
  /\ (fieldValue RemainingRequests <$> stateOf before "model-a")
     = Some (Some (ofZ 1))
  /\ (fieldValue RemainingRequests <$> stateOf after "model-a")
     = Some (Some NaN)
  /\ ~ (fieldValue RemainingRequests <$> stateOf after "model-a")
       = (fieldValue RemainingRequests <$> stateOf before "model-a").
Proof. vm_compute. repeat split; try reflexivity. discriminate. Qed.

Lemma reconcile_keeps_fields_without_header_witness :
  exists state,
    stateOf (updateFromHeaders (seen modelA) "model-a" groq malformedHeaders 2000)
      "model-a" = Some state
    /\ (forall f key,
          headerOf groq f = Some key -> missing malformedHeaders key ->
          fieldValue f state
          = fieldValue f (UsageStats.rateLimitState
                            (getStats UsageTracker.empty modelA 0).2))
    /\ (forall f,
          headerOf groq f = None ->
          fieldValue f state
          = fieldValue f (UsageStats.rateLimitState
                            (getStats UsageTracker.empty modelA 0).2))
    /\ (forall f key,
          headerOf groq f = Some key -> supplied malformedHeaders key ->
          fieldValue f state = Some (reportedValue f 2000 (text malformedHeaders key)))
    /\ lastUpdated state = ofZ 2000.
Proof.
  apply (reconcile_keeps_fields_without_header (seen modelA) "model-a" groq
           malformedHeaders 2000 (getStats UsageTracker.empty modelA 0).2).
  reflexivity.
Defined.

Lemma updateFromHeaders_without_stats_is_noop_witness :
  getUsageStats (seen modelA) "model-b" = None
  /\ updateFromHeaders (seen modelA) "model-b" cerebras sampleCerebrasHeaders 2000
     = seen modelA.
Proof.
  split; [reflexivity |].
  apply updateFromHeaders_without_stats_is_noop. reflexivity.
Defined.

(** ** The admission check *)

(** Case analysis on the next guard [a && b] of a check. *)
Ltac next_guard :=
  match goal with
  | |- context [if (?a && ?b)%bool then _ else _] =>
      destruct (a && b)%bool eqn:?; cbn [Check.allowed Check.reason]
  end.

(** The Groq check is the order of the specification, step by step. *)
Lemma canRequestGroq_follows_order stats estimatedTokens now :
  decisionOf (canRequestGroq stats estimatedTokens now)
  = Some (specAdmission (budgetOf groq (UsageStats.rateLimitState stats))
            estimatedTokens now).
Proof.
  unfold canRequestGroq, specAdmission, cooldownActive, decisionOf.
  cbn [budgetOf RateBudget.remainingRequests RateBudget.remainingTokens
       RateBudget.resetRequestsAt RateBudget.resetTokensAt
       RateBudget.retryAfter RateBudget.lastUpdated].
  repeat next_guard; reflexivity.
Qed.

Lemma canRequestCerebras_decision stats estimatedTokens now :
  decisionOf (canRequestCerebras stats estimatedTokens now)
  = Some (cerebrasDecision (UsageStats.rateLimitState stats) estimatedTokens).
Proof.
  unfold canRequestCerebras, cerebrasDecision, decisionOf.
  repeat next_guard; reflexivity.
Qed.

(** Groq: a request window whose reset instant is not in the future never
    denies, whatever the stored counter. *)
Lemma canRequestGroq_elapsed_request_window stats estimatedTokens now :
  ngt (read (resetRequestsAt (UsageStats.rateLimitState stats))) (ofZ now) = false ->
  decisionOf (canRequestGroq stats estimatedTokens now) <> Some DeniedRequests.
Proof.
  intros H. rewrite canRequestGroq_follows_order.
  unfold specAdmission.
  cbn [budgetOf RateBudget.remainingRequests RateBudget.resetRequestsAt].
  rewrite H, andb_false_r.
  destruct (cooldownActive _ _); [discriminate |].
  next_guard; discriminate.
Qed.

(** Groq: with the request window elapsed, no cooldown and enough tokens the
    request is allowed although the stored counter is still <= 0. *)
Lemma canRequestGroq_replenished stats estimatedTokens now :
  let state := UsageStats.rateLimitState stats in
  ngt (read (resetRequestsAt state)) (ofZ now) = false ->
  cooldownActive (budgetOf groq state) now = false ->
  nlt (remainingTokensMinute state) estimatedTokens = false ->
  Check.allowed (canRequestGroq stats estimatedTokens now) = true.
Proof.
  intros state H1 H2 H3. unfold canRequestGroq.
  unfold cooldownActive in H2.
  cbn [budgetOf RateBudget.retryAfter RateBudget.lastUpdated] in H2.
  fold state. rewrite H2, H1, H3, andb_false_r. reflexivity.
Qed.

Lemma exhaustedCerebras_stats :
  stats exhaustedCerebras !! "model-b"%string
  = Some {| UsageStats.provider := cerebras;
            UsageStats.rateLimitState :=
              {| remainingRequestsDay := ofZ 0;
                 remainingTokensMinute := ofZ 6000;
                 limitRequestsDay := ofZ 1;
                 limitTokensMinute := ofZ 6000;
                 resetRequestsAt := None;
                 resetTokensAt := None;
                 retryAfter := None;
                 resetRequestsDaySeconds := Some (ofZ 60);
                 resetTokensMinuteSeconds := Some (ofZ 0);
                 lastUpdated := ofZ 2000 |};
            UsageStats.requestsToday := ofZ 0;
            UsageStats.tokensToday := ofZ 0;
            UsageStats.dayStart := 0 |}.
Proof. vm_compute. reflexivity. Qed.

(** C1, the Cerebras family. A response at [now = 2000] reports no request
    left and a reset in sixty seconds.  With no further reconciliation the
    check denies at every later reading of the clock, also long after the
    reset instant [62000]: the stale zero counter keeps the model out. *)
Theorem cerebras_elapsed_window_still_denied :
  (remainingRequestsDay <$> stateOf exhaustedCerebras "model-b") = Some (ofZ 0)
  /\ (resetRequestsDaySeconds <$> stateOf exhaustedCerebras "model-b")
     = Some (Some (ofZ 60))
  /\ forall estimatedTokens dayStart now,
       decisionOf (canRequest exhaustedCerebras modelB estimatedTokens dayStart now).2
       = Some DeniedRequests.
Proof.
  split; [| split].
  - vm_compute. reflexivity.
  - vm_compute. reflexivity.
  - intros est dayStart now. unfold canRequest.
    pose proof (getStats_state_existing exhaustedCerebras modelB dayStart _
                  exhaustedCerebras_stats) as Hst.
    destruct (getStats exhaustedCerebras modelB dayStart) as [tr' s].
    simpl in *. rewrite canRequestCerebras_decision, Hst. reflexivity.
Qed.

(** The slip of C1 seen against the order of the specification: in the state
    above, at a reading of the clock past the reset instant, the order
    allows the request and [canRequestCerebras] denies it at its request
    step. *)
Lemma cerebras_check_departs_from_order :
  let stats :=
    default (getStats UsageTracker.empty modelB 0).2
      (getUsageStats exhaustedCerebras "model-b") in
  let now := 100000 in
  specAdmission (budgetOf cerebras (UsageStats.rateLimitState stats)) (ofZ 0) now
  = Allowed
  /\ decisionOf (canRequestCerebras stats (ofZ 0) now) = Some DeniedRequests
  /\ Check.reason (canRequestCerebras stats (ofZ 0) now)
     = Some (DailyRequestsReason (MinutesSeconds (ofZ 1) (Num 0))).
Proof. vm_compute. repeat split; reflexivity. Qed.

(** C2, the claim as stated fails: the Cerebras family has no cooldown
    step.  The same response with [retry-after: 30], received at
    [now = 2000], denies the Groq model one second later, as the order of
    the specification does on the reported budget, and leaves the Cerebras
    model allowed: its state holds no [retryAfter]. *)
Lemma cerebras_check_has_no_cooldown :
  let trG := updateFromHeaders (seen modelA) "model-a" groq cooldownHeaders 2000 in
  let trC := updateFromHeaders (seen modelB) "model-b" cerebras cooldownHeaders 2000 in
  specAdmission cooldownBudget (ofZ 0) 3000 = DeniedCooldown
  /\ decisionOf (canRequest trG modelA (ofZ 0) 0 3000).2 = Some DeniedCooldown
  /\ decisionOf (canRequest trC modelB (ofZ 0) 0 3000).2 = Some Allowed
  /\ (retryAfter <$> stateOf trC "model-b") = Some None
  /\ ~ decisionOf (canRequest trC modelB (ofZ 0) 0 3000).2
       = Some (specAdmission cooldownBudget (ofZ 0) 3000).
Proof. vm_compute. repeat split; try reflexivity. discriminate. Qed.

(** A Cerebras window with seconds left that has not elapsed is a window
    whose reset instant is in the future, and conversely. *)
Lemma cerebras_window_open (lastUpdated seconds : num) now :
  nle lastUpdated (ofZ now) = true ->
  (ngt seconds (ofZ 0) = true ->
   ngt (nadd lastUpdated (nmul seconds (ofZ 1000))) (ofZ now) = true) ->
  ngt seconds (ofZ 0)
  = ngt (nadd lastUpdated (nmul seconds (ofZ 1000))) (ofZ now).
Proof.
  intros Hupd Hopen.
  destruct (ngt seconds (ofZ 0)) eqn:E; [symmetry; by apply Hopen |].
  destruct lastUpdated as [| l]; [discriminate |].
  destruct seconds as [| s]; [reflexivity |].
  symmetry. apply not_true_is_false. intros H.
  apply ngt_Num in H. apply nle_Num in Hupd.
  assert (ngt (Num s) (ofZ 0) = true); [| congruence].
  apply ngt_Num. unfold inject_Z in *. lra.
Qed.

(** C2, as amended. The Groq check evaluates the four steps of the
    specification in their order.  The Cerebras check has no cooldown step;
    on a state whose stored windows have not elapsed it evaluates the
    request step, the token step and the final allow in the same order. *)
Theorem admission_follows_order stats estimatedTokens now :
  let state := UsageStats.rateLimitState stats in
  decisionOf (canRequestGroq stats estimatedTokens now)
  = Some (specAdmission (budgetOf groq state) estimatedTokens now)
  /\ decisionOf (canRequestCerebras stats estimatedTokens now)
     <> Some DeniedCooldown
  /\ (windowsNotElapsed state now ->
      decisionOf (canRequestCerebras stats estimatedTokens now)
      = Some (specAdmission (budgetOf cerebras state) estimatedTokens now)).
Proof.
  intros state. split; [apply canRequestGroq_follows_order | split].
  - rewrite canRequestCerebras_decision. unfold cerebrasDecision.
    repeat next_guard; discriminate.
  - intros (Hupd & Hreq & Htok).
    rewrite canRequestCerebras_decision.
    unfold cerebrasDecision, specAdmission, cooldownActive. fold state.
    cbn [budgetOf RateBudget.remainingRequests RateBudget.remainingTokens
         RateBudget.resetRequestsAt RateBudget.resetTokensAt
         RateBudget.retryAfter RateBudget.lastUpdated read truthy andb] in *.
    rewrite <- (cerebras_window_open _ _ _ Hupd Hreq).
    rewrite <- (cerebras_window_open _ _ _ Hupd Htok).
    reflexivity.
Qed.

Lemma admission_follows_order_witness :
  let stats :=
    default (getStats UsageTracker.empty modelB 0).2
      (getUsageStats exhaustedCerebras "model-b") in
  windowsNotElapsed (UsageStats.rateLimitState stats) 5000
  /\ decisionOf (canRequestCerebras stats (ofZ 0) 5000) = Some DeniedRequests.
Proof.
  intros stats.
  assert (H : windowsNotElapsed (UsageStats.rateLimitState stats) 5000).
  { split; [reflexivity | split; [reflexivity | discriminate]]. }
  split; [exact H |].
  destruct (admission_follows_order stats (ofZ 0) 5000) as (_ & _ & Hc).
  rewrite (Hc H). reflexivity.
Defined.

(** ** Optimistic decrements *)

Lemma recordRequest_lookup tr model provider inputTokens dayStart :
  let before := (getStats tr model dayStart).2 in
  let state := UsageStats.rateLimitState before in
  stateOf (recordRequest tr model provider inputTokens dayStart)
    (ModelConfig.id model)
  = Some
      (let state :=
         if ngt (remainingRequestsDay state) (ofZ 0)
         then set_remainingRequestsDay (nsub (remainingRequestsDay state) (ofZ 1)) state
         else state in
       if ngt (remainingTokensMinute state) (ofZ 0)
       then set_remainingTokensMinute (nsub (remainingTokensMinute state) inputTokens) state
       else state).
Proof.
  unfold stateOf, getUsageStats, recordRequest.
  destruct (getStats tr model dayStart) as [tr' s]. simpl.
  rewrite lookup_insert_eq. reflexivity.
Qed.

Lemma is_count_pred (a : num) :
  is_count a -> ngt a (ofZ 0) = true -> is_count (nsub a (ofZ 1)).
Proof.
  intros (z & Hz & ->) Hpos. apply ngt_Num in Hpos.
  exists (z - 1). split.
  - unfold inject_Z, Qlt in Hpos. simpl in Hpos. lia.
  - unfold ofZ, nsub, inject_Z, Qminus, Qplus, Qopp. simpl. do 2 f_equal. lia.
Qed.

(** A state whose request budget is used up and whose request window is
    open (the reset instant is ahead of a clock that is not behind the last
    update) is denied, for both families. *)
Lemma exhausted_open_window_denied provider stats estimatedTokens now :
  let b := budgetOf provider (UsageStats.rateLimitState stats) in
  nle (RateBudget.remainingRequests b) (ofZ 0) = true ->
  ngt (RateBudget.resetRequestsAt b) (ofZ now) = true ->
  nle (RateBudget.lastUpdated b) (ofZ now) = true ->
  Check.allowed
    (match provider with
     | groq => canRequestGroq stats estimatedTokens now
     | cerebras => canRequestCerebras stats estimatedTokens now
     end) = false.
Proof.
  destruct provider;
    cbn [budgetOf RateBudget.remainingRequests RateBudget.resetRequestsAt
         RateBudget.lastUpdated];
    intros Hrem Hopen Hupd.
  - unfold canRequestGroq. rewrite Hrem, Hopen.
    by destruct (truthy _ && _).
  - unfold canRequestCerebras. rewrite Hrem.
    assert (ngt (read (resetRequestsDaySeconds (UsageStats.rateLimitState stats)))
              (ofZ 0) = true) as ->; [| reflexivity].
    destruct (lastUpdated (UsageStats.rateLimitState stats)) as [| l];
      [discriminate |].
    destruct (read (resetRequestsDaySeconds (UsageStats.rateLimitState stats)))
      as [| s]; [discriminate |].
    apply ngt_Num in Hopen. apply nle_Num in Hupd. apply ngt_Num.
    unfold inject_Z in *. lra.
Qed.

(** C4, as amended. [recordRequest] lowers the remaining requests by one and
    the remaining tokens by the estimate, each only while the counter is
    positive.  So a request counter that holds a non-negative integer never
    becomes negative, and a token counter that is <= 0 is not lowered
    further (it ends above minus one estimate).  The admission check treats
    a request remainder <= 0 as unavailable while the reset instant of the
    window is ahead of the clock. *)
Theorem recordRequest_decrements_while_positive
    tr model provider inputTokens dayStart :
  let before := UsageStats.rateLimitState (getStats tr model dayStart).2 in
  let tr' := recordRequest tr model provider inputTokens dayStart in
  exists after,
    stateOf tr' (ModelConfig.id model) = Some after
    /\ remainingRequestsDay after
       = (if ngt (remainingRequestsDay before) (ofZ 0)
          then nsub (remainingRequestsDay before) (ofZ 1)
          else remainingRequestsDay before)
    /\ remainingTokensMinute after
       = (if ngt (remainingTokensMinute before) (ofZ 0)
          then nsub (remainingTokensMinute before) inputTokens
          else remainingTokensMinute before)
    /\ (is_count (remainingRequestsDay before) ->
        is_count (remainingRequestsDay after))
    /\ (forall q c,
          remainingTokensMinute before = Num q -> inputTokens = Num c ->
          exists q',
            remainingTokensMinute after = Num q'
            /\ ((q <= 0)%Q /\ q' = q \/ (0 < q)%Q /\ (- c < q')%Q))
    /\ (forall estimatedTokens dayStart' now,
          let b := budgetOf (ModelConfig.provider model) after in
          nle (RateBudget.remainingRequests b) (ofZ 0) = true ->
          ngt (RateBudget.resetRequestsAt b) (ofZ now) = true ->
          nle (RateBudget.lastUpdated b) (ofZ now) = true ->
          Check.allowed (canRequest tr' model estimatedTokens dayStart' now).2
          = false).
Proof.
  intros before tr'.
  pose proof (recordRequest_lookup tr model provider inputTokens dayStart) as Hl.
  cbv zeta in Hl. fold before tr' in Hl.
  eexists. split; [exact Hl |].
  assert (Hreq : forall s : RateLimitState,
            remainingRequestsDay
              (if ngt (remainingTokensMinute s) (ofZ 0)
               then set_remainingTokensMinute (nsub (remainingTokensMinute s) inputTokens) s
               else s) = remainingRequestsDay s)
    by (intros s; by destruct (ngt (remainingTokensMinute s) (ofZ 0))).
  split; [| split; [| split; [| split]]].
  - rewrite Hreq. by destruct (ngt (remainingRequestsDay before) (ofZ 0)).
  - destruct (ngt (remainingRequestsDay before) (ofZ 0));
      by destruct (ngt (remainingTokensMinute _) (ofZ 0)).
  - intros Hc. rewrite Hreq.
    destruct (ngt (remainingRequestsDay before) (ofZ 0)) eqn:E; simpl.
    + by apply is_count_pred.
    + exact Hc.
  - intros q c Hq ->.
    destruct (ngt (remainingRequestsDay before) (ofZ 0));
      cbn [remainingTokensMinute set_remainingRequestsDay]; rewrite Hq;
      (destruct (ngt (Num q) (ofZ 0)) eqn:E;
       cbn [remainingTokensMinute set_remainingTokensMinute nsub];
       [ apply ngt_Num in E; eexists; split; [reflexivity |]; right;
         unfold inject_Z in E; split; lra
       | exists q; split; [by rewrite ?Hq |]; left; split; [| reflexivity];
         destruct (Qlt_le_dec 0 q) as [H | H]; [| exact H];
         apply (ngt_Num q (inject_Z 0)) in H; unfold ofZ in E; congruence ]).
  - intros est dayStart' now b Hrem Hopen Hupd.
    unfold canRequest.
    unfold stateOf, getUsageStats in Hl.
    destruct (stats tr' !! ModelConfig.id model) as [s |] eqn:Es;
      [| discriminate].
    injection Hl as Hl.
    pose proof (getStats_state_existing tr' model dayStart' s Es) as Hst.
    destruct (getStats tr' model dayStart') as [tr'' s'']. simpl in Hst.
    pose proof (exhausted_open_window_denied (ModelConfig.provider model) s''
                  est now) as Hd.
    cbv zeta in Hd. rewrite Hst, Hl in Hd. specialize (Hd Hrem Hopen Hupd).
    by destruct (ModelConfig.provider model).
Qed.

(** C4, the claim as stated fails.  A reconciled model has one request
    left in an open window.  One [recordRequest] uses it up, and the check
    denies while the window is open; once the reset instant of the window
    has passed the check allows again, although the remainder is still [0]:
    an elapsed window counts as replenished.  And the token counter is not
    clamped: an estimate above the remaining tokens leaves it negative. *)
Lemma used_up_counter_allowed_after_window :
  let tr := recordRequest oneRequestLeft modelA groq (ofZ 10) 0 in
  (remainingRequestsDay <$> stateOf tr "model-a") = Some (ofZ 0)
  /\ nle (ofZ 0) (ofZ 0) = true
  /\ Check.allowed (canRequest tr modelA (ofZ 10) 0 5000).2 = false
  /\ Check.allowed (canRequest tr modelA (ofZ 10) 0 3602000).2 = true
  /\ (remainingTokensMinute
        <$> stateOf (recordRequest oneRequestLeft modelA groq (ofZ 7000) 0)
              "model-a") = Some (Num (-2000 # 1)).
Proof. vm_compute. repeat split; reflexivity. Qed.

Lemma recordRequest_decrements_while_positive_witness :
  let tr := recordRequest oneRequestLeft modelA groq (ofZ 10) 0 in
  Check.allowed (canRequest oneRequestLeft modelA (ofZ 10) 0 5000).2 = true
  /\ (exists after,
        stateOf tr "model-a" = Some after
        /\ remainingRequestsDay after = nsub (ofZ 1) (ofZ 1)
        /\ remainingTokensMinute after = nsub (ofZ 5000) (ofZ 10)
        /\ is_count (remainingRequestsDay after))
  /\ Check.allowed (canRequest tr modelA (ofZ 10) 0 5000).2 = false.
Proof.
  intros tr.
  destruct (recordRequest_decrements_while_positive oneRequestLeft modelA groq
              (ofZ 10) 0) as (after & Hs & Hreq & Htok & Hc & _ & Hd).
  pose proof Hs as Hafter. vm_compute in Hafter. injection Hafter as Hafter.
  subst after.
  split; [reflexivity |]. split.
  - eexists. split; [exact Hs |]. split; [exact Hreq |].
    split; [exact Htok |].
    apply Hc. exists 1. split; [lia | reflexivity].
  - apply Hd; reflexivity.
Defined.


(** ** The token estimate *)

Lemma estimate_fold (messages : list ChatMessage) (q : Q) :
  exists q',
    fold_left
      (fun sum m =>
         let content :=
           match ChatMessage.content m with
           | ContentString s => s
           | ContentOther => ""%string
           end in
         nadd sum (ofNat (String.length content)))
      messages (Num q) = Num q'
    /\ (q' == q + inject_Z (Z.of_nat (totalChars messages)))%Q.
Proof.
  revert q. induction messages as [| m messages IH]; intros q; simpl.
  - exists q. split; [reflexivity | ring].
  - destruct (IH (q + inject_Z (Z.of_nat (contentLength m)))%Q) as (q' & Hf & Hq).
    exists q'. split.
    + rewrite <- Hf. unfold contentLength.
      by destruct (ChatMessage.content m).
    + rewrite Hq, Nat2Z.inj_add, inject_Z_plus. ring.
Qed.

Lemma Qceiling_quarter (n : Z) :
  let e := Qceiling (inject_Z n / inject_Z 4) in
  4 * (e - 1) < n <= 4 * e.
Proof.
  assert (H : (inject_Z n / inject_Z 4 == n # 4)%Q).
  { unfold Qeq, Qdiv, Qmult, Qinv, inject_Z. simpl. lia. }
  cbv zeta. rewrite H. unfold Qceiling, Qfloor, Qopp. simpl.
  pose proof (Z.div_mod (- n) 4 ltac:(lia)).
  pose proof (Z.mod_pos_bound (- n) 4 ltac:(lia)). lia.
Qed.

(** C7. The estimate is the ceiling of the combined content length divided
    by four: the least integer [e] with [total <= 4 * e]; non-string
    contents count for nothing.  A combined length of 400 gives 100. *)
Theorem estimateTokens_ceiling (messages : list ChatMessage) :
  (exists e : Z,
     ModelManager.estimateTokens messages = ofZ e
     /\ 4 * (e - 1) < Z.of_nat (totalChars messages) <= 4 * e)
  /\ (totalChars messages = 400%nat ->
      ModelManager.estimateTokens messages = ofZ 100).
Proof.
  destruct (estimate_fold messages (inject_Z 0)) as (q' & Hf & Hq).
  unfold ModelManager.estimateTokens. cbv zeta in Hf |- *.
  change (ofZ 0) with (Num (inject_Z 0)). rewrite Hf.
  assert (Hq' : (q' / inject_Z 4
                 == inject_Z (Z.of_nat (totalChars messages)) / inject_Z 4)%Q).
  { rewrite Hq. unfold inject_Z at 1. field. }
  unfold ndivc, nceil. rewrite (Qceiling_comp _ _ Hq').
  pose proof (Qceiling_quarter (Z.of_nat (totalChars messages))) as He.
  cbv zeta in He. split.
  - exists (Qceiling (inject_Z (Z.of_nat (totalChars messages)) / inject_Z 4)).
    split; [reflexivity |]. exact He.
  - intros H400. rewrite H400 in *. reflexivity.
Qed.

Lemma estimateTokens_ceiling_witness :
  totalChars sampleMessages = 400%nat
  /\ ModelManager.estimateTokens sampleMessages = ofZ 100.
Proof.
  split; [reflexivity |].
  apply (estimateTokens_ceiling sampleMessages). reflexivity.
Defined.

(** ** The selection loop *)

Import ModelManager.

Section SelectLoop.
Variables (env : nat -> Env.t) (estimatedTokens : num).

(** The loop only appends to [skipped]. *)
Lemma selectLoop_skipped_grows remaining :
  forall attempts mgr tr skipped mgr' tr' model skipped',
    selectLoop remaining attempts env estimatedTokens mgr tr skipped
    = (mgr', tr', Ok (model, skipped')) ->
    exists rest, skipped' = skipped ++ rest.
Proof.
  induction remaining as [| remaining IH];
    intros attempts mgr tr skipped mgr' tr' model skipped' H; simpl in H.
  - discriminate.
  - destruct (selectByStrategy mgr (Env.random (env attempts))) as [[m |] mgr1];
      [| discriminate].
    destruct (canRequest tr m estimatedTokens _ _) as [tr1 check].
    destruct (Check.allowed check).
    + injection H as _ _ _ <-. exists []. by rewrite app_nil_r.
    + destruct (autoFallback mgr1); [| discriminate].
      apply IH in H as [rest ->]. rewrite <- app_assoc. eauto.
Qed.

(** When the loop runs out of candidates it has made exactly [remaining]
    further attempts, one entry each. *)
Lemma selectLoop_exhausted_length remaining :
  forall attempts mgr tr skipped mgr' tr' skipped',
    selectLoop remaining attempts env estimatedTokens mgr tr skipped
    = (mgr', tr', Throw (AllExhaustedError skipped')) ->
    length skipped' = (length skipped + remaining)%nat.
Proof.
  induction remaining as [| remaining IH];
    intros attempts mgr tr skipped mgr' tr' skipped' H; simpl in H.
  - injection H as _ _ <-. lia.
  - destruct (selectByStrategy mgr (Env.random (env attempts))) as [[m |] mgr1];
      [| discriminate].
    destruct (canRequest tr m estimatedTokens _ _) as [tr1 check].
    destruct (Check.allowed check); [discriminate |].
    destruct (autoFallback mgr1); [| discriminate].
    apply IH in H. rewrite H, length_app. simpl. lia.
Qed.

End SelectLoop.

(** Whatever the strategy, a call that fails for exhaustion lists as many
    entries as there are candidates. *)
Lemma getNextModel_exhausted_length mgr tr messages env mgr' tr' skipped :
  getNextModel mgr tr messages env = (mgr', tr', Throw (AllExhaustedError skipped)) ->
  length skipped = length (models mgr).
Proof.
  unfold getNextModel. intros H.
  apply selectLoop_exhausted_length in H. exact H.
Qed.

(** C5, the least-used strategy. Three candidates, each denied by the
    admission check: the call fails with three entries, and all three name
    the first candidate; the other two candidates were never tried. *)
Theorem least_used_fallback_retries_one_candidate :
  Forall (fun model =>
            Check.allowed (canRequest allExhausted model (ofZ 0) 0 5000).2 = false)
    [modelA; modelB; modelC]
  /\ (getNextModel (sampleManager least_used) allExhausted [] quiet).2
     = Throw (AllExhaustedError
                (replicate 3
                   (deniedEntry modelA (MinutesSeconds (ofZ 59) (Num (57 # 1))))))
  /\ (getNextModel (sampleManager round_robin) allExhausted [] quiet).2
     = Throw (AllExhaustedError
                [deniedEntry modelA (MinutesSeconds (ofZ 59) (Num (57 # 1)));
                 deniedEntry modelB (MinutesSeconds (ofZ 1) (Num (0 # 1)));
                 deniedEntry modelC (MinutesSeconds (ofZ 59) (Num (57 # 1)))]).
Proof.
  split; [| split].
  - repeat constructor.
  - vm_compute. reflexivity.
  - vm_compute. reflexivity.
Qed.

(** ** Round robin *)

Lemma cycle_app {A} (l : list A) k1 :
  forall k2 c,
    (c < length l)%nat ->
    cycle l (k1 + k2) c = cycle l k1 c ++ cycle l k2 ((c + k1) mod length l).
Proof.
  induction k1 as [| k1 IH]; intros k2 c Hc; simpl.
  - by rewrite Nat.add_0_r, Nat.mod_small.
  - destruct (lookup_lt_is_Some_2 l c Hc) as [x Hx]. rewrite Hx. simpl.
    f_equal. rewrite IH by (apply Nat.mod_upper_bound; lia).
    f_equal. f_equal.
    rewrite Nat.Div0.add_mod_idemp_l. f_equal. lia.
Qed.

Lemma cycle_no_wrap {A} (l : list A) k :
  forall c, (c + k <= length l)%nat -> cycle l k c = take k (drop c l).
Proof.
  induction k as [| k IH]; intros c Hc; simpl; [reflexivity |].
  destruct (lookup_lt_is_Some_2 l c ltac:(lia)) as [x Hx]. rewrite Hx.
  rewrite (drop_S l x c Hx). simpl. f_equal.
  destruct (decide (c + 1 = length l)%nat) as [E | E].
  - assert (k = 0)%nat as -> by lia. reflexivity.
  - rewrite Nat.mod_small by lia. rewrite IH by lia.
    by replace (c + 1)%nat with (S c) by lia.
Qed.

Lemma cycle_full {A} (l : list A) c :
  (c < length l)%nat -> cycle l (length l) c = drop c l ++ take c l.
Proof.
  intros Hc.
  replace (length l) with ((length l - c) + c)%nat at 1 by lia.
  rewrite cycle_app by exact Hc.
  replace (c + (length l - c))%nat with (length l) by lia.
  rewrite Nat.Div0.mod_same, !cycle_no_wrap by lia.
  rewrite drop_0. f_equal.
  apply take_ge. rewrite length_drop. lia.
Qed.

(** One round-robin call without rejection returns the candidate under the
    cursor and moves the cursor one step. *)
Lemma getNextModel_round_robin_step mgr tr messages env mgr' tr' model :
  strategy mgr = round_robin ->
  getNextModel mgr tr messages env = (mgr', tr', Ok (model, [])) ->
  models mgr !! currentIndex mgr = Some model
  /\ models mgr' = models mgr
  /\ strategy mgr' = round_robin
  /\ currentIndex mgr' = ((currentIndex mgr + 1) mod length (models mgr))%nat.
Proof.
  intros Hrr H. unfold getNextModel in H.
  destruct (length (models mgr)) as [| n] eqn:Hlen; simpl in H; [discriminate |].
  unfold selectByStrategy in H. rewrite Hrr in H.
  destruct (models mgr !! currentIndex mgr) as [m |]; [| discriminate].
  destruct (canRequest tr m _ _ _) as [tr1 check].
  destruct (Check.allowed check).
  - injection H as <- _ <-. simpl. by rewrite Hlen.
  - simpl in H.
    destruct (autoFallback mgr); [| discriminate].
    apply selectLoop_skipped_grows in H as [rest H].
    destruct rest; discriminate.
Qed.

Lemma consecutiveCalls_round_robin (world : World) k :
  forall call mgr,
    strategy mgr = round_robin ->
    (currentIndex mgr < length (models mgr))%nat ->
    Forall noRejection (consecutiveCalls k call mgr world) ->
    consecutiveCalls k call mgr world
    = (fun m => Ok (m, [])) <$> cycle (models mgr) k (currentIndex mgr).
Proof.
  induction k as [| k IH]; intros call mgr Hrr Hc Hall; simpl in *;
    [reflexivity |].
  destruct (world call) as [[tr messages] env].
  destruct (getNextModel mgr tr messages env) as [[mgr' tr'] result] eqn:Hcall.
  apply Forall_cons in Hall as [[model ->] Hall].
  destruct (getNextModel_round_robin_step _ _ _ _ _ _ _ Hrr Hcall)
    as (Hm & Hmodels & Hrr' & Hidx).
  rewrite Hm. simpl. f_equal.
  rewrite IH; [by rewrite Hmodels, Hidx | exact Hrr' | | exact Hall].
  rewrite Hmodels, Hidx. apply Nat.mod_upper_bound. lia.
Qed.

(** One round-robin call whose first admission check allows returns the
    candidate under the cursor, with nothing skipped, and moves the cursor
    one step. *)
Lemma getNextModel_round_robin_admitted mgr tr messages env model :
  strategy mgr = round_robin ->
  models mgr !! currentIndex mgr = Some model ->
  admits (tr, messages, env) model ->
  exists mgr' tr',
    getNextModel mgr tr messages env = (mgr', tr', Ok (model, []))
    /\ models mgr' = models mgr
    /\ strategy mgr' = round_robin
    /\ currentIndex mgr' = ((currentIndex mgr + 1) mod length (models mgr))%nat.
Proof.
  intros Hrr Hm Ha. unfold admits in Ha. unfold getNextModel.
  destruct (length (models mgr)) as [| n] eqn:Hlen.
  { apply lookup_lt_Some in Hm. lia. }
  simpl. unfold selectByStrategy. rewrite Hrr, Hm.
  destruct (canRequest tr model _ _ _) as [tr1 check]. simpl in Ha.
  rewrite Ha. eexists _, _. split; [reflexivity |]. simpl. by rewrite Hlen.
Qed.

Lemma consecutiveCalls_round_robin_admitted (world : World) k :
  forall call mgr,
    strategy mgr = round_robin ->
    (currentIndex mgr < length (models mgr))%nat ->
    (forall j m,
       cycle (models mgr) k (currentIndex mgr) !! j = Some m ->
       admits (world (call + j)%nat) m) ->
    consecutiveCalls k call mgr world
    = (fun m => Ok (m, [])) <$> cycle (models mgr) k (currentIndex mgr).
Proof.
  induction k as [| k IH]; intros call mgr Hrr Hc Hall; [reflexivity |].
  cbn [consecutiveCalls cycle] in *.
  destruct (lookup_lt_is_Some_2 (models mgr) (currentIndex mgr) Hc) as [m Hm].
  rewrite Hm in Hall |- *.
  pose proof (Hall 0%nat m eq_refl) as Ha. rewrite Nat.add_0_r in Ha.
  destruct (world call) as [[tr messages] env] eqn:Hw.
  destruct (getNextModel_round_robin_admitted mgr tr messages env m Hrr Hm Ha)
    as (mgr' & tr' & Hcall & Hmodels & Hrr' & Hidx).
  rewrite Hcall. rewrite fmap_cons. f_equal.
  rewrite IH; [by rewrite Hmodels, Hidx | exact Hrr' | |].
  - rewrite Hmodels, Hidx. apply Nat.mod_upper_bound. lia.
  - intros j x Hx. rewrite Hmodels, Hidx in Hx.
    replace (S call + j)%nat with (call + S j)%nat by lia.
    by apply Hall.
Qed.

(** C6. Under round robin, as many consecutive calls as there are
    candidates, each finding a tracker whose admission check allows the
    candidate under the cursor, return each candidate exactly once and skip
    nothing, in the configured order taken from the cursor and wrapping
    around; from the initial cursor [0] this is the configured order
    itself. *)
Theorem round_robin_visits_each_candidate_once mgr (world : World) :
  strategy mgr = round_robin ->
  (currentIndex mgr < length (models mgr))%nat ->
  let results := consecutiveCalls (length (models mgr)) 0 mgr world in
  let visited :=
    drop (currentIndex mgr) (models mgr) ++ take (currentIndex mgr) (models mgr) in
  (forall k m, visited !! k = Some m -> admits (world k) m) ->
  results = (fun m => Ok (m, [])) <$> visited
  /\ visited ≡ₚ models mgr
  /\ (currentIndex mgr = 0%nat -> visited = models mgr).
Proof.
  intros Hrr Hc results visited Hall. split; [| split].
  - unfold results.
    rewrite consecutiveCalls_round_robin_admitted; [by rewrite cycle_full | done.. |].
    intros j m Hj. rewrite cycle_full in Hj by done. by apply Hall.
  - unfold visited. rewrite Permutation_app_comm. by rewrite take_drop.
  - intros H0. unfold visited. rewrite H0. simpl. by rewrite drop_0, app_nil_r.
Qed.

Lemma round_robin_visits_each_candidate_once_witness :
  consecutiveCalls 3 0 (sampleManager round_robin)
    (fun call =>
       (match call with 1%nat => exhaustedGroq | _ => exhaustedCerebras end,
        sampleMessages, quiet))
  = [Ok (modelA, []); Ok (modelB, []); Ok (modelC, [])].
Proof.
  refine (proj1 (round_robin_visits_each_candidate_once
                   (sampleManager round_robin)
                   (fun call =>
                      (match call with
                       | 1%nat => exhaustedGroq
                       | _ => exhaustedCerebras
                       end, sampleMessages, quiet))
                   eq_refl _ _)).
  - simpl. lia.
  - intros k m H.
    destruct k as [| [| [| k]]]; simpl in H; try discriminate;
      injection H as <-; reflexivity.
Defined.


(** Under round robin an exhausted call has tried the candidates in cursor
    order, one entry per candidate. *)
Lemma selectLoop_round_robin_exhausted env estimatedTokens remaining :
  forall attempts mgr tr skipped mgr' tr' skipped',
    strategy mgr = round_robin ->
    (currentIndex mgr < length (models mgr))%nat ->
    selectLoop remaining attempts env estimatedTokens mgr tr skipped
    = (mgr', tr', Throw (AllExhaustedError skipped')) ->
    (fun e => (Skipped.provider e, Skipped.id e)) <$> skipped'
    = ((fun e => (Skipped.provider e, Skipped.id e)) <$> skipped)
      ++ ((fun m => (ModelConfig.provider m, ModelConfig.id m))
            <$> cycle (models mgr) remaining (currentIndex mgr)).
Proof.
  induction remaining as [| remaining IH];
    intros attempts mgr tr skipped mgr' tr' skipped' Hrr Hc H; simpl in H.
  - injection H as _ _ <-. simpl. by rewrite app_nil_r.
  - unfold selectByStrategy in H. rewrite Hrr in H.
    destruct (lookup_lt_is_Some_2 _ _ Hc) as [m Hm]. rewrite Hm in H.
    destruct (canRequest tr m estimatedTokens _ _) as [tr1 check].
    destruct (Check.allowed check); [discriminate |].
    simpl in H. destruct (autoFallback mgr); [| discriminate].
    apply IH in H; simpl; [| done | apply Nat.mod_upper_bound; lia].
    rewrite H, Hm, fmap_app, <- app_assoc. reflexivity.
Qed.

Lemma getNextModel_round_robin_exhausted mgr tr messages env mgr' tr' skipped :
  strategy mgr = round_robin ->
  (currentIndex mgr < length (models mgr))%nat ->
  getNextModel mgr tr messages env = (mgr', tr', Throw (AllExhaustedError skipped)) ->
  (fun e => (Skipped.provider e, Skipped.id e)) <$> skipped
  = (fun m => (ModelConfig.provider m, ModelConfig.id m))
      <$> (drop (currentIndex mgr) (models mgr) ++ take (currentIndex mgr) (models mgr)).
Proof.
  intros Hrr Hc H. unfold getNextModel in H.
  apply selectLoop_round_robin_exhausted in H; [| done..].
  by rewrite H, cycle_full.
Qed.

(** ** The read-only projections *)

Lemma getRemainingCapacity_tracker tr model dayStart now :
  (getRemainingCapacity tr model dayStart now).1 = (getStats tr model dayStart).1.
Proof.
  unfold getRemainingCapacity.
  destruct (getStats tr model dayStart) as [tr' s].
  by destruct (ModelConfig.provider model).
Qed.

Lemma getRateLimitInfo_tracker tr model dayStart now :
  (getRateLimitInfo tr model dayStart now).1 = (getStats tr model dayStart).1.
Proof.
  unfold getRateLimitInfo.
  destruct (getStats tr model dayStart) as [tr' s].
  by destruct (ModelConfig.provider model).
Qed.

(** C9, the claim as stated fails. On a model the tracker has not seen both
    projections create its stats entry, and on a new day
    [getRateLimitInfo] resets the daily counters: [getUsageStats] shows the
    difference. *)
Lemma projections_create_and_roll_over :
  getUsageStats UsageTracker.empty "model-a" = None
  /\ is_Some (getUsageStats
                (getRemainingCapacity UsageTracker.empty modelA 0 1000).1 "model-a")
  /\ is_Some (getUsageStats
                (getRateLimitInfo UsageTracker.empty modelA 0 1000).1 "model-a")
  /\ (getRemainingCapacity UsageTracker.empty modelA 0 1000).1
     <> UsageTracker.empty
  /\ (UsageStats.requestsToday <$> getUsageStats afterOneAdmission "model-a")
     = Some (ofZ 1)
  /\ (UsageStats.requestsToday
        <$> getUsageStats
              (getRateLimitInfo afterOneAdmission modelA 86400000 86400500).1
              "model-a")
     = Some (ofZ 0).
Proof.
  repeat split.
  - vm_compute. eauto.
  - vm_compute. eauto.
  - intros H.
    apply (f_equal (fun tr => getUsageStats tr "model-a")) in H.
    vm_compute in H. discriminate.
Qed.

(** C9, as amended. The two projections change the tracker exactly as
    [getStats] does: they create the entry of a model that has none and
    start the daily counters afresh on a new day.  They leave the history,
    the entries of the other models and the rate-limit state of the entry
    alone, and on an entry of the current day they change nothing.  For a
    Groq model the reset texts of [getRateLimitInfo] are computed from the
    clock read at the call. *)
Theorem projections_only_lazy_bookkeeping tr model dayStart now :
  let tr0 := (getStats tr model dayStart).1 in
  (getRemainingCapacity tr model dayStart now).1 = tr0
  /\ (getRateLimitInfo tr model dayStart now).1 = tr0
  /\ history tr0 = history tr
  /\ (forall j, j <> ModelConfig.id model -> stats tr0 !! j = stats tr !! j)
  /\ (forall s,
        stats tr !! ModelConfig.id model = Some s ->
        stateOf tr0 (ModelConfig.id model) = Some (UsageStats.rateLimitState s)
        /\ (UsageStats.dayStart s = dayStart -> tr0 = tr))
  /\ (ModelConfig.provider model = groq ->
      let state := UsageStats.rateLimitState (getStats tr model dayStart).2 in
      RateLimitInfo.resetInfo (getRateLimitInfo tr model dayStart now).2
      = (if ngt (read (resetRequestsAt state)) (ofZ now)
         then ResetIn (formatDuration
                         (nceil (ndivc (nsub (read (resetRequestsAt state)) (ofZ now))
                                   1000)))
         else ResetNow,
         if ngt (read (resetTokensAt state)) (ofZ now)
         then ResetInSeconds
                (nceil (ndivc (nsub (read (resetTokensAt state)) (ofZ now)) 1000))
         else ResetNow)).
Proof.
  intros tr0. repeat split.
  - apply getRemainingCapacity_tracker.
  - apply getRateLimitInfo_tracker.
  - apply getStats_history.
  - intros j. apply getStats_other.
  - unfold stateOf, getUsageStats, tr0. rewrite getStats_lookup. simpl.
    f_equal. by apply getStats_state_existing.
  - intros Hday. unfold tr0. rewrite (getStats_existing _ _ _ s H).
    rewrite Hday, Z.eqb_refl. reflexivity.
  - intros Hg. unfold getRateLimitInfo.
    destruct (getStats tr model dayStart) as [tr' s]. rewrite Hg. reflexivity.
Qed.

Lemma projections_only_lazy_bookkeeping_witness :
  (getRemainingCapacity exhaustedGroq modelA 0 5000).1 = exhaustedGroq
  /\ (getRateLimitInfo exhaustedGroq modelA 0 5000).1 = exhaustedGroq
  /\ RateLimitInfo.resetInfo (getRateLimitInfo exhaustedGroq modelA 0 5000).2
     = (ResetIn (MinutesSeconds (ofZ 59) (Num (57 # 1))),
        ResetInSeconds (ofZ 5)).
Proof.
  destruct (projections_only_lazy_bookkeeping exhaustedGroq modelA 0 5000)
    as (H1 & H2 & _ & _ & Hs & Hr).
  destruct (Hs (getStats exhaustedGroq modelA 0).2 eq_refl) as [_ Hsame].
  rewrite H1, H2, (Hr eq_refl).
  split; [exact (Hsame eq_refl) | split; [exact (Hsame eq_refl) |]].
  vm_compute. reflexivity.
Defined.

(** ** The cursor *)

(** A manager that [new] returns has candidates and starts at the first. *)
Lemma new_initial options enabledModels mgr :
  new options enabledModels = Some mgr ->
  models mgr <> [] /\ currentIndex mgr = 0%nat /\ usageCount mgr = ∅.
Proof.
  unfold new. intros H.
  match type of H with
  | match ?l with _ => _ end = _ => destruct l eqn:E; [discriminate |]
  end.
  injection H as <-. simpl. done.
Qed.

(** A selection keeps the candidates and a cursor inside them. *)
Lemma selectByStrategy_cursor mgr rnd :
  (currentIndex mgr < length (models mgr))%nat ->
  let mgr' := (selectByStrategy mgr rnd).2 in
  models mgr' = models mgr
  /\ strategy mgr' = strategy mgr
  /\ autoFallback mgr' = autoFallback mgr
  /\ (currentIndex mgr' < length (models mgr'))%nat.
Proof.
  intros Hc. unfold selectByStrategy.
  destruct (strategy mgr) eqn:E; simpl; repeat split; try done.
  apply Nat.mod_upper_bound. lia.
Qed.

Lemma selectLoop_cursor env estimatedTokens remaining :
  forall attempts mgr tr skipped,
    (currentIndex mgr < length (models mgr))%nat ->
    let mgr' := (selectLoop remaining attempts env estimatedTokens mgr tr skipped).1.1 in
    models mgr' = models mgr
    /\ strategy mgr' = strategy mgr
    /\ (currentIndex mgr' < length (models mgr'))%nat.
Proof.
  induction remaining as [| remaining IH]; intros attempts mgr tr skipped Hc;
    simpl; [done |].
  pose proof (selectByStrategy_cursor mgr (Env.random (env attempts)) Hc) as Hs.
  destruct (selectByStrategy mgr (Env.random (env attempts))) as [[m |] mgr1];
    simpl in Hs; destruct Hs as (Hm & Hst & Hf & Hc1); [| simpl; by rewrite Hm in *].
  destruct (canRequest tr m estimatedTokens _ _) as [tr1 check].
  destruct (Check.allowed check); simpl; [by rewrite Hm in * |].
  destruct (autoFallback mgr1); simpl; [| by rewrite Hm in *].
  destruct (IH (S attempts) mgr1 tr1 (skipped ++ [skippedEntry m check]) Hc1)
    as (Hm' & Hst' & Hc').
  repeat split; [congruence | congruence | exact Hc'].
Qed.

(** Every call of [getNextModel] leaves the cursor inside the candidates. *)
Lemma getNextModel_cursor mgr tr messages env :
  (currentIndex mgr < length (models mgr))%nat ->
  let mgr' := (getNextModel mgr tr messages env).1.1 in
  models mgr' = models mgr
  /\ strategy mgr' = strategy mgr
  /\ (currentIndex mgr' < length (models mgr'))%nat.
Proof. intros Hc. by apply selectLoop_cursor. Qed.

(** [canRequestCerebras] does not look at the clock. *)
Lemma canRequestCerebras_ignores_clock stats estimatedTokens now now' :
  canRequestCerebras stats estimatedTokens now
  = canRequestCerebras stats estimatedTokens now'.
Proof. reflexivity. Qed.

(** * Further properties of the tracker *)

(** ** Durations are finite and not negative *)

Lemma digitsValue_nonneg (ds : list ascii) : 0 <= digitsValue ds.
Proof.
  unfold digitsValue.
  assert (H : forall acc, 0 <= acc ->
                0 <= fold_left (fun acc c => 10 * acc + digit c) ds acc).
  { induction ds as [| c ds IH]; intros acc Hacc; simpl; [exact Hacc |].
    apply IH. unfold digit. lia. }
  apply H. lia.
Qed.

Lemma decimalValue_nonneg ip fp e : (0 <= decimalValue ip fp e)%Q.
Proof.
  unfold decimalValue. apply Qmult_le_0_compat.
  - pose proof (digitsValue_nonneg (ip ++ fp)) as H.
    unfold Qle, inject_Z. simpl. lia.
  - apply Qpower_0_le. unfold Qle, inject_Z. simpl. lia.
Qed.

Lemma scanDurations_nonneg fuel :
  forall s ms, nonNegative ms -> nonNegative (scanDurations fuel s ms).
Proof.
  induction fuel as [| fuel IH]; intros s ms Hms; simpl; [exact Hms |].
  destruct s as [| c r]; [exact Hms |].
  destruct (matchDuration (c :: r)) as [[[value unit] rest] |] eqn:E;
    [| by apply IH].
  apply IH. destruct Hms as (q & -> & Hq).
  assert (Hv : (0 <= value)%Q).
  { unfold matchDuration in E.
    destruct (takeDigits (c :: r)) as [ip r1].
    destruct ip; [discriminate |].
    destruct (takeFraction r1) as [fp r2].
    destruct r2 as [| u rest']; [discriminate |].
    destruct (isUnit u); [| discriminate].
    injection E as <- _ _. apply decimalValue_nonneg. }
  repeat (match goal with |- context [if ?b then _ else _] => destruct b end);
    try (eexists; split; [reflexivity |]);
    try (unfold inject_Z; nra); try exact Hq.
Qed.

Lemma isDigit_digit (c : ascii) : isDigit c = true -> 0 <= digit c <= 9.
Proof.
  unfold isDigit, digit. cbv zeta. intros H.
  apply andb_true_iff in H as [H1 H2].
  apply Nat.leb_le in H1, H2. lia.
Qed.

Lemma takeDigits_spec (s : list ascii) :
  Forall (fun c => isDigit c = true) (takeDigits s).1
  /\ s = (takeDigits s).1 ++ (takeDigits s).2.
Proof.
  induction s as [| c r [IH1 IH2]]; cbn [takeDigits]; [by split |].
  destruct (isDigit c) eqn:E; [| by split].
  destruct (takeDigits r) as [ds rest]. cbn [fst snd] in *.
  split; [by constructor | simpl; by f_equal].
Qed.

Lemma digitsValue_bound (ds : list ascii) :
  Forall (fun c => isDigit c = true) ds ->
  digitsValue ds < 10 ^ Z.of_nat (length ds).
Proof.
  unfold digitsValue. intros Hds.
  assert (H : forall acc, 0 <= acc ->
            fold_left (fun acc c => 10 * acc + digit c) ds acc
            < (acc + 1) * 10 ^ Z.of_nat (length ds)).
  { induction Hds as [| c ds Hc Hds IH]; intros acc Hacc.
    - simpl. lia.
    - cbn [fold_left length]. apply isDigit_digit in Hc.
      specialize (IH (10 * acc + digit c) ltac:(lia)).
      rewrite Nat2Z.inj_succ, Z.pow_succ_r by lia.
      assert (0 < 10 ^ Z.of_nat (length ds)) by (apply Z.pow_pos_nonneg; lia).
      nia. }
  specialize (H 0 ltac:(lia)). lia.
Qed.

Lemma decimalValue_bound (ip fp : list ascii) :
  Forall (fun c => isDigit c = true) ip ->
  Forall (fun c => isDigit c = true) fp ->
  (decimalValue ip fp 0 <= inject_Z (10 ^ Z.of_nat (length ip)))%Q.
Proof.
  intros Hip Hfp. unfold decimalValue.
  pose proof (digitsValue_bound (ip ++ fp) ltac:(by apply Forall_app)) as Hd.
  rewrite length_app, Nat2Z.inj_add, Z.pow_add_r in Hd by lia.
  set (a := 10 ^ Z.of_nat (length ip)) in *.
  set (k := Z.of_nat (length fp)) in *.
  assert (Hk : 0 <= k) by (unfold k; lia).
  assert (Hp : (inject_Z 10 ^ (0 - k) * inject_Z (10 ^ k) == 1)%Q).
  { rewrite Zpower_Qpower by exact Hk.
    rewrite <- Qpower_plus by discriminate.
    replace (0 - k + k) with 0 by lia. reflexivity. }
  assert (Hpos : (0 <= inject_Z 10 ^ (0 - k))%Q).
  { apply Qpower_0_le. unfold Qle, inject_Z. simpl. lia. }
  assert (HdQ : (inject_Z (digitsValue (ip ++ fp)) <= inject_Z a * inject_Z (10 ^ k))%Q).
  { rewrite <- inject_Z_mult, <- Zle_Qle. lia. }
  assert (H : (inject_Z (digitsValue (ip ++ fp)) * inject_Z 10 ^ (0 - k)
               <= inject_Z a * inject_Z (10 ^ k) * inject_Z 10 ^ (0 - k))%Q)
    by (by apply Qmult_le_compat_r).
  eapply Qle_trans; [exact H |].
  rewrite <- Qmult_assoc, (Qmult_comm (inject_Z (10 ^ k))), Hp, Qmult_1_r.
  apply Qle_refl.
Qed.

Lemma takeFraction_spec (s : list ascii) :
  Forall (fun c => isDigit c = true) (takeFraction s).1.
Proof.
  unfold takeFraction.
  destruct s as [| c r]; [by constructor |].
  destruct (ascii_dec c ".") as [-> | Hc].
  - pose proof (takeDigits_spec r) as [H _].
    destruct (takeDigits r) as [fp r']. cbn [fst] in H.
    destruct fp; [by constructor | exact H].
  - destruct c as [[] [] [] [] [] [] [] []]; try done; by apply Forall_nil.
Qed.

Lemma matchDuration_bound (s : list ascii) value unit rest :
  matchDuration s = Some (value, unit, rest) ->
  exists k : nat,
    (1 <= k)%nat
    /\ (length rest + k + 1 <= length s)%nat
    /\ (0 <= value)%Q
    /\ (value <= inject_Z (10 ^ Z.of_nat k))%Q.
Proof.
  unfold matchDuration.
  pose proof (takeDigits_spec s) as [Hip Hs].
  destruct (takeDigits s) as [ip r1]. cbn [fst snd] in *.
  destruct ip as [| d ip]; [discriminate |].
  pose proof (takeFraction_length r1) as H2.
  pose proof (takeFraction_spec r1) as Hfp.
  destruct (takeFraction r1) as [fp r2]. cbn [fst snd] in *.
  destruct r2 as [| u rest']; [discriminate |].
  destruct (isUnit u); [| discriminate].
  intros [= <- _ <-]. exists (length (d :: ip)).
  split; [simpl; lia |]. split; [| split].
  - rewrite Hs, length_app. simpl in *. lia.
  - apply decimalValue_nonneg.
  - by apply decimalValue_bound.
Qed.

Lemma pow10_sum (a b n : Z) :
  1 <= a -> 0 <= b -> a + b + 1 <= n ->
  10 ^ a + (10 ^ b - 1) <= 10 ^ n - 1.
Proof.
  intros Ha Hb Hn.
  assert (H1 : 10 ^ (a + b + 1) <= 10 ^ n) by (apply Z.pow_le_mono_r; lia).
  rewrite !Z.pow_add_r, Z.pow_1_r in H1 by lia.
  assert (0 < 10 ^ a) by (apply Z.pow_pos_nonneg; lia).
  assert (0 < 10 ^ b) by (apply Z.pow_pos_nonneg; lia).
  nia.
Qed.

Lemma scanDurations_bound fuel :
  forall s (acc : Q),
    exists q,
      scanDurations fuel s (Num acc) = Num q
      /\ (acc <= q)%Q
      /\ (q <= acc + inject_Z (3600000 * (10 ^ Z.of_nat (length s) - 1)))%Q.
Proof.
  induction fuel as [| fuel IH]; intros s acc.
  - exists acc. split; [reflexivity |]. split; [apply Qle_refl |].
    assert (0 < 10 ^ Z.of_nat (length s)) by (apply Z.pow_pos_nonneg; lia).
    assert (0 <= inject_Z (3600000 * (10 ^ Z.of_nat (length s) - 1)))%Q
      by (change 0%Q with (inject_Z 0); rewrite <- Zle_Qle; lia).
    lra.
  - cbn [scanDurations]. destruct s as [| c r].
    { exists acc. split; [reflexivity |]. split; [apply Qle_refl |].
      change (3600000 * (10 ^ Z.of_nat (length (@nil ascii)) - 1)) with 0.
      unfold inject_Z. lra. }
    destruct (matchDuration (c :: r)) as [[[value unit] rest] |] eqn:E.
    + apply matchDuration_bound in E as (k & Hk & Hlen & Hv0 & Hv).
      assert (Hz : 10 ^ Z.of_nat k + (10 ^ Z.of_nat (length rest) - 1)
                   <= 10 ^ Z.of_nat (length (c :: r)) - 1)
        by (apply pow10_sum; lia).
      assert (HzQ : (inject_Z (10 ^ Z.of_nat k) * 3600000
                     + inject_Z (3600000 * (10 ^ Z.of_nat (length rest) - 1))
                     <= inject_Z (3600000 * (10 ^ Z.of_nat (length (c :: r)) - 1)))%Q).
      { change 3600000%Q with (inject_Z 3600000).
        rewrite <- inject_Z_mult, <- inject_Z_plus, <- Zle_Qle. lia. }
      set (P := inject_Z (10 ^ Z.of_nat k)) in *.
      set (R := inject_Z (3600000 * (10 ^ Z.of_nat (length rest) - 1))) in *.
      set (T := inject_Z (3600000 * (10 ^ Z.of_nat (length (c :: r)) - 1))) in *.
      destruct (code unit =? 104)%nat; [| destruct (code unit =? 109)%nat;
        [| destruct (code unit =? 115)%nat]];
        cbn [nadd nmul ofZ];
        match goal with
        | |- context [scanDurations fuel rest (Num ?a)] =>
            destruct (IH rest a) as (q & Hq & Hlo & Hhi)
        end;
        fold R in Hhi; exists q; (split; [exact Hq |]);
        unfold inject_Z in Hlo, Hhi; split; lra.
    + destruct (IH r acc) as (q & Hq & Hlo & Hhi).
      exists q. split; [exact Hq |]. split; [exact Hlo |].
      eapply Qle_trans; [exact Hhi |].
      apply Qplus_le_r. rewrite <- Zle_Qle.
      cbn [length]. rewrite Nat2Z.inj_succ, Z.pow_succ_r by lia.
      assert (0 < 10 ^ Z.of_nat (length r)) by (apply Z.pow_pos_nonneg; lia).
      lia.
Qed.

Lemma parseGroqDuration_bound (duration : string) :
  (String.length duration <= 256)%nat ->
  exists q,
    parseGroqDuration duration = Num q
    /\ (0 <= q)%Q
    /\ (q <= inject_Z (3600000 * 10 ^ 256))%Q.
Proof.
  intros Hlen. unfold parseGroqDuration. cbv zeta.
  destruct (scanDurations_bound (length (list_ascii_of_string duration))
              (list_ascii_of_string duration) (inject_Z 0))
    as (q & Hq & Hlo & Hhi).
  exists q. split; [exact Hq |]. split; [exact Hlo |].
  eapply Qle_trans; [exact Hhi |].
  rewrite Qplus_0_l, <- Zle_Qle.
  assert (Hl : length (list_ascii_of_string duration) = String.length duration).
  { clear. induction duration as [| c s IH]; simpl; [done | by rewrite IH]. }
  rewrite Hl.
  assert (10 ^ Z.of_nat (String.length duration) <= 10 ^ 256)
    by (apply Z.pow_le_mono_r; lia).
  lia.
Qed.

(** On a text of at most 256 characters [parseGroqDuration] gives a number
    that is not negative and stays below 3600000 * 10 ^ 256, far inside the
    finite numbers; so a reset instant that [updateFromGroqHeaders] stores
    from such a header is a number that is never earlier than the clock
    reading of the update, and finite with it. *)
Theorem groq_reset_never_before_update state (headers : Headers) now :
  (forall duration,
     (String.length duration <= 256)%nat ->
     exists q,
       parseGroqDuration duration = Num q
       /\ (0 <= q)%Q
       /\ (q <= inject_Z (3600000 * 10 ^ 256))%Q)
  /\ (forall v,
        headers !! "x-ratelimit-reset-requests"%string = Some v ->
        v <> ""%string -> (String.length v <= 256)%nat ->
        exists q,
          resetRequestsAt (updateFromGroqHeaders state headers now) = Some (Num q)
          /\ (inject_Z now <= q)%Q
          /\ (q <= inject_Z (now + 3600000 * 10 ^ 256))%Q)
  /\ (forall v,
        headers !! "x-ratelimit-reset-tokens"%string = Some v ->
        v <> ""%string -> (String.length v <= 256)%nat ->
        exists q,
          resetTokensAt (updateFromGroqHeaders state headers now) = Some (Num q)
          /\ (inject_Z now <= q)%Q
          /\ (q <= inject_Z (now + 3600000 * 10 ^ 256))%Q).
Proof.
  split; [exact parseGroqDuration_bound | split]; intros v Hv Hne Hlen.
  - pose proof (update_field_supplied groq ResetRequestsAt _ state headers now
                  eq_refl ltac:(by exists v)) as H.
    cbn [fieldValue updateFor reportedValue] in H. rewrite H.
    unfold text. rewrite Hv. cbn [default from_option id].
    destruct (parseGroqDuration_bound v Hlen) as (q & -> & Hlo & Hhi).
    eexists. split; [reflexivity |]. rewrite inject_Z_plus. split; lra.
  - pose proof (update_field_supplied groq ResetTokensAt _ state headers now
                  eq_refl ltac:(by exists v)) as H.
    cbn [fieldValue updateFor reportedValue] in H. rewrite H.
    unfold text. rewrite Hv. cbn [default from_option id].
    destruct (parseGroqDuration_bound v Hlen) as (q & -> & Hlo & Hhi).
    eexists. split; [reflexivity |]. rewrite inject_Z_plus. split; lra.
Qed.

Lemma groq_reset_never_before_update_witness :
  exists q,
    resetRequestsAt
      (updateFromGroqHeaders (createGroqState sampleLimits) sampleGroqHeaders 2000)
    = Some (Num q)
    /\ (inject_Z 2000 <= q)%Q
    /\ (q <= inject_Z (2000 + 3600000 * 10 ^ 256))%Q.
Proof.
  apply (proj1 (proj2 (groq_reset_never_before_update
                         (createGroqState sampleLimits) sampleGroqHeaders 2000))
           "1h"%string); [reflexivity | discriminate | simpl; lia].
Defined.

(** ** What a denial reports *)

Lemma Qceiling_positive (x : Q) : (0 < x)%Q -> 1 <= Qceiling x.
Proof.
  intros Hx. pose proof (Qle_ceiling x) as H.
  assert (H0 : (0 < inject_Z (Qceiling x))%Q) by lra.
  unfold Qlt, inject_Z in H0. simpl in H0. lia.
Qed.

Lemma ngt_true_inv (a b : num) :
  ngt a b = true -> exists x y, a = Num x /\ b = Num y /\ (y < x)%Q.
Proof.
  unfold ngt. intros H. apply nlt_true_inv in H as (y & x & -> & -> & H).
  eauto.
Qed.

Lemma nadd_Num_inv (a b : num) (q : Q) :
  nadd a b = Num q -> exists x y, a = Num x /\ b = Num y /\ q = (x + y)%Q.
Proof. destruct a, b; simpl; try discriminate. intros [= <-]. eauto. Qed.

Lemma nmul_Num_inv (a b : num) (q : Q) :
  nmul a b = Num q -> exists x y, a = Num x /\ b = Num y /\ q = (x * y)%Q.
Proof. destruct a, b; simpl; try discriminate. intros [= <-]. eauto. Qed.

Lemma Qceiling_le_Z (x : Q) (z : Z) : (x <= inject_Z z)%Q -> Qceiling x <= z.
Proof.
  intros H. apply Qceiling_resp_le in H. by rewrite Qceiling_Z in H.
Qed.

Lemma wholeWithin_ordinary (bound : Z) (a : num) :
  bound <= 2 ^ 53 -> wholeWithin bound a -> ordinary a.
Proof.
  intros Hb Hw q Hq. destruct (Hw q Hq) as (z & -> & Hz).
  rewrite <- inject_Z_opp, <- !Zle_Qle. lia.
Qed.

Lemma waitSec_bounds (resetAt : num) (now : Z) :
  0 <= now -> ordinary resetAt ->
  ngt resetAt (ofZ now) = true ->
  exists w,
    1 <= w <= 2 ^ 54
    /\ nceil (ndivc (nsub resetAt (ofZ now)) 1000) = ofZ w.
Proof.
  intros Hnow Hord H. apply ngt_true_inv in H as (x & y & -> & [= <-] & H).
  destruct (Hord x eq_refl) as [_ Hx].
  eexists. split; [| reflexivity]. split.
  - apply Qceiling_positive. unfold inject_Z in *.
    apply Qlt_shift_div_l; lra.
  - apply Qceiling_le_Z.
    assert (Hn : (0 <= inject_Z now)%Q) by (unfold Qle, inject_Z; simpl; lia).
    change (2 ^ 53) with 9007199254740992 in Hx.
    change (2 ^ 54) with 18014398509481984.
    apply Qle_shift_div_r; unfold inject_Z in *; lra.
Qed.

Lemma seconds_bounds (seconds : num) :
  ordinary seconds ->
  ngt seconds (ofZ 0) = true ->
  exists w, 1 <= w <= 2 ^ 54 /\ nceil seconds = ofZ w.
Proof.
  intros Hord H. apply ngt_true_inv in H as (x & y & -> & [= <-] & H).
  destruct (Hord x eq_refl) as [_ Hx].
  eexists. split; [| reflexivity]. split.
  - apply Qceiling_positive. unfold inject_Z in H. lra.
  - apply Qceiling_le_Z.
    change (2 ^ 53) with 9007199254740992 in Hx.
    change (2 ^ 54) with 18014398509481984.
    unfold inject_Z in *. lra.
Qed.

Lemma canRequestGroq_wait stats estimatedTokens now :
  let check := canRequestGroq stats estimatedTokens now in
  1 <= now <= 2 ^ 52 ->
  ordinaryState (UsageStats.rateLimitState stats) ->
  Check.allowed check = false ->
  exists w,
    1 <= w <= 2 ^ 54
    /\ (Check.reason check = Some (RetryAfterReason (ofZ w))
        \/ Check.reason check = Some (DailyRequestsReason (formatDuration (ofZ w)))
        \/ Check.reason check = Some (TokenLimitReason (ofZ w))).
Proof.
  unfold canRequestGroq.
  set (state := UsageStats.rateLimitState stats).
  intros Hnow (Hlu & Hra & Hrr & Hrt & _).
  apply (wholeWithin_ordinary (2 ^ 52)) in Hlu; [| by vm_compute].
  apply (wholeWithin_ordinary (2 ^ 42)) in Hra; [| by vm_compute].
  assert (Hnow' : 0 <= now <= 2 ^ 53)
    by (change (2 ^ 52) with 4503599627370496 in Hnow;
        change (2 ^ 53) with 9007199254740992; lia).
  clear Hnow. rename Hnow' into Hnow.
  destruct (truthy (read (retryAfter state))
            && ngt (nadd (lastUpdated state)
                      (nmul (read (retryAfter state)) (ofZ 1000))) (ofZ now))
    eqn:E1; cbn [Check.allowed Check.reason].
  - intros _. apply andb_true_iff in E1 as [_ E1].
    apply ngt_true_inv in E1 as (x & y & Hx & [= <-] & Hlt).
    apply nadd_Num_inv in Hx as (l & m & Hl & Hm & ->).
    apply nmul_Num_inv in Hm as (r & k & Hr & [= <-] & ->).
    destruct (Hlu l Hl) as [Hl1 Hl2]. destruct (Hra r Hr) as [Hr1 Hr2].
    rewrite Hl, Hr. eexists. split; [| left; reflexivity].
    assert (Hn1 : (0 <= inject_Z now)%Q) by (unfold Qle, inject_Z; simpl; lia).
    assert (Hn2 : (inject_Z now <= inject_Z (2 ^ 53))%Q)
      by (rewrite <- Zle_Qle; lia).
    change (2 ^ 53) with 9007199254740992 in *.
    change (2 ^ 54) with 18014398509481984.
    split.
    + apply Qceiling_positive. unfold inject_Z in *.
      assert ((inject_Z now - l) / (1000 # 1) < r)%Q; [| unfold inject_Z in *; lra].
      apply Qlt_shift_div_r; unfold inject_Z; lra.
    + apply Qceiling_le_Z. cbn [nsub ndivc ofZ].
      assert (- (9007199254740992 # 1) <= (inject_Z now - l) / inject_Z 1000)%Q.
      { apply Qle_shift_div_l; unfold inject_Z in *; [reflexivity | lra]. }
      unfold inject_Z in *. lra.
  - destruct (nle (remainingRequestsDay state) (ofZ 0)
              && ngt (read (resetRequestsAt state)) (ofZ now)) eqn:E2;
      cbn [Check.allowed Check.reason].
    + intros _. apply andb_true_iff in E2 as [_ E2].
      destruct (waitSec_bounds _ _ (proj1 Hnow) Hrr E2) as (w & Hw & ->).
      exists w. split; [exact Hw | right; left; reflexivity].
    + destruct (nlt (remainingTokensMinute state) estimatedTokens
                && ngt (read (resetTokensAt state)) (ofZ now)) eqn:E3;
        cbn [Check.allowed Check.reason]; [| discriminate].
      intros _. apply andb_true_iff in E3 as [_ E3].
      destruct (waitSec_bounds _ _ (proj1 Hnow) Hrt E3) as (w & Hw & ->).
      exists w. split; [exact Hw | right; right; reflexivity].
Qed.

Lemma canRequestCerebras_wait stats estimatedTokens now :
  let check := canRequestCerebras stats estimatedTokens now in
  ordinaryState (UsageStats.rateLimitState stats) ->
  Check.allowed check = false ->
  exists w,
    1 <= w <= 2 ^ 54
    /\ (Check.reason check = Some (DailyRequestsReason (formatDuration (ofZ w)))
        \/ Check.reason check = Some (TokenLimitReason (ofZ w))).
Proof.
  unfold canRequestCerebras.
  set (state := UsageStats.rateLimitState stats).
  intros (_ & _ & _ & _ & Hsr & Hst).
  destruct (nle (remainingRequestsDay state) (ofZ 0)
            && ngt (read (resetRequestsDaySeconds state)) (ofZ 0)) eqn:E1;
    cbn [Check.allowed Check.reason].
  - intros _. apply andb_true_iff in E1 as [_ E1].
    destruct (seconds_bounds _ Hsr E1) as (w & Hw & ->).
    exists w. split; [exact Hw | left; reflexivity].
  - destruct (nlt (remainingTokensMinute state) estimatedTokens
              && ngt (read (resetTokensMinuteSeconds state)) (ofZ 0)) eqn:E2;
      cbn [Check.allowed Check.reason]; [| discriminate].
    intros _. apply andb_true_iff in E2 as [_ E2].
    destruct (seconds_bounds _ Hst E2) as (w & Hw & ->).
    exists w. split; [exact Hw | right; reflexivity].
Qed.

(** While the clock and the numbers that the check reads from the state
    are of ordinary size, a denial always comes with a reason, and the wait
    the reason reports is a whole number of seconds, at least one and at
    most [2 ^ 54]: never ["0s"], never negative, never [NaN]. *)
Theorem denial_reports_positive_wait tr model estimatedTokens dayStart now :
  let check := (canRequest tr model estimatedTokens dayStart now).2 in
  1 <= now <= 2 ^ 52 ->
  ordinaryState (UsageStats.rateLimitState (getStats tr model dayStart).2) ->
  Check.allowed check = false ->
  exists w,
    1 <= w <= 2 ^ 54
    /\ (Check.reason check = Some (RetryAfterReason (ofZ w))
        \/ Check.reason check = Some (DailyRequestsReason (formatDuration (ofZ w)))
        \/ Check.reason check = Some (TokenLimitReason (ofZ w))).
Proof.
  unfold canRequest.
  destruct (getStats tr model dayStart) as [tr' stats].
  destruct (ModelConfig.provider model); simpl; intros Hnow Hord H.
  - by apply canRequestGroq_wait.
  - destruct (canRequestCerebras_wait stats estimatedTokens now Hord H)
      as (w & Hw & [Hr | Hr]); exists w; auto.
Qed.

Lemma denial_reports_positive_wait_witness :
  exists w,
    1 <= w <= 2 ^ 54
    /\ (Check.reason (canRequest exhaustedGroq modelA (ofZ 0) 0 5000).2
          = Some (RetryAfterReason (ofZ w))
        \/ Check.reason (canRequest exhaustedGroq modelA (ofZ 0) 0 5000).2
           = Some (DailyRequestsReason (formatDuration (ofZ w)))
        \/ Check.reason (canRequest exhaustedGroq modelA (ofZ 0) 0 5000).2
           = Some (TokenLimitReason (ofZ w))).
Proof.
  apply (denial_reports_positive_wait exhaustedGroq modelA (ofZ 0) 0 5000).
  - by vm_compute.
  - unfold ordinaryState, wholeWithin, ordinary.
    repeat apply conj; intros q Hq; vm_compute in Hq;
      first [discriminate Hq | injection Hq as <-].
    + exists 2000.
      split; [reflexivity | split; intros H; vm_compute in H; discriminate H].
    + split; intros H; vm_compute in H; discriminate H.
    + split; intros H; vm_compute in H; discriminate H.
  - reflexivity.
Defined.

(** ** The estimate in the admission check *)

Lemma nlt_nle_trans (a b c : num) :
  nlt a b = true -> nle b c = true -> nlt a c = true.
Proof.
  intros H1 H2.
  apply nlt_true_inv in H1 as (x & y & -> & -> & H1).
  apply nle_true_inv in H2 as (y' & z & [= <-] & -> & H2).
  apply nlt_Num. lra.
Qed.

Lemma canRequestGroq_smaller stats low high now :
  nle low high = true ->
  Check.allowed (canRequestGroq stats high now) = true ->
  Check.allowed (canRequestGroq stats low now) = true.
Proof.
  intros Hle. unfold canRequestGroq.
  destruct (truthy _ && _); [discriminate |].
  destruct (nle _ _ && ngt (read (resetRequestsAt _)) _); [discriminate |].
  destruct (ngt (read (resetTokensAt (UsageStats.rateLimitState stats))) (ofZ now));
    [| by rewrite !andb_false_r].
  rewrite !andb_true_r.
  destruct (nlt _ low) eqn:E; [| reflexivity].
  by rewrite (nlt_nle_trans _ _ _ E Hle).
Qed.

Lemma canRequestCerebras_smaller stats low high now :
  nle low high = true ->
  Check.allowed (canRequestCerebras stats high now) = true ->
  Check.allowed (canRequestCerebras stats low now) = true.
Proof.
  intros Hle. unfold canRequestCerebras.
  destruct (nle _ _ && _); [discriminate |].
  destruct (ngt (read (resetTokensMinuteSeconds (UsageStats.rateLimitState stats)))
              (ofZ 0));
    [| by rewrite !andb_false_r].
  rewrite !andb_true_r.
  destruct (nlt _ low) eqn:E; [| reflexivity].
  by rewrite (nlt_nle_trans _ _ _ E Hle).
Qed.

(** Admission is monotone in the estimate: a request that is allowed with
    an estimate is allowed with every smaller one, at the same clock. *)
Theorem admission_monotone_in_estimate tr model low high dayStart now :
  nle low high = true ->
  Check.allowed (canRequest tr model high dayStart now).2 = true ->
  Check.allowed (canRequest tr model low dayStart now).2 = true.
Proof.
  intros Hle. unfold canRequest.
  destruct (getStats tr model dayStart) as [tr' stats].
  destruct (ModelConfig.provider model); simpl.
  - by apply canRequestGroq_smaller.
  - by apply canRequestCerebras_smaller.
Qed.

Lemma admission_monotone_in_estimate_witness :
  Check.allowed (canRequest afterOneAdmission modelA (ofZ 10) 0 1000).2 = true.
Proof.
  apply (admission_monotone_in_estimate afterOneAdmission modelA
           (ofZ 10) (ofZ 100) 0 1000); reflexivity.
Defined.

(** ** A stored cooldown *)

(** [updateFromGroqHeaders] sets [retryAfter] when the header is there and
    never clears it, while it moves [lastUpdated] at every response.  So a
    cooldown that is stored starts again at each later response that comes
    without a [retry-after] header: the model is denied for [retryAfter]
    seconds from that response. *)
Theorem stored_cooldown_restarts stats (headers : Headers) r now now' estimatedTokens :
  let state := UsageStats.rateLimitState stats in
  retryAfter state = Some (Num r) ->
  (0 < r)%Q ->
  missing headers "retry-after" ->
  (inject_Z now' < inject_Z now + r * inject_Z 1000)%Q ->
  decisionOf
    (canRequestGroq
       (UsageStats.set_rateLimitState (updateFromGroqHeaders state headers now) stats)
       estimatedTokens now')
  = Some DeniedCooldown.
Proof.
  intros state Hr Hpos Hmiss Hlt.
  rewrite canRequestGroq_follows_order. f_equal.
  unfold specAdmission, cooldownActive.
  cbn [budgetOf RateBudget.retryAfter RateBudget.lastUpdated
       UsageStats.rateLimitState UsageStats.set_rateLimitState].
  pose proof (update_field_missing groq RetryAfter _ state headers now eq_refl Hmiss)
    as Hkeep.
  cbn [fieldValue updateFor] in Hkeep. rewrite Hkeep, Hr.
  pose proof (update_lastUpdated groq state headers now) as Hupd.
  cbn [updateFor] in Hupd. rewrite Hupd.
  assert (truthy (read (Some (Num r))) = true) as ->.
  { simpl. apply negb_true_iff. destruct (Qeq_bool r 0) eqn:E; [| reflexivity].
    apply Qeq_bool_iff in E. lra. }
  assert (ngt (nadd (ofZ now) (nmul (read (Some (Num r))) (ofZ 1000))) (ofZ now')
          = true) as ->; [| reflexivity].
  apply ngt_Num. exact Hlt.
Qed.

Lemma stored_cooldown_restarts_witness :
  decisionOf
    (canRequestGroq
       (UsageStats.set_rateLimitState
          (updateFromGroqHeaders
             (set_retryAfter (ofZ 30) (createGroqState sampleLimits))
             sampleGroqHeaders 2000)
          (getStats UsageTracker.empty modelA 0).2)
       (ofZ 0) 3000)
  = Some DeniedCooldown.
Proof.
  apply (stored_cooldown_restarts
           (UsageStats.set_rateLimitState
              (set_retryAfter (ofZ 30) (createGroqState sampleLimits))
              (getStats UsageTracker.empty modelA 0).2)
           sampleGroqHeaders (inject_Z 30) 2000 3000 (ofZ 0)).
  - reflexivity.
  - reflexivity.
  - left. reflexivity.
  - reflexivity.
Defined.

(** ** Before the first reconciliation *)

Lemma seed_state_allowed provider stats estimatedTokens now :
  seedMarkers provider (UsageStats.rateLimitState stats) ->
  0 <= now ->
  Check.allowed
    (match provider with
     | groq => canRequestGroq stats estimatedTokens now
     | cerebras => canRequestCerebras stats estimatedTokens now
     end) = true.
Proof.
  intros Hseed Hnow.
  assert (H0 : ngt (ofZ 0) (ofZ now) = false).
  { apply not_true_is_false. intros H. apply ngt_Num in H.
    unfold Qlt, inject_Z in H. simpl in H. lia. }
  destruct provider; simpl in Hseed.
  - destruct Hseed as (H1 & H2 & H3). unfold canRequestGroq.
    rewrite H1, H2, H3. cbn [read truthy andb]. rewrite H0, !andb_false_r.
    reflexivity.
  - destruct Hseed as (H1 & H2). unfold canRequestCerebras.
    rewrite H1, H2. cbn [read].
    change (ngt (ofZ 0) (ofZ 0)) with false. rewrite !andb_false_r.
    reflexivity.
Qed.

Lemma getStats_seed tr model dayStart :
  stats tr !! ModelConfig.id model = None ->
  seedMarkers (ModelConfig.provider model)
    (UsageStats.rateLimitState (getStats tr model dayStart).2).
Proof.
  intros H. rewrite (getStats_fresh _ _ _ H). simpl.
  by destruct (ModelConfig.provider model).
Qed.

Lemma recordRequests_seed model reqs :
  forall tr,
    (forall s, stats tr !! ModelConfig.id model = Some s ->
               seedMarkers (ModelConfig.provider model) (UsageStats.rateLimitState s)) ->
    forall s,
      stats (recordRequests tr model reqs) !! ModelConfig.id model = Some s ->
      seedMarkers (ModelConfig.provider model) (UsageStats.rateLimitState s).
Proof.
  unfold recordRequests.
  induction reqs as [| r reqs IH]; intros tr Htr; simpl; [exact Htr |].
  apply IH. intros s Hs.
  pose proof (recordRequest_lookup tr model (ModelConfig.provider model) r.1 r.2)
    as Hl.
  unfold stateOf, getUsageStats in Hl. rewrite Hs in Hl. injection Hl as ->.
  assert (Hbefore : seedMarkers (ModelConfig.provider model)
                      (UsageStats.rateLimitState (getStats tr model r.2).2)).
  { destruct (stats tr !! ModelConfig.id model) as [s0 |] eqn:E.
    - rewrite (getStats_state_existing _ _ _ _ E). by apply Htr.
    - by apply getStats_seed. }
  destruct (ModelConfig.provider model);
    repeat (match goal with |- context [if ?b then _ else _] => destruct b end);
    exact Hbefore.
Qed.

(** Until the first response of a model is reconciled nothing is enforced:
    whatever optimistic decrements were recorded and whatever the estimate
    and the configured limits, the admission check allows (the clock not
    being before the epoch). *)
Theorem unreconciled_model_always_allowed
    tr model reqs estimatedTokens dayStart now :
  stats tr !! ModelConfig.id model = None ->
  0 <= now ->
  Check.allowed
    (canRequest (recordRequests tr model reqs) model estimatedTokens dayStart now).2
  = true.
Proof.
  intros Hnone Hnow. unfold canRequest.
  pose proof (recordRequests_seed model reqs tr) as Hseed.
  assert (Hs : seedMarkers (ModelConfig.provider model)
                 (UsageStats.rateLimitState
                    (getStats (recordRequests tr model reqs) model dayStart).2)).
  { destruct (stats (recordRequests tr model reqs) !! ModelConfig.id model)
      as [s |] eqn:E.
    - rewrite (getStats_state_existing _ _ _ _ E).
      apply Hseed; [| reflexivity]. intros s0 Hs0. congruence.
    - by apply getStats_seed. }
  destruct (getStats (recordRequests tr model reqs) model dayStart) as [tr' s].
  pose proof (seed_state_allowed (ModelConfig.provider model) s estimatedTokens
                now Hs Hnow) as Ha.
  by destruct (ModelConfig.provider model).
Qed.

Lemma unreconciled_model_always_allowed_witness :
  Check.allowed
    (canRequest
       (recordRequests UsageTracker.empty modelB
          [(ofZ 5000, 0); (ofZ 5000, 0); (ofZ 5000, 0)])
       modelB (ofZ 1000000) 0 1000).2
  = true.
Proof.
  apply unreconciled_model_always_allowed; [reflexivity | lia].
Defined.

(** ** Checking does not spend *)

Lemma getStats_state_congr tr1 tr2 model dayStart1 dayStart2 :
  stateOf tr1 (ModelConfig.id model) = stateOf tr2 (ModelConfig.id model) ->
  UsageStats.rateLimitState (getStats tr1 model dayStart1).2
  = UsageStats.rateLimitState (getStats tr2 model dayStart2).2.
Proof.
  unfold stateOf, getUsageStats. intros H.
  destruct (stats tr1 !! ModelConfig.id model) as [s1 |] eqn:E1;
    destruct (stats tr2 !! ModelConfig.id model) as [s2 |] eqn:E2;
    try discriminate.
  - rewrite (getStats_state_existing _ _ _ _ E1), (getStats_state_existing _ _ _ _ E2).
    by injection H.
  - by rewrite (getStats_fresh _ _ _ E1), (getStats_fresh _ _ _ E2).
Qed.

Lemma getStats_stateOf tr model dayStart :
  stateOf (getStats tr model dayStart).1 (ModelConfig.id model)
  = Some (UsageStats.rateLimitState (getStats tr model dayStart).2).
Proof. unfold stateOf, getUsageStats. by rewrite getStats_lookup. Qed.

Lemma getStats_stateOf_existing tr model dayStart j s :
  stats tr !! j = Some s ->
  stateOf (getStats tr model dayStart).1 j = Some (UsageStats.rateLimitState s).
Proof.
  intros Hs. destruct (decide (j = ModelConfig.id model)) as [-> | Hne].
  - rewrite getStats_stateOf. f_equal. by apply getStats_state_existing.
  - unfold stateOf, getUsageStats. by rewrite getStats_other, Hs.
Qed.

Lemma canRequestGroq_verdict_state s1 s2 estimatedTokens now :
  UsageStats.rateLimitState s1 = UsageStats.rateLimitState s2 ->
  verdict (canRequestGroq s1 estimatedTokens now)
  = verdict (canRequestGroq s2 estimatedTokens now).
Proof.
  intros H. unfold canRequestGroq, verdict. rewrite H.
  repeat next_guard; reflexivity.
Qed.

Lemma canRequestCerebras_verdict_state s1 s2 estimatedTokens now :
  UsageStats.rateLimitState s1 = UsageStats.rateLimitState s2 ->
  verdict (canRequestCerebras s1 estimatedTokens now)
  = verdict (canRequestCerebras s2 estimatedTokens now).
Proof.
  intros H. unfold canRequestCerebras, verdict. rewrite H.
  repeat next_guard; reflexivity.
Qed.

(** The verdict of [canRequest] is decided by the rate-limit state stored
    for the model (the state of its creation when there is none). *)
Lemma canRequest_verdict_congr tr1 tr2 model estimatedTokens dayStart1 dayStart2 now :
  stateOf tr1 (ModelConfig.id model) = stateOf tr2 (ModelConfig.id model) ->
  verdict (canRequest tr1 model estimatedTokens dayStart1 now).2
  = verdict (canRequest tr2 model estimatedTokens dayStart2 now).2.
Proof.
  intros H.
  pose proof (getStats_state_congr tr1 tr2 model dayStart1 dayStart2 H) as Hs.
  unfold canRequest.
  destruct (getStats tr1 model dayStart1) as [tr1' s1].
  destruct (getStats tr2 model dayStart2) as [tr2' s2].
  destruct (ModelConfig.provider model); simpl in *.
  - by apply canRequestGroq_verdict_state.
  - by apply canRequestCerebras_verdict_state.
Qed.

Lemma canRequest_tracker tr model estimatedTokens dayStart now :
  (canRequest tr model estimatedTokens dayStart now).1 = (getStats tr model dayStart).1.
Proof.
  unfold canRequest. destruct (getStats tr model dayStart) as [tr' s].
  by destruct (ModelConfig.provider model).
Qed.

(** The admission check spends nothing: it leaves every stored rate-limit
    state as it is, and asked again at the same clock reading (on any day)
    it gives the same verdict. *)
Theorem canRequest_spends_nothing tr model estimatedTokens dayStart now :
  let tr' := (canRequest tr model estimatedTokens dayStart now).1 in
  (forall j s,
     stats tr !! j = Some s ->
     stateOf tr' j = Some (UsageStats.rateLimitState s))
  /\ (forall dayStart',
        verdict (canRequest tr' model estimatedTokens dayStart' now).2
        = verdict (canRequest tr model estimatedTokens dayStart now).2).
Proof.
  intros tr'. unfold tr'. rewrite canRequest_tracker. split.
  - intros j s. apply getStats_stateOf_existing.
  - intros dayStart'.
    destruct (stats tr !! ModelConfig.id model) as [s |] eqn:E.
    + apply canRequest_verdict_congr.
      unfold stateOf at 2. unfold getUsageStats. rewrite E.
      by apply getStats_stateOf_existing.
    + unfold canRequest.
      pose proof (getStats_lookup tr model dayStart) as Hl.
      pose proof (getStats_state_existing _ model dayStart' _ Hl) as Hst.
      rewrite (getStats_fresh _ _ _ E) in Hst |- *. cbv zeta in Hst |- *.
      cbn [fst snd] in Hst |- *.
      destruct (getStats _ model dayStart') as [tr2 s2].
      cbn [snd UsageStats.rateLimitState] in Hst.
      destruct (ModelConfig.provider model); cbn [snd].
      * by apply canRequestGroq_verdict_state.
      * by apply canRequestCerebras_verdict_state.
Qed.

Lemma canRequest_spends_nothing_witness :
  stateOf (canRequest exhaustedGroq modelA (ofZ 10) 0 5000).1 "model-a"
  = stateOf exhaustedGroq "model-a".
Proof.
  destruct (canRequest_spends_nothing exhaustedGroq modelA (ofZ 10) 0 5000)
    as [H _].
  rewrite (H "model-a"%string (getStats exhaustedGroq modelA 0).2 eq_refl).
  reflexivity.
Defined.

(** ** One entry per model *)

Lemma getStats_keeps tr model dayStart j s :
  stats tr !! j = Some s ->
  exists s',
    stats (getStats tr model dayStart).1 !! j = Some s'
    /\ UsageStats.provider s' = UsageStats.provider s
    /\ UsageStats.rateLimitState s' = UsageStats.rateLimitState s.
Proof.
  intros Hs. destruct (decide (j = ModelConfig.id model)) as [-> | Hne].
  - rewrite getStats_lookup, (getStats_existing _ _ _ _ Hs).
    destruct (UsageStats.dayStart s =? dayStart); eauto.
  - rewrite getStats_other by done. eauto.
Qed.

Lemma recordRequest_other tr model provider inputTokens dayStart j :
  j <> ModelConfig.id model ->
  stats (recordRequest tr model provider inputTokens dayStart) !! j = stats tr !! j.
Proof.
  intros Hne. unfold recordRequest.
  pose proof (getStats_other tr model dayStart j Hne) as H.
  destruct (getStats tr model dayStart) as [tr' s]. simpl in *.
  by rewrite lookup_insert_ne.
Qed.

Lemma recordRequest_keeps tr model provider inputTokens dayStart j s :
  stats tr !! j = Some s ->
  exists s',
    stats (recordRequest tr model provider inputTokens dayStart) !! j = Some s'
    /\ UsageStats.provider s' = UsageStats.provider s.
Proof.
  intros Hs. destruct (decide (j = ModelConfig.id model)) as [-> | Hne].
  - unfold recordRequest.
    assert (H : UsageStats.provider (getStats tr model dayStart).2
                = UsageStats.provider s).
    { rewrite (getStats_existing tr model dayStart s Hs).
      by destruct (UsageStats.dayStart s =? dayStart). }
    destruct (getStats tr model dayStart) as [tr' s0]. simpl in *.
    rewrite lookup_insert_eq. eexists. split; [reflexivity |]. exact H.
  - rewrite recordRequest_other by done. eauto.
Qed.

Lemma updateFromHeaders_other tr modelId provider (headers : Headers) now j :
  j <> modelId ->
  stats (updateFromHeaders tr modelId provider headers now) !! j = stats tr !! j.
Proof.
  intros Hne. unfold updateFromHeaders.
  destruct (stats tr !! modelId); [| reflexivity].
  destruct provider; simpl; by rewrite lookup_insert_ne.
Qed.

Lemma updateFromHeaders_keeps tr modelId provider (headers : Headers) now j s :
  stats tr !! j = Some s ->
  exists s',
    stats (updateFromHeaders tr modelId provider headers now) !! j = Some s'
    /\ UsageStats.provider s' = UsageStats.provider s.
Proof.
  intros Hs. destruct (decide (j = modelId)) as [-> | Hne].
  - rewrite (updateFromHeaders_lookup _ _ _ _ _ _ Hs). eauto.
  - rewrite updateFromHeaders_other by done. eauto.
Qed.

(** The budgets of the models are independent and are never dropped: an
    operation leaves the entry of every model but its own untouched, an
    entry once created stays, with the provider it was created for, and the
    operations that only read leave all rate-limit states as they are. *)
Theorem operations_keep_to_their_model tr op :
  (forall j, target op <> Some j -> stats (run tr op) !! j = stats tr !! j)
  /\ (forall j s,
        stats tr !! j = Some s ->
        exists s',
          stats (run tr op) !! j = Some s'
          /\ UsageStats.provider s' = UsageStats.provider s)
  /\ (readsOnly op = true ->
      forall j s,
        stats tr !! j = Some s ->
        stateOf (run tr op) j = Some (UsageStats.rateLimitState s)).
Proof.
  destruct op; simpl;
    rewrite ?canRequest_tracker, ?getRemainingCapacity_tracker,
      ?getRateLimitInfo_tracker;
    (split; [| split]);
    try (intros j Hne; first
           [ apply getStats_other; congruence
           | apply recordRequest_other; congruence
           | apply updateFromHeaders_other; congruence
           | reflexivity ]);
    try (intros j s Hs; first
           [ destruct (getStats_keeps tr model dayStart j s Hs) as (s' & ? & ? & ?);
             by eauto
           | by apply recordRequest_keeps
           | by apply updateFromHeaders_keeps
           | by eauto ]);
    try discriminate;
    try (intros _ j s Hs; first
           [ by apply getStats_stateOf_existing
           | unfold stateOf, getUsageStats; simpl; by rewrite Hs ]).
Qed.

Lemma operations_keep_to_their_model_witness :
  stats (run (seen modelA) (OpRecordRequest modelB cerebras (ofZ 10) 0))
    !! "model-a"%string
  = stats (seen modelA) !! "model-a"%string.
Proof.
  apply (operations_keep_to_their_model (seen modelA)
           (OpRecordRequest modelB cerebras (ofZ 10) 0)).
  discriminate.
Defined.

(** ** The counters of the day *)

Lemma numEq_Num (x y : Q) : numEq (Num x) (Num y) = true <-> (x == y)%Q.
Proof. apply Qeq_bool_iff. Qed.

Lemma getStats_dayStart tr model dayStart :
  UsageStats.dayStart (getStats tr model dayStart).2 = dayStart.
Proof.
  unfold getStats.
  destruct (stats tr !! ModelConfig.id model) as [s |]; simpl.
  - destruct (UsageStats.dayStart s =? dayStart) eqn:E; simpl; [| reflexivity].
    by apply Z.eqb_eq.
  - by rewrite Z.eqb_refl.
Qed.

Lemma getStats_counters_new_day tr model dayStart :
  (forall s, stats tr !! ModelConfig.id model = Some s ->
             UsageStats.dayStart s <> dayStart) ->
  UsageStats.requestsToday (getStats tr model dayStart).2 = ofZ 0
  /\ UsageStats.tokensToday (getStats tr model dayStart).2 = ofZ 0.
Proof.
  intros H. destruct (stats tr !! ModelConfig.id model) as [s |] eqn:E.
  - rewrite (getStats_existing _ _ _ _ E).
    destruct (UsageStats.dayStart s =? dayStart) eqn:Ed; [| done].
    apply Z.eqb_eq in Ed. by destruct (H s eq_refl).
  - by rewrite (getStats_fresh _ _ _ E).
Qed.

Lemma recordRequest_counters tr model provider inputTokens dayStart :
  let before := (getStats tr model dayStart).2 in
  exists s,
    stats (recordRequest tr model provider inputTokens dayStart)
      !! ModelConfig.id model = Some s
    /\ UsageStats.dayStart s = dayStart
    /\ UsageStats.requestsToday s = nadd (UsageStats.requestsToday before) (ofZ 1)
    /\ UsageStats.tokensToday s = nadd (UsageStats.tokensToday before) inputTokens.
Proof.
  intros before. unfold recordRequest.
  pose proof (getStats_dayStart tr model dayStart) as Hd. fold before in Hd.
  unfold before. destruct (getStats tr model dayStart) as [tr' s0]. simpl in *.
  rewrite lookup_insert_eq. eexists. split; [reflexivity |]. done.
Qed.

Lemma recordRequests_counters model dayStart reqs :
  forall tr s a b,
    stats tr !! ModelConfig.id model = Some s ->
    UsageStats.dayStart s = dayStart ->
    UsageStats.requestsToday s = Num a ->
    UsageStats.tokensToday s = Num b ->
    Forall (fun r => r.2 = dayStart /\ exists q, r.1 = Num q) reqs ->
    exists s' a' b' t,
      stats (recordRequests tr model reqs) !! ModelConfig.id model = Some s'
      /\ UsageStats.dayStart s' = dayStart
      /\ UsageStats.requestsToday s' = Num a'
      /\ UsageStats.tokensToday s' = Num b'
      /\ sumTokens reqs = Num t
      /\ (a' == a + inject_Z (Z.of_nat (length reqs)))%Q
      /\ (b' == b + t)%Q.
Proof.
  unfold recordRequests.
  induction reqs as [| r reqs IH]; intros tr s a b Hs Hd Ha Hb Hall; simpl.
  - exists s, a, b, (inject_Z 0). repeat split; try done; unfold inject_Z; ring.
  - apply Forall_cons in Hall as [[Hr (q & Hq)] Hall].
    destruct r as [tokens day]. simpl in Hr, Hq. subst tokens day.
    destruct (recordRequest_counters tr model (ModelConfig.provider model)
                (Num q) dayStart)
      as (s1 & Hs1 & Hd1 & Ha1 & Hb1).
    assert (Hg : (getStats tr model dayStart).2 = s).
    { rewrite (getStats_existing _ _ _ _ Hs), Hd, Z.eqb_refl. reflexivity. }
    rewrite Hg, Ha in Ha1. rewrite Hg, Hb in Hb1. simpl in Ha1, Hb1.
    destruct (IH _ s1 _ _ Hs1 Hd1 Ha1 Hb1 Hall)
      as (s' & a' & b' & t & Hs' & Hd' & Ha' & Hb' & Ht & Hqa & Hqb).
    exists s', a', b', (q + t)%Q. cbn [fst snd]. rewrite Ht.
    split; [exact Hs' |]. repeat split; try done.
    + etransitivity; [exact Hqa |].
      change (Z.pos (Pos.of_succ_nat (length reqs)))
        with (Z.of_nat (S (length reqs))).
      rewrite Nat2Z.inj_succ, <- Z.add_1_l, inject_Z_plus. ring.
    + etransitivity; [exact Hqb |]. ring.
Qed.

(** [requestsToday] and [tokensToday] count the day: for a model without
    stats of that day, after a sequence of [recordRequest] calls on one day
    they hold the number of the calls and the sum of their estimates. *)
Theorem daily_counters_count tr model reqs dayStart :
  (forall s, stats tr !! ModelConfig.id model = Some s ->
             UsageStats.dayStart s <> dayStart) ->
  reqs <> [] ->
  Forall (fun r => r.2 = dayStart /\ exists q, r.1 = Num q) reqs ->
  exists s,
    getUsageStats (recordRequests tr model reqs) (ModelConfig.id model) = Some s
    /\ UsageStats.dayStart s = dayStart
    /\ numEq (UsageStats.requestsToday s) (ofNat (length reqs)) = true
    /\ numEq (UsageStats.tokensToday s) (sumTokens reqs) = true.
Proof.
  intros Hnew Hne Hall. destruct reqs as [| r reqs]; [done |].
  apply Forall_cons in Hall as [[Hr (q & Hq)] Hall].
  destruct r as [tokens day]. simpl in Hr, Hq. subst tokens day.
  destruct (recordRequest_counters tr model (ModelConfig.provider model)
              (Num q) dayStart)
    as (s1 & Hs1 & Hd1 & Ha1 & Hb1).
  destruct (getStats_counters_new_day tr model dayStart Hnew) as [H0 H1].
  rewrite H0 in Ha1. rewrite H1 in Hb1. simpl in Ha1, Hb1.
  destruct (recordRequests_counters model dayStart reqs _ s1 _ _ Hs1 Hd1 Ha1 Hb1 Hall)
    as (s' & a' & b' & t & Hs' & Hd' & Ha' & Hb' & Ht & Hqa & Hqb).
  exists s'. unfold getUsageStats.
  split; [exact Hs' | split; [exact Hd' | split]].
  - rewrite Ha'. apply numEq_Num. etransitivity; [exact Hqa |].
    cbn [length]. rewrite Nat2Z.inj_succ, <- Z.add_1_l, inject_Z_plus. ring.
  - rewrite Hb'. simpl. rewrite Ht. apply numEq_Num.
    etransitivity; [exact Hqb |]. ring.
Qed.

Lemma daily_counters_count_witness :
  exists s,
    getUsageStats
      (recordRequests UsageTracker.empty modelA [(ofZ 10, 0); (ofZ 32, 0)])
      (ModelConfig.id modelA) = Some s
    /\ UsageStats.dayStart s = 0
    /\ numEq (UsageStats.requestsToday s) (ofNat 2) = true
    /\ numEq (UsageStats.tokensToday s) (ofZ 42) = true.
Proof.
  apply (daily_counters_count UsageTracker.empty modelA
           [(ofZ 10, 0); (ofZ 32, 0)] 0).
  - intros s Hs. discriminate.
  - discriminate.
  - repeat constructor; eexists; reflexivity.
Defined.

(** ** The history *)

(** [recordUsage] appends the record and keeps the history bounded: once
    the history would exceed [maxHistorySize] only its newer half is kept.
    The newest record is always the last one, and the stats of the models
    are not touched. *)
Theorem history_stays_bounded tr modelId provider inputTokens outputTokens now :
  let record := UsageRecord.mk modelId provider now inputTokens outputTokens in
  let tr' := recordUsage tr modelId provider inputTokens outputTokens now in
  stats tr' = stats tr
  /\ last (history tr') = Some record
  /\ history tr' `suffix_of` (history tr ++ [record])
  /\ (Z.of_nat (length (history tr)) < maxHistorySize ->
      history tr' = history tr ++ [record])
  /\ (Z.of_nat (length (history tr)) <= maxHistorySize ->
      Z.of_nat (length (history tr')) <= maxHistorySize)
  /\ (Z.of_nat (length (history tr)) = maxHistorySize ->
      Z.of_nat (length (history tr')) = maxHistorySize / 2).
Proof.
  intros record tr'. unfold tr', recordUsage. fold record. simpl.
  rewrite length_app. simpl. unfold maxHistorySize.
  change (10000 / 2) with 5000.
  destruct (10000 <? Z.of_nat (length (history tr) + 1)) eqn:E.
  - apply Z.ltb_lt in E.
    assert (Hk : (length (history tr) + 1 - Z.to_nat 5000
                  <= length (history tr))%nat) by lia.
    rewrite (drop_app_le _ _ _ Hk).
    split; [reflexivity | split; [apply last_snoc | split; [| split; [| split]]]].
    + apply suffix_app. apply suffix_drop.
    + lia.
    + intros H. rewrite length_app, length_drop. simpl. lia.
    + intros H. rewrite length_app, length_drop. simpl. lia.
  - apply Z.ltb_ge in E.
    split; [reflexivity | split; [apply last_snoc | split; [| split; [| split]]]].
    + reflexivity.
    + reflexivity.
    + intros H. rewrite length_app. simpl. lia.
    + intros H. lia.
Qed.

Lemma history_stays_bounded_witness :
  history (recordUsage UsageTracker.empty "model-a" groq (ofZ 12) (ofZ 34) 1000)
  = [UsageRecord.mk "model-a" groq 1000 (ofZ 12) (ofZ 34)].
Proof.
  apply (history_stays_bounded UsageTracker.empty "model-a" groq (ofZ 12) (ofZ 34)
           1000).
  simpl. unfold maxHistorySize. lia.
Defined.

Lemma providerString_inj (p1 p2 : ProviderName) :
  providerString p1 = providerString p2 -> p1 = p2.
Proof. by destruct p1, p2. Qed.

Lemma Qtrunc_opp_positive (n : Z) : 0 < n -> Qtrunc (- inject_Z n) = - n.
Proof.
  intros Hn. unfold Qtrunc.
  assert (Qle_bool 0 (- inject_Z n) = false) as ->.
  { apply not_true_is_false. intros H. apply Qle_bool_iff in H.
    unfold Qle, inject_Z in H. simpl in H. lia. }
  unfold Qceiling. rewrite Qopp_involutive. by rewrite Qfloor_Z.
Qed.

Lemma suffix_is_sublist {A} (l1 l2 : list A) :
  l1 `suffix_of` l2 -> l1 `sublist_of` l2.
Proof. intros [k ->]. by apply sublist_inserts_l. Qed.

(** The filter stages of [getHistory], without the limit. *)
Lemma getHistory_withoutLimit tr options :
  getHistory tr (withoutLimit options) `sublist_of` history tr
  /\ forall r,
       r ∈ getHistory tr (withoutLimit options) ->
       (forall modelId,
          options ≫= HistoryOptions.modelId = Some modelId ->
          modelId <> ""%string -> UsageRecord.modelId r = modelId)
       /\ (forall provider,
             options ≫= HistoryOptions.provider = Some provider ->
             UsageRecord.provider r = provider)
       /\ (forall since,
             options ≫= HistoryOptions.since = Some since ->
             nle since (ofZ (UsageRecord.timestamp r)) = true).
Proof.
  unfold getHistory.
  destruct options as [[modelId provider since limit] |]; simpl;
    [| split; [reflexivity | by intros r _; repeat split; intros ? [=]]].
  set (h1 := match modelId with
             | Some modelId =>
                 if String.eqb modelId "" then history tr
                 else filter (fun r => UsageRecord.modelId r = modelId) (history tr)
             | None => history tr
             end).
  set (h2 := match provider with
             | Some provider =>
                 filter (fun r => providerString (UsageRecord.provider r)
                                  = providerString provider) h1
             | None => h1
             end).
  set (h3 := match since with
             | Some since =>
                 filter (fun r => nle since (ofZ (UsageRecord.timestamp r)) = true) h2
             | None => h2
             end).
  assert (H1 : h1 `sublist_of` history tr
               /\ forall r, r ∈ h1 ->
                    forall m, modelId = Some m -> m <> ""%string ->
                              UsageRecord.modelId r = m).
  { unfold h1. destruct modelId as [m |].
    - destruct (String.eqb m "") eqn:E.
      + apply String.eqb_eq in E. split; [reflexivity |].
        intros r _ m' [= <-] Hm. contradiction.
      + split; [apply sublist_filter; apply _ |].
        intros r Hr m' [= <-] _. by apply list_elem_of_filter in Hr as [Hr _].
    - split; [reflexivity | by intros r _ m [=]]. }
  assert (H2 : h2 `sublist_of` h1
               /\ forall r, r ∈ h2 ->
                    forall p, provider = Some p -> UsageRecord.provider r = p).
  { unfold h2. destruct provider as [p |].
    - split; [apply sublist_filter; apply _ |].
      intros r Hr p' [= <-]. apply list_elem_of_filter in Hr as [Hr _].
      by apply providerString_inj.
    - split; [reflexivity | by intros r _ p [=]]. }
  assert (H3 : h3 `sublist_of` h2
               /\ forall r, r ∈ h3 ->
                    forall t, since = Some t ->
                              nle t (ofZ (UsageRecord.timestamp r)) = true).
  { unfold h3. destruct since as [t |].
    - split; [apply sublist_filter; apply _ |].
      intros r Hr t' [= <-]. by apply list_elem_of_filter in Hr as [Hr _].
    - split; [reflexivity | by intros r _ t [=]]. }
  destruct H1 as [S1 F1], H2 as [S2 F2], H3 as [S3 F3].
  split; [by rewrite S3, S2 |].
  intros r Hr. repeat split.
  - intros m. apply F1. eapply elem_of_sublist; [| exact S2].
    eapply elem_of_sublist; [| exact S3]. exact Hr.
  - intros p. apply F2. eapply elem_of_sublist; [| exact S3]. exact Hr.
  - intros t. by apply F3.
Qed.

Lemma getHistory_limit tr options :
  getHistory tr options
  = match options ≫= HistoryOptions.limit with
    | Some limit =>
        if truthy limit
        then slice (nneg limit) (getHistory tr (withoutLimit options))
        else getHistory tr (withoutLimit options)
    | None => getHistory tr (withoutLimit options)
    end.
Proof.
  unfold getHistory.
  destruct options as [[modelId provider since limit] |]; simpl; [| reflexivity].
  destruct limit as [limit |]; [| reflexivity].
  destruct (truthy limit); reflexivity.
Qed.

Lemma filter_all {A} (P : A -> Prop) `{!forall x, base.Decision (P x)} (l : list A) :
  (forall x, P x) -> filter P l = l.
Proof.
  intros HP. induction l as [| a l IH]; [done |].
  by rewrite filter_cons_True, IH.
Qed.

(** The filter stages of [getHistory] amount to one filter. *)
Lemma getHistory_selection tr options :
  getHistory tr (withoutLimit options) = selection tr options.
Proof.
  unfold getHistory, selection.
  destruct options as [[modelId provider since limit] |]; simpl;
    [| by rewrite filter_all].
  set (p1 := fun r : UsageRecord =>
               match modelId with
               | Some modelId =>
                   String.eqb modelId "" || String.eqb (UsageRecord.modelId r) modelId
               | None => true
               end).
  set (p2 := fun r : UsageRecord =>
               match provider with
               | Some provider =>
                   match UsageRecord.provider r, provider with
                   | groq, groq | cerebras, cerebras => true
                   | _, _ => false
                   end
               | None => true
               end).
  set (p3 := fun r : UsageRecord =>
               match since with
               | Some since => nle since (ofZ (UsageRecord.timestamp r))
               | None => true
               end).
  assert (H1 : forall l : list UsageRecord,
            match modelId with
            | Some modelId =>
                if String.eqb modelId "" then l
                else filter (fun r => UsageRecord.modelId r = modelId) l
            | None => l
            end = filter (fun r => p1 r = true) l).
  { intros l. unfold p1. destruct modelId as [m |]; [| by rewrite filter_all].
    destruct (String.eqb m ""); [by rewrite filter_all |].
    apply list_filter_iff. intros r. simpl. symmetry. apply String.eqb_eq. }
  assert (H2 : forall l : list UsageRecord,
            match provider with
            | Some provider =>
                filter (fun r => providerString (UsageRecord.provider r)
                                 = providerString provider) l
            | None => l
            end = filter (fun r => p2 r = true) l).
  { intros l. unfold p2. destruct provider as [p |]; [| by rewrite filter_all].
    apply list_filter_iff. intros r.
    by destruct (UsageRecord.provider r), p. }
  assert (H3 : forall l : list UsageRecord,
            match since with
            | Some since =>
                filter (fun r => nle since (ofZ (UsageRecord.timestamp r)) = true) l
            | None => l
            end = filter (fun r => p3 r = true) l).
  { intros l. unfold p3. destruct since as [t |]; [done | by rewrite filter_all]. }
  rewrite H1, H2, H3, !list_filter_filter.
  apply list_filter_iff. intros r.
  unfold p1, p2, p3. rewrite !andb_true_iff. tauto.
Qed.
(** [getHistory] without options returns the whole history.  Otherwise it
    returns exactly the records that its filters select, in their order:
    all of them when no limit is given (or a limit that is [0] or [NaN]),
    and with a limit [n >= 1] the last [n] of them, or all when they are
    fewer. *)
Theorem getHistory_selects tr options :
  getHistory tr None = history tr
  /\ (forall r,
        r ∈ selection tr options <-> r ∈ history tr /\ selects options r = true)
  /\ getHistory tr (withoutLimit options) = selection tr options
  /\ match options ≫= HistoryOptions.limit with
     | None => getHistory tr options = selection tr options
     | Some limit =>
         (truthy limit = false -> getHistory tr options = selection tr options)
         /\ (forall n,
               limit = ofZ n -> 1 <= n ->
               getHistory tr options
               = drop (length (selection tr options) - Z.to_nat n)
                   (selection tr options))
     end.
Proof.
  split; [reflexivity |]. split; [| split; [apply getHistory_selection |]].
  - intros r. unfold selection. rewrite list_elem_of_filter. tauto.
  - rewrite getHistory_limit, getHistory_selection.
    destruct (options ≫= HistoryOptions.limit) as [limit |]; [| reflexivity].
    split; [by intros -> |].
    intros n -> Hn.
    assert (truthy (ofZ n) = true) as ->.
    { simpl. apply negb_true_iff. apply not_true_is_false. intros H.
      apply Qeq_bool_iff in H. unfold Qeq, inject_Z in H. simpl in H. lia. }
    unfold slice, nneg, ofZ. rewrite Qtrunc_opp_positive by lia.
    assert (((- n) <? 0) = true) as -> by lia.
    f_equal. lia.
Qed.

Lemma getHistory_selects_witness :
  let tr :=
    recordUsage
      (recordUsage
         (recordUsage UsageTracker.empty "model-a" groq (ofZ 1) (ofZ 2) 1000)
         "model-b" cerebras (ofZ 3) (ofZ 4) 2000)
      "model-a" groq (ofZ 5) (ofZ 6) 3000 in
  let options :=
    Some (HistoryOptions.mk (Some "model-a"%string) None None (Some (ofZ 1))) in
  selection tr options
  = [UsageRecord.mk "model-a" groq 1000 (ofZ 1) (ofZ 2);
     UsageRecord.mk "model-a" groq 3000 (ofZ 5) (ofZ 6)]
  /\ getHistory tr options = [UsageRecord.mk "model-a" groq 3000 (ofZ 5) (ofZ 6)].
Proof.
  intros tr options. split; [reflexivity |].
  destruct (getHistory_selects tr options) as (_ & _ & _ & _ & H).
  rewrite (H 1 eq_refl ltac:(lia)). reflexivity.
Defined.


(** ** [formatDuration] on whole seconds *)

Lemma nlt_ofZ (a b : Z) : nlt (ofZ a) (ofZ b) = (a <? b).
Proof.
  unfold nlt, ofZ, Qltb, Qle_bool, inject_Z. simpl.
  rewrite !Z.mul_1_r. by rewrite Z.ltb_antisym.
Qed.

Lemma Qfloor_div_int (a : Z) (d : positive) :
  Qfloor (inject_Z a / inject_Z (Z.pos d)) = a / Z.pos d.
Proof.
  unfold Qdiv, Qmult, Qinv, inject_Z, Qfloor. simpl. by rewrite Z.mul_1_r.
Qed.

Lemma Qtrunc_nonneg (x : Q) : (0 <= x)%Q -> Qtrunc x = Qfloor x.
Proof.
  intros H. unfold Qtrunc. apply Qle_bool_iff in H. by rewrite H.
Qed.

Lemma remainder_int (s : Z) (d : positive) :
  0 <= s ->
  (inject_Z s - inject_Z (Z.pos d) * inject_Z (Qtrunc (inject_Z s / inject_Z (Z.pos d)))
   == inject_Z (s mod Z.pos d))%Q.
Proof.
  intros Hs. rewrite Qtrunc_nonneg, Qfloor_div_int.
  - rewrite Z.mod_eq by lia.
    unfold Qeq, Qminus, Qplus, Qopp, Qmult, inject_Z. simpl. lia.
  - apply Qle_shift_div_l; [reflexivity |].
    unfold Qle, inject_Z. simpl. lia.
Qed.

(** On a whole number of seconds [formatDuration] splits exactly: seconds
    below a minute; minutes and seconds below an hour; hours and minutes
    above, the seconds of the last minute being dropped. *)
Theorem formatDuration_splits (s : Z) :
  0 <= s ->
  (s < 60 -> formatDuration (ofZ s) = Seconds (ofZ s))
  /\ (60 <= s < 3600 ->
      exists m r r',
        formatDuration (ofZ s) = MinutesSeconds (ofZ m) r'
        /\ numEq r' (ofZ r) = true
        /\ s = 60 * m + r /\ 0 <= r < 60)
  /\ (3600 <= s ->
      exists h m,
        formatDuration (ofZ s) = HoursMinutes (ofZ h) (ofZ m)
        /\ 0 <= m < 60
        /\ 3600 * h + 60 * m <= s < 3600 * h + 60 * (m + 1)).
Proof.
  intros Hs. unfold formatDuration. rewrite !nlt_ofZ. split; [| split].
  - intros H. by rewrite (proj2 (Z.ltb_lt s 60) H).
  - intros [H1 H2].
    rewrite (proj2 (Z.ltb_ge s 60) H1), (proj2 (Z.ltb_lt s 3600) H2).
    exists (s / 60), (s mod 60). eexists. split; [| split; [| split]].
    + unfold nfloor, ndivc, ofZ. rewrite Qfloor_div_int. reflexivity.
    + apply numEq_Num. apply (remainder_int s 60 Hs).
    + apply Z.div_mod. lia.
    + apply Z.mod_pos_bound. lia.
  - intros H.
    rewrite (proj2 (Z.ltb_ge s 60) ltac:(lia)), (proj2 (Z.ltb_ge s 3600) H).
    exists (s / 3600), (s mod 3600 / 60). split; [| split].
    + cbv zeta. f_equal.
      * unfold nfloor, ndivc, ofZ. by rewrite Qfloor_div_int.
      * unfold nfloor, ndivc, nremc, ofZ. f_equal. f_equal.
        rewrite (Qfloor_comp _ (inject_Z (s mod 3600) / inject_Z 60)).
        -- apply Qfloor_div_int.
        -- by rewrite (remainder_int s 3600 Hs).
    + pose proof (Z.mod_pos_bound s 3600 ltac:(lia)).
      split; [apply Z.div_pos; lia | apply Z.div_lt_upper_bound; lia].
    + pose proof (Z.div_mod s 3600 ltac:(lia)).
      pose proof (Z.div_mod (s mod 3600) 60 ltac:(lia)).
      pose proof (Z.mod_pos_bound (s mod 3600) 60 ltac:(lia)).
      lia.
Qed.

Lemma formatDuration_splits_witness :
  exists h m,
    formatDuration (ofZ 3725) = HoursMinutes (ofZ h) (ofZ m)
    /\ 0 <= m < 60
    /\ 3600 * h + 60 * m <= 3725 < 3600 * h + 60 * (m + 1).
Proof.
  apply (formatDuration_splits 3725); lia.
Defined.

(** * Further properties of the manager and the route *)

(** ** The two estimates of a request *)

Lemma estimateTokens_bounds (messages : list ChatMessage) :
  exists e : Z,
    ModelManager.estimateTokens messages = ofZ e
    /\ 4 * (e - 1) < Z.of_nat (totalChars messages) <= 4 * e.
Proof.
  destruct (estimate_fold messages (inject_Z 0)) as (q' & Hf & Hq).
  unfold ModelManager.estimateTokens. cbv zeta in Hf |- *.
  change (ofZ 0) with (Num (inject_Z 0)). rewrite Hf.
  assert (Hq' : (q' / inject_Z 4
                 == inject_Z (Z.of_nat (totalChars messages)) / inject_Z 4)%Q).
  { rewrite Hq. unfold inject_Z at 1. field. }
  unfold ndivc, nceil. rewrite (Qceiling_comp _ _ Hq').
  eexists. split; [reflexivity |].
  apply (Qceiling_quarter (Z.of_nat (totalChars messages))).
Qed.

Lemma chat_fold (messages : list ChatMessage) :
  forall (q : Q) (c : Z),
    (q == inject_Z c)%Q ->
    exists q' c',
      fold_left
        (fun sum m =>
           let content :=
             match ChatMessage.content m with
             | ContentString s => s
             | ContentOther => ""%string
             end in
           nadd sum (nceil (ndivc (ofNat (String.length content)) 4)))
        messages (Num q) = Num q'
      /\ (q' == inject_Z c')%Q
      /\ 4 * (c' - c) - 3 * Z.of_nat (length messages)
         <= Z.of_nat (totalChars messages) <= 4 * (c' - c).
Proof.
  induction messages as [| m messages IH]; intros q c Hq; simpl.
  - exists q, c. split; [reflexivity | split; [exact Hq | lia]].
  - set (len := String.length
                  match ChatMessage.content m with
                  | ContentString s => s
                  | ContentOther => ""%string
                  end).
    assert (Hlen : len = contentLength m)
      by (unfold len, contentLength; by destruct (ChatMessage.content m)).
    pose proof (Qceiling_quarter (Z.of_nat len)) as He. cbv zeta in He.
    set (e := Qceiling (inject_Z (Z.of_nat len) / inject_Z 4)) in *.
    destruct (IH (q + inject_Z e)%Q (c + e)) as (q' & c' & Hf & Hq' & Hb).
    { rewrite Hq, inject_Z_plus. reflexivity. }
    exists q', c'. split; [exact Hf | split; [exact Hq' |]].
    rewrite <- Hlen. lia.
Qed.

(** The route records a request with the estimate of
    [chatEstimatedTokens], after admission was checked with that of
    [estimateTokens].  The recorded one is never the smaller, and it exceeds
    the checked one by at most three quarters of a token per message. *)
Theorem recorded_estimate_covers_checked (messages : list ChatMessage) :
  exists (checked recorded : Z) (q : Q),
    ModelManager.estimateTokens messages = ofZ checked
    /\ chatEstimatedTokens messages = Num q
    /\ (q == inject_Z recorded)%Q
    /\ checked <= recorded
    /\ 4 * recorded <= 4 * checked + 3 * Z.of_nat (length messages).
Proof.
  destruct (estimateTokens_bounds messages) as (e & He & Hb).
  destruct (chat_fold messages (inject_Z 0) 0 ltac:(reflexivity))
    as (q' & c' & Hf & Hq' & Hc).
  exists e, c', q'. split; [exact He |].
  split; [exact Hf | split; [exact Hq' | lia]].
Qed.

(** Two messages of one character: one token is checked, two are recorded. *)
Lemma recorded_estimate_can_exceed :
  let messages :=
    replicate 2 (ChatMessage.mk "user" (ContentString "a")) in
  ModelManager.estimateTokens messages = ofZ 1
  /\ numEq (chatEstimatedTokens messages) (ofZ 2) = true.
Proof. split; reflexivity. Qed.

(** ** Fallback under round robin *)

Lemma canRequest_stateOf_other tr model estimatedTokens dayStart now j :
  j <> ModelConfig.id model ->
  stateOf (canRequest tr model estimatedTokens dayStart now).1 j = stateOf tr j.
Proof.
  intros Hne. rewrite canRequest_tracker. unfold stateOf, getUsageStats.
  by rewrite getStats_other.
Qed.

Lemma checkAt_congr tr1 tr2 estimatedTokens env i model :
  stateOf tr1 (ModelConfig.id model) = stateOf tr2 (ModelConfig.id model) ->
  verdict (checkAt tr1 estimatedTokens env i model)
  = verdict (checkAt tr2 estimatedTokens env i model).
Proof. apply canRequest_verdict_congr. Qed.

Lemma skippedEntry_verdict model check1 check2 :
  verdict check1 = verdict check2 ->
  skippedEntry model check1 = skippedEntry model check2.
Proof. unfold verdict, skippedEntry. by intros [= _ ->]. Qed.

Lemma selectLoop_round_robin_first_admissible env estimatedTokens tr m post pre :
  forall remaining attempts mgr trc skipped,
    strategy mgr = round_robin ->
    autoFallback mgr = true ->
    (currentIndex mgr < length (models mgr))%nat ->
    cycle (models mgr) remaining (currentIndex mgr) = pre ++ m :: post ->
    NoDup (ModelConfig.id <$> (pre ++ [m])) ->
    (forall x, x ∈ pre ++ [m] ->
               stateOf trc (ModelConfig.id x) = stateOf tr (ModelConfig.id x)) ->
    (forall i x, pre !! i = Some x ->
                 Check.allowed (checkAt tr estimatedTokens env (attempts + i) x) = false) ->
    Check.allowed (checkAt tr estimatedTokens env (attempts + length pre) m) = true ->
    exists mgr' tr',
      selectLoop remaining attempts env estimatedTokens mgr trc skipped
      = (mgr', tr', Ok (m, skipped ++ deniedEntries tr estimatedTokens env attempts pre))
      /\ models mgr' = models mgr
      /\ currentIndex mgr'
         = ((currentIndex mgr + length pre + 1) mod length (models mgr))%nat
      /\ usageCount mgr'
         = <[ModelConfig.id m := S (countOf mgr (ModelConfig.id m))]> (usageCount mgr).
Proof.
  induction pre as [| x pre IH];
    intros remaining attempts mgr trc skipped Hrr Hfb Hc Hcyc Hnd Hagree Hden Hadm.
  - destruct remaining as [| remaining]; [discriminate |].
    simpl in Hcyc.
    destruct (models mgr !! currentIndex mgr) as [m0 |] eqn:Hm; [| discriminate].
    injection Hcyc as -> _.
    simpl. unfold selectByStrategy. rewrite Hrr, Hm.
    pose proof (checkAt_congr trc tr estimatedTokens env attempts m
                  (Hagree m ltac:(apply list_elem_of_here))) as Hv.
    unfold checkAt in Hv, Hadm. simpl in Hadm. rewrite Nat.add_0_r in Hadm.
    destruct (canRequest trc m estimatedTokens _ _) as [tr1 check].
    unfold verdict in Hv. simpl in Hv. injection Hv as Hv _.
    rewrite Hv, Hadm. simpl. eexists _, _. split; [by rewrite app_nil_r |].
    simpl. repeat split.
    + by rewrite Nat.add_0_r.
    + unfold countOf. f_equal. f_equal. lia.
  - destruct remaining as [| remaining]; [discriminate |].
    simpl in Hcyc.
    destruct (models mgr !! currentIndex mgr) as [m0 |] eqn:Hm; [| discriminate].
    injection Hcyc as -> Hcyc.
    simpl. unfold selectByStrategy. rewrite Hrr, Hm.
    pose proof (checkAt_congr trc tr estimatedTokens env attempts x
                  (Hagree x ltac:(apply list_elem_of_here))) as Hv.
    pose proof (Hden 0%nat x eq_refl) as Hdx.
    rewrite Nat.add_0_r in Hdx. unfold checkAt in Hv, Hdx.
    pose proof (canRequest_stateOf_other trc x estimatedTokens
                  (Env.dayStart (env attempts)) (Env.now (env attempts))) as Hother.
    destruct (canRequest trc x estimatedTokens _ _) as [tr1 check] eqn:Hcr.
    simpl in Hv, Hother.
    assert (Hallowed : Check.allowed check = false).
    { unfold verdict in Hv. injection Hv as Hv _. by rewrite Hv. }
    rewrite Hallowed. simpl. rewrite Hfb.
    match goal with
    | |- context [selectLoop _ _ _ _ ?g _ _] => set (mgr1 := g)
    end.
    simpl in Hnd. apply NoDup_cons in Hnd as [Hx Hnd].
    destruct (IH remaining (S attempts) mgr1 tr1
                (skipped ++ [skippedEntry x check]))
      as (mgr' & tr' & Hloop & Hmod & Hidx & Hcnt); try done.
    + simpl. apply Nat.mod_upper_bound. lia.
    + intros y Hy. rewrite Hother.
      * apply Hagree. by apply list_elem_of_further.
      * intros Heq. apply Hx. rewrite <- Heq.
        by apply list_elem_of_fmap_2.
    + intros i y Hy. replace (S attempts + i)%nat with (attempts + S i)%nat by lia.
      by apply (Hden (S i)).
    + replace (S attempts + length pre)%nat
        with (attempts + length (x :: pre))%nat by (simpl; lia).
      exact Hadm.
    + exists mgr', tr'. split; [| split; [exact Hmod | split]].
      * rewrite Hloop. do 3 f_equal. rewrite <- app_assoc. f_equal.
        unfold deniedEntries. simpl. f_equal.
        -- rewrite Nat.add_0_r. apply skippedEntry_verdict.
           unfold checkAt. exact Hv.
        -- apply imap_ext. intros i y _. simpl. do 2 f_equal. lia.
      * rewrite Hidx. unfold mgr1. cbn [currentIndex models length].
        rewrite <- Nat.add_assoc, Nat.Div0.add_mod_idemp_l.
        f_equal. lia.
      * exact Hcnt.
Qed.

(** With fallback, round robin returns the first candidate in cursor order
    that the tracker admits: the candidates before it are skipped, each with
    the reason of its own check, the cursor moves just past the model
    returned and its usage count goes up by one.  The model ids are
    pairwise distinct. *)
Theorem round_robin_returns_first_admissible
    mgr tr messages env pre m post :
  let estimatedTokens := estimateTokens messages in
  strategy mgr = round_robin ->
  autoFallback mgr = true ->
  (currentIndex mgr < length (models mgr))%nat ->
  NoDup (ModelConfig.id <$> models mgr) ->
  drop (currentIndex mgr) (models mgr) ++ take (currentIndex mgr) (models mgr)
  = pre ++ m :: post ->
  (forall i x, pre !! i = Some x ->
               Check.allowed (checkAt tr estimatedTokens env i x) = false) ->
  Check.allowed (checkAt tr estimatedTokens env (length pre) m) = true ->
  exists mgr' tr',
    getNextModel mgr tr messages env
    = (mgr', tr', Ok (m, deniedEntries tr estimatedTokens env 0 pre))
    /\ models mgr' = models mgr
    /\ currentIndex mgr'
       = ((currentIndex mgr + length pre + 1) mod length (models mgr))%nat
    /\ usageCount mgr'
       = <[ModelConfig.id m := S (countOf mgr (ModelConfig.id m))]> (usageCount mgr).
Proof.
  intros est Hrr Hfb Hc Hnd Hrot Hden Hadm. unfold getNextModel. fold est.
  rewrite <- cycle_full in Hrot by exact Hc.
  assert (Hnd' : NoDup (ModelConfig.id <$> (pre ++ [m]))).
  { assert (Hp : ModelConfig.id <$> (pre ++ m :: post)
                 ≡ₚ ModelConfig.id <$> models mgr).
    { rewrite <- Hrot, cycle_full by exact Hc.
      apply fmap_Permutation. rewrite Permutation_app_comm. by rewrite take_drop. }
    rewrite <- Hp in Hnd.
    replace (pre ++ m :: post) with ((pre ++ [m]) ++ post) in Hnd
      by (by rewrite <- app_assoc).
    rewrite fmap_app in Hnd. by apply NoDup_app in Hnd as [Hnd _]. }
  destruct (selectLoop_round_robin_first_admissible env est tr m post pre
              (length (models mgr)) 0 mgr tr [] Hrr Hfb Hc Hrot Hnd')
    as (mgr' & tr' & H); try done.
  exists mgr', tr'. exact H.
Qed.

Lemma round_robin_returns_first_admissible_witness :
  exists mgr' tr',
    getNextModel (sampleManager round_robin) exhaustedGroq [] quiet
    = (mgr', tr',
       Ok (modelB, deniedEntries exhaustedGroq (estimateTokens []) quiet 0 [modelA]))
    /\ models mgr' = [modelA; modelB; modelC]
    /\ currentIndex mgr' = 2%nat
    /\ usageCount mgr' = <["model-b"%string := 1%nat]> ∅.
Proof.
  apply (round_robin_returns_first_admissible (sampleManager round_robin)
           exhaustedGroq [] quiet [modelA] modelB [modelC]).
  - reflexivity.
  - reflexivity.
  - simpl. lia.
  - apply (bool_decide_unpack _). by vm_compute.
  - reflexivity.
  - intros [| i] x Hx; [| discriminate]. injection Hx as <-. reflexivity.
  - reflexivity.
Defined.

(** ** The least-used strategy *)

Lemma insertByCount_Permutation mgr a sorted :
  insertByCount mgr a sorted ≡ₚ a :: sorted.
Proof.
  induction sorted as [| b rest IH]; simpl; [done |].
  destruct (count mgr a <=? count mgr b)%nat; [done |].
  rewrite IH. apply Permutation_swap.
Qed.

Lemma sortByCount_Permutation mgr l : sortByCount mgr l ≡ₚ l.
Proof.
  unfold sortByCount. induction l as [| a l IH]; simpl; [done |].
  by rewrite insertByCount_Permutation, IH.
Qed.

Lemma sortByCount_head mgr l :
  l <> [] ->
  exists pre m post,
    head (sortByCount mgr l) = Some m
    /\ l = pre ++ m :: post
    /\ (forall x, x ∈ pre -> (count mgr m < count mgr x)%nat)
    /\ (forall x, x ∈ post -> (count mgr m <= count mgr x)%nat).
Proof.
  unfold sortByCount. induction l as [| a l IH]; intros Hne; [done |].
  destruct l as [| b l].
  - exists [], a, []. simpl. repeat split; intros x Hx; by apply elem_of_nil in Hx.
  - destruct (IH ltac:(done)) as (pre & m & post & Hh & Hl & Hpre & Hpost).
    change (foldr (insertByCount mgr) [] (a :: b :: l))
      with (insertByCount mgr a (foldr (insertByCount mgr) [] (b :: l))).
    destruct (foldr (insertByCount mgr) [] (b :: l)) as [| m' rest] eqn:Es;
      [discriminate |].
    injection Hh as ->. simpl.
    destruct (count mgr a <=? count mgr m)%nat eqn:E.
    + apply Nat.leb_le in E. exists [], a, (b :: l). simpl.
      repeat split; [by intros x Hx; apply elem_of_nil in Hx |].
      intros x Hx. rewrite Hl in Hx.
      apply elem_of_app in Hx as [Hx | Hx].
      * specialize (Hpre x Hx). lia.
      * apply elem_of_cons in Hx as [-> | Hx]; [exact E |].
        specialize (Hpost x Hx). lia.
    + apply Nat.leb_gt in E. exists (a :: pre), m, post. simpl.
      rewrite Hl. repeat split; [| exact Hpost].
      intros x Hx. apply elem_of_cons in Hx as [-> | Hx]; [exact E | by apply Hpre].
Qed.

(** The least-used strategy selects a candidate with the smallest usage
    count, and among those the first in configured order; the selection
    changes nothing in the manager. *)
Theorem least_used_selects_first_minimum mgr rnd :
  strategy mgr = least_used ->
  models mgr <> [] ->
  exists pre m post,
    selectByStrategy mgr rnd = (Some m, mgr)
    /\ models mgr = pre ++ m :: post
    /\ (forall x, x ∈ pre -> (count mgr m < count mgr x)%nat)
    /\ (forall x, x ∈ post -> (count mgr m <= count mgr x)%nat).
Proof.
  intros Hlu Hne. unfold selectByStrategy. rewrite Hlu.
  destruct (sortByCount_head mgr (models mgr) Hne)
    as (pre & m & post & Hh & Hl & Hpre & Hpost).
  exists pre, m, post. rewrite <- head_lookup, Hh. done.
Qed.

Lemma least_used_selects_first_minimum_witness :
  exists pre m post,
    selectByStrategy (addUsage (sampleManager least_used) "model-a") 0
    = (Some m, addUsage (sampleManager least_used) "model-a")
    /\ [modelA; modelB; modelC] = pre ++ m :: post
    /\ (forall x, x ∈ pre ->
          (count (addUsage (sampleManager least_used) "model-a") m
           < count (addUsage (sampleManager least_used) "model-a") x)%nat)
    /\ (forall x, x ∈ post ->
          (count (addUsage (sampleManager least_used) "model-a") m
           <= count (addUsage (sampleManager least_used) "model-a") x)%nat).
Proof.
  apply (least_used_selects_first_minimum
           (addUsage (sampleManager least_used) "model-a") 0);
    [reflexivity | discriminate].
Defined.

(** ** What [getNextModel] returns *)

Lemma selectByStrategy_elem mgr rnd m :
  (selectByStrategy mgr rnd).1 = Some m -> m ∈ models mgr.
Proof.
  unfold selectByStrategy. destruct (strategy mgr); simpl; intros H.
  - by eapply list_elem_of_lookup_2.
  - destruct (_ <? 0); [discriminate |]. by eapply list_elem_of_lookup_2.
  - rewrite <- (sortByCount_Permutation mgr (models mgr)).
    by eapply list_elem_of_lookup_2.
Qed.

Lemma selectByStrategy_usageCount mgr rnd :
  usageCount (selectByStrategy mgr rnd).2 = usageCount mgr
  /\ models (selectByStrategy mgr rnd).2 = models mgr
  /\ autoFallback (selectByStrategy mgr rnd).2 = autoFallback mgr.
Proof. unfold selectByStrategy. by destruct (strategy mgr). Qed.

Lemma canRequest_again tr model estimatedTokens dayStart dayStart' now :
  verdict
    (canRequest (canRequest tr model estimatedTokens dayStart now).1
       model estimatedTokens dayStart' now).2
  = verdict (canRequest tr model estimatedTokens dayStart now).2.
Proof.
  rewrite canRequest_tracker.
  destruct (stats tr !! ModelConfig.id model) as [s |] eqn:E.
  - apply canRequest_verdict_congr.
    unfold stateOf at 2. unfold getUsageStats. rewrite E.
    by apply getStats_stateOf_existing.
  - unfold canRequest.
    pose proof (getStats_lookup tr model dayStart) as Hl.
    pose proof (getStats_state_existing _ model dayStart' _ Hl) as Hst.
    rewrite (getStats_fresh _ _ _ E) in Hst |- *. cbv zeta in Hst |- *.
    cbn [fst snd] in Hst |- *.
    destruct (getStats _ model dayStart') as [tr2 s2].
    cbn [snd UsageStats.rateLimitState] in Hst.
    destruct (ModelConfig.provider model); cbn [snd].
    + by apply canRequestGroq_verdict_state.
    + by apply canRequestCerebras_verdict_state.
Qed.

Lemma selectLoop_returns env estimatedTokens remaining :
  forall attempts mgr tr skipped mgr' tr' m skipped',
    attempts = length skipped ->
    selectLoop remaining attempts env estimatedTokens mgr tr skipped
    = (mgr', tr', Ok (m, skipped')) ->
    m ∈ models mgr
    /\ (length skipped' < length skipped + remaining)%nat
    /\ Check.allowed (checkAt tr' estimatedTokens env (length skipped') m) = true
    /\ models mgr' = models mgr
    /\ usageCount mgr'
       = <[ModelConfig.id m := S (countOf mgr (ModelConfig.id m))]> (usageCount mgr).
Proof.
  induction remaining as [| remaining IH];
    intros attempts mgr tr skipped mgr' tr' m skipped' Hatt H; simpl in H;
    [discriminate |].
  pose proof (selectByStrategy_elem mgr (Env.random (env attempts))) as Helem.
  destruct (selectByStrategy_usageCount mgr (Env.random (env attempts)))
    as (Hcnt & Hmod & Hfb).
  destruct (selectByStrategy mgr (Env.random (env attempts))) as [[m0 |] mgr1];
    [| discriminate].
  simpl in *.
  pose proof (canRequest_again tr m0 estimatedTokens
                (Env.dayStart (env attempts)) (Env.dayStart (env attempts))
                (Env.now (env attempts))) as Hagain.
  destruct (canRequest tr m0 estimatedTokens _ _) as [tr1 check].
  simpl in Hagain.
  destruct (Check.allowed check) eqn:Ha.
  - injection H as <- <- <- <-. split; [by apply Helem |].
    split; [lia |]. split; [| split].
    + unfold checkAt. rewrite <- Hatt.
      unfold verdict in Hagain. injection Hagain as -> _. exact Ha.
    + exact Hmod.
    + simpl. unfold countOf. rewrite Hcnt. f_equal. f_equal. lia.
  - destruct (autoFallback mgr1); [| discriminate].
    apply IH in H; [| rewrite length_app; simpl; lia].
    destruct H as (H1 & H2 & H3 & H4 & H5).
    rewrite Hmod in H1, H4. unfold countOf in *. rewrite Hcnt in H5.
    rewrite length_app in H2. simpl in H2.
    repeat split; try done. lia.
Qed.

(** A model that [getNextModel] returns is a candidate, it is admitted by
    the tracker that the call leaves behind, fewer candidates were skipped
    than there are, and its usage count has gone up by one. *)
Theorem getNextModel_returns_admitted_candidate
    mgr tr messages env mgr' tr' m skipped :
  getNextModel mgr tr messages env = (mgr', tr', Ok (m, skipped)) ->
  m ∈ models mgr
  /\ (length skipped < length (models mgr))%nat
  /\ Check.allowed (checkAt tr' (estimateTokens messages) env (length skipped) m)
     = true
  /\ models mgr' = models mgr
  /\ usageCount mgr'
     = <[ModelConfig.id m := S (countOf mgr (ModelConfig.id m))]> (usageCount mgr).
Proof.
  unfold getNextModel. intros H.
  by apply selectLoop_returns in H.
Qed.

Lemma getNextModel_returns_admitted_candidate_witness :
  let mgr := addUsage (sampleManager least_used) "model-a" in
  let r := getNextModel mgr UsageTracker.empty [] quiet in
  r.2 = Ok (modelB, [])
  /\ modelB ∈ models mgr
  /\ (length (@nil Skipped.t) < length (models mgr))%nat
  /\ Check.allowed (checkAt r.1.2 (estimateTokens []) quiet 0 modelB) = true
  /\ models r.1.1 = models mgr
  /\ usageCount r.1.1 = <["model-b" := 1%nat]> (usageCount mgr).
Proof.
  intros mgr r.
  assert (E : r = (r.1.1, r.1.2, Ok (modelB, []))) by (vm_compute; reflexivity).
  split; [by rewrite E |].
  exact (getNextModel_returns_admitted_candidate mgr UsageTracker.empty [] quiet
           r.1.1 r.1.2 modelB [] E).
Defined.

(** ** How [getNextModel] fails *)

Lemma selectLoop_failure env estimatedTokens remaining :
  forall attempts mgr tr skipped mgr' tr' e,
    selectLoop remaining attempts env estimatedTokens mgr tr skipped
    = (mgr', tr', Throw e) ->
    usageCount mgr' = usageCount mgr
    /\ models mgr' = models mgr
    /\ match e with
       | RateLimitedError id reason =>
           autoFallback mgr = false
           /\ exists m,
                (selectByStrategy mgr (Env.random (env attempts))).1 = Some m
                /\ id = ModelConfig.id m
                /\ Check.allowed (checkAt tr estimatedTokens env attempts m) = false
                /\ reason = Check.reason (checkAt tr estimatedTokens env attempts m)
       | AllExhaustedError _ => remaining = 0%nat \/ autoFallback mgr = true
       | TypeError => True
       end.
Proof.
  induction remaining as [| remaining IH];
    intros attempts mgr tr skipped mgr' tr' e H; simpl in H.
  - injection H as <- _ <-. split; [done |]. split; [done |]. by left.
  - destruct (selectByStrategy_usageCount mgr (Env.random (env attempts)))
      as (Hcnt & Hmod & Hfb).
    unfold checkAt.
    destruct (selectByStrategy mgr (Env.random (env attempts))) as [[m0 |] mgr1];
      simpl in *.
    + destruct (canRequest tr m0 estimatedTokens _ _) as [tr1 check] eqn:Ec.
      destruct (Check.allowed check) eqn:Ha; [discriminate |].
      destruct (autoFallback mgr1) eqn:Ef.
      * apply IH in H as (H1 & H2 & H3).
        split; [congruence |]. split; [congruence |].
        destruct e as [id reason | sk |]; [| by right; congruence | done].
        destruct H3 as [H3 _]. congruence.
      * injection H as <- _ <-. split; [done |]. split; [done |].
        split; [congruence |]. exists m0. rewrite Ec. done.
    + injection H as <- _ <-. done.
Qed.

Lemma selectLoop_exhausted_candidates env estimatedTokens remaining :
  forall attempts mgr tr skipped mgr' tr' skipped',
    selectLoop remaining attempts env estimatedTokens mgr tr skipped
    = (mgr', tr', Throw (AllExhaustedError skipped')) ->
    Forall (namesCandidate mgr) skipped ->
    Forall (namesCandidate mgr) skipped'.
Proof.
  induction remaining as [| remaining IH];
    intros attempts mgr tr skipped mgr' tr' skipped' H Hall; simpl in H.
  - by injection H as _ _ <-.
  - pose proof (selectByStrategy_elem mgr (Env.random (env attempts))) as Helem.
    destruct (selectByStrategy_usageCount mgr (Env.random (env attempts)))
      as (_ & Hmod & _).
    destruct (selectByStrategy mgr (Env.random (env attempts))) as [[m0 |] mgr1];
      [| discriminate].
    simpl in *.
    destruct (canRequest tr m0 estimatedTokens _ _) as [tr1 check].
    destruct (Check.allowed check); [discriminate |].
    destruct (autoFallback mgr1); [| discriminate].
    assert (Hn : forall e, namesCandidate mgr1 e <-> namesCandidate mgr e)
      by (intros e; unfold namesCandidate; by rewrite Hmod).
    eapply Forall_impl; [| intros e; apply Hn].
    eapply IH; [exact H |].
    apply Forall_app. split.
    + eapply Forall_impl; [exact Hall | intros e; apply Hn].
    + apply Forall_singleton, Hn. exists m0. split; [by apply Helem | done].
Qed.

(** A call of [getNextModel] that fails leaves the usage counts and the
    candidates as they were.  When it fails for one rate-limited model,
    fallback is off and the error names the first model the strategy
    selected, with the reason of its admission check.  When it fails for
    all models, fallback is on (or there is no candidate), and the error
    has as many entries as there are candidates, each naming a candidate;
    the entries need not name different candidates. *)
Theorem getNextModel_failure mgr tr messages env mgr' tr' e :
  getNextModel mgr tr messages env = (mgr', tr', Throw e) ->
  usageCount mgr' = usageCount mgr
  /\ models mgr' = models mgr
  /\ match e with
     | RateLimitedError id reason =>
         autoFallback mgr = false
         /\ exists m,
              (selectByStrategy mgr (Env.random (env 0%nat))).1 = Some m
              /\ m ∈ models mgr
              /\ id = ModelConfig.id m
              /\ Check.allowed (checkAt tr (estimateTokens messages) env 0 m) = false
              /\ reason = Check.reason (checkAt tr (estimateTokens messages) env 0 m)
     | AllExhaustedError skipped =>
         length skipped = length (models mgr)
         /\ Forall (namesCandidate mgr) skipped
         /\ (models mgr = [] \/ autoFallback mgr = true)
     | TypeError => True
     end.
Proof.
  intros H. pose proof H as H'. unfold getNextModel in H.
  pose proof H as H''.
  apply selectLoop_failure in H as (H1 & H2 & H3).
  split; [done |]. split; [done |].
  destruct e as [id reason | sk |]; [| | done].
  - destruct H3 as (Hf & m & Hs & Hid & Ha & Hr). split; [done |].
    exists m. repeat split; try done. by eapply selectByStrategy_elem.
  - split; [by eapply getNextModel_exhausted_length |].
    split; [by eapply selectLoop_exhausted_candidates |].
    destruct H3 as [H3 | H3]; [left | by right].
    by apply length_zero_iff_nil.
Qed.

Lemma getNextModel_failure_witness :
  let mgr := {| models := [modelA; modelB; modelC]; currentIndex := 0;
                strategy := round_robin; autoFallback := false;
                usageCount := ∅ |} in
  let r := getNextModel mgr exhaustedGroq [] quiet in
  r.2 = Throw (RateLimitedError "model-a"
                 (Check.reason (checkAt exhaustedGroq (estimateTokens []) quiet 0 modelA)))
  /\ usageCount r.1.1 = usageCount mgr
  /\ models r.1.1 = models mgr
  /\ autoFallback mgr = false.
Proof.
  intros mgr r.
  assert (E : r = (r.1.1, r.1.2,
                   Throw (RateLimitedError "model-a"
                            (Check.reason
                               (checkAt exhaustedGroq (estimateTokens []) quiet 0 modelA)))))
    by (vm_compute; reflexivity).
  split; [by rewrite E |].
  destruct (getNextModel_failure mgr exhaustedGroq [] quiet r.1.1 r.1.2 _ E)
    as (H1 & H2 & H3 & _).
  exact (conj H1 (conj H2 H3)).
Defined.

(** ** The selection is always defined *)

Lemma selectByStrategy_defined mgr rnd :
  (currentIndex mgr < length (models mgr))%nat ->
  (0 <= rnd)%Q -> (rnd < 1)%Q ->
  exists m, (selectByStrategy mgr rnd).1 = Some m.
Proof.
  intros Hc H0 H1. unfold selectByStrategy.
  destruct (strategy mgr); cbv zeta; cbn [fst].
  - by apply lookup_lt_is_Some_2.
  - set (K := Z.of_nat (length (models mgr))).
    assert (HK : 0 < K) by (unfold K; lia).
    assert (HKq : (0 < inject_Z K)%Q)
      by (change 0%Q with (inject_Z 0); by rewrite <- Zlt_Qlt).
    assert (Hlo : 0 <= Qfloor (rnd * inject_Z K)).
    { change 0 with (Qfloor 0). apply Qfloor_resp_le. nra. }
    assert (Hhi : Qfloor (rnd * inject_Z K) < K).
    { rewrite Zlt_Qlt.
      eapply Qle_lt_trans; [apply Qfloor_le |]. nra. }
    destruct (Qfloor (rnd * inject_Z K) <? 0) eqn:E;
      [apply Z.ltb_lt in E; lia |].
    apply lookup_lt_is_Some_2. subst K. lia.
  - destruct (sortByCount_head mgr (models mgr)) as (pre & m & post & Hh & _).
    { intros E. rewrite E in Hc. simpl in Hc. lia. }
    exists m. by rewrite <- head_lookup.
Qed.

Lemma selectLoop_defined env estimatedTokens remaining :
  (forall i, (0 <= Env.random (env i))%Q /\ (Env.random (env i) < 1)%Q) ->
  forall attempts mgr tr skipped,
    (currentIndex mgr < length (models mgr))%nat ->
    (selectLoop remaining attempts env estimatedTokens mgr tr skipped).2
    <> Throw TypeError.
Proof.
  intros Hrnd.
  induction remaining as [| remaining IH]; intros attempts mgr tr skipped Hc;
    simpl; [done |].
  destruct (Hrnd attempts) as [H0 H1].
  destruct (selectByStrategy_defined mgr _ Hc H0 H1) as [m Hm].
  pose proof (selectByStrategy_cursor mgr (Env.random (env attempts)) Hc) as Hs.
  destruct (selectByStrategy mgr (Env.random (env attempts))) as [m' mgr1].
  simpl in Hm, Hs. subst m'. destruct Hs as (_ & _ & _ & Hc1).
  destruct (canRequest tr m estimatedTokens _ _) as [tr1 check].
  destruct (Check.allowed check); simpl; [done |].
  destruct (autoFallback mgr1); simpl; [| done].
  by apply IH.
Qed.

(** With a cursor inside the candidates and every reading of
    [Math.random()] in [0, 1), no selection of [getNextModel] is
    [undefined]: the call returns a model or fails with one of its two
    rate-limit errors.  A manager made by the constructor starts with such a
    cursor and every call keeps it. *)
Theorem getNextModel_selection_defined mgr tr messages env :
  (currentIndex mgr < length (models mgr))%nat ->
  (forall i, (0 <= Env.random (env i))%Q /\ (Env.random (env i) < 1)%Q) ->
  (getNextModel mgr tr messages env).2 <> Throw TypeError
  /\ (currentIndex (getNextModel mgr tr messages env).1.1
      < length (models (getNextModel mgr tr messages env).1.1))%nat.
Proof.
  intros Hc Hrnd. split.
  - unfold getNextModel. by apply selectLoop_defined.
  - by apply getNextModel_cursor.
Qed.

Lemma getNextModel_selection_defined_witness :
  (getNextModel (sampleManager random) allExhausted [] quiet).2 <> Throw TypeError
  /\ (currentIndex (getNextModel (sampleManager random) allExhausted [] quiet).1.1
      < length (models (getNextModel (sampleManager random) allExhausted [] quiet).1.1))%nat.
Proof.
  apply (getNextModel_selection_defined (sampleManager random) allExhausted [] quiet).
  - simpl. lia.
  - intros i. simpl. split; [done | reflexivity].
Defined.

(** ** The constructor *)

Lemma includes_elem l s : includes l s = true <-> s ∈ l.
Proof.
  unfold includes. rewrite existsb_exists. split.
  - intros (x & Hin & Heq). apply String.eqb_eq in Heq. subst x.
    by apply list_elem_of_In.
  - intros Hin. exists s. split; [by apply list_elem_of_In | apply String.eqb_refl].
Qed.

Lemma filtered_passes (allowed : option (list string))
    (key : ModelConfig -> string) (l : list ModelConfig) :
  let l' :=
    match allowed with
    | Some (p :: ps) => filter (fun m => includes (p :: ps) (key m) = true) l
    | _ => l
    end in
  (forall m, m ∈ l' <-> m ∈ l /\ passes allowed (key m)) /\ sublist l' l.
Proof.
  destruct allowed as [[| p ps] |]; cbv zeta; unfold passes;
    try (split; [intros m; tauto | done]).
  split; [| apply sublist_filter].
  intros m. rewrite list_elem_of_filter, includes_elem. tauto.
Qed.

Lemma getEnabledModels_configured providers m :
  m ∈ Config.getEnabledModels providers <-> configured providers m.
Proof.
  unfold Config.getEnabledModels, configured. rewrite list_elem_of_bind.
  split.
  - intros (p & Hm & Hp). apply list_elem_of_filter in Hm as [He Hm]. by exists p.
  - intros (p & Hp & Hm & He). exists p. split; [| done].
    by apply list_elem_of_filter.
Qed.

Lemma getEnabledModels_sublist providers :
  sublist (Config.getEnabledModels providers) (providers ≫= ProviderConfig.models).
Proof.
  unfold Config.getEnabledModels.
  induction providers as [| p ps IH]; [done |].
  rewrite !bind_cons. apply sublist_app; [apply sublist_filter | exact IH].
Qed.

(** The constructor applied to the enabled models of a configuration: it
    fails exactly when no enabled model passes both filters, an empty filter
    list counting as no filter; otherwise the candidates are the enabled
    models that pass, in configured order, the cursor is at the start, no
    usage is counted, and strategy and fallback take their defaults
    (round robin, on) where the options leave them out. *)
Theorem constructor_keeps_filtered_models options providers :
  match new options (Config.getEnabledModels providers) with
  | Some mgr =>
      models mgr <> []
      /\ (forall m, m ∈ models mgr <-> kept options providers m)
      /\ sublist (models mgr) (providers ≫= ProviderConfig.models)
      /\ currentIndex mgr = 0%nat
      /\ usageCount mgr = ∅
      /\ strategy mgr = default round_robin (Options.strategy options)
      /\ autoFallback mgr = default true (Options.autoFallback options)
  | None => forall m, ~ kept options providers m
  end.
Proof.
  unfold new. cbv zeta.
  pose proof (filtered_passes (Options.providers options)
                (fun m => providerString (ModelConfig.provider m))
                (Config.getEnabledModels providers)) as [H1 S1].
  cbv zeta in H1, S1.
  match type of S1 with sublist ?l _ => set (l1 := l) in * end.
  pose proof (filtered_passes (Options.modelIds options) ModelConfig.id l1)
    as [H2 S2].
  cbv zeta in H2, S2.
  match type of S2 with sublist ?l _ => set (l2 := l) in * end.
  assert (Hkept : forall m, m ∈ l2 <-> kept options providers m).
  { intros m. rewrite H2, H1, getEnabledModels_configured. unfold kept. tauto. }
  destruct l2 as [| m0 rest] eqn:E.
  - intros m Hm. apply Hkept in Hm. by apply elem_of_nil in Hm.
  - cbn [models currentIndex usageCount strategy autoFallback].
    split; [done |]. split; [exact Hkept |]. split; [| done].
    etransitivity; [exact S2 |]. etransitivity; [exact S1 |].
    apply getEnabledModels_sublist.
Qed.

(** ** Looking a model up by its id *)

Lemma find_by_id_inv (l : list ModelConfig) modelId m :
  find (fun m => String.eqb (ModelConfig.id m) modelId) l = Some m ->
  m ∈ l /\ ModelConfig.id m = modelId.
Proof.
  intros H. apply find_some in H as [Hin Heq].
  split; [by apply list_elem_of_In | by apply String.eqb_eq].
Qed.

Lemma find_by_id_unique (l : list ModelConfig) m :
  NoDup (ModelConfig.id <$> l) ->
  m ∈ l ->
  find (fun x => String.eqb (ModelConfig.id x) (ModelConfig.id m)) l = Some m.
Proof.
  induction l as [| a l IH]; intros Hnd Hin; [by apply elem_of_nil in Hin |].
  rewrite fmap_cons in Hnd. apply NoDup_cons in Hnd as [Ha Hnd]. simpl.
  apply elem_of_cons in Hin as [-> | Hin]; [by rewrite String.eqb_refl |].
  destruct (String.eqb (ModelConfig.id a) (ModelConfig.id m)) eqn:E.
  - apply String.eqb_eq in E. exfalso. apply Ha. rewrite E.
    by apply list_elem_of_fmap_2.
  - by apply IH.
Qed.

Lemma find_app_by {A : Type} (f : A -> bool) (l1 l2 : list A) :
  find f (l1 ++ l2) = match find f l1 with Some x => Some x | None => find f l2 end.
Proof.
  induction l1 as [| a l1 IH]; simpl; [done |]. by destruct (f a).
Qed.

Lemma getModelById_flat providers modelId :
  Config.getModelById providers modelId
  = find (fun m => String.eqb (ModelConfig.id m) modelId)
      (providers ≫= ProviderConfig.models).
Proof.
  induction providers as [| p ps IH]; [done |].
  rewrite bind_cons, find_app_by, <- IH. reflexivity.
Qed.

Lemma getModelById_unique providers p m :
  NoDup (ModelConfig.id <$> (providers ≫= ProviderConfig.models)) ->
  p ∈ providers -> m ∈ ProviderConfig.models p ->
  Config.getModelById providers (ModelConfig.id m) = Some m.
Proof.
  intros Hnd Hp Hm. rewrite getModelById_flat.
  apply find_by_id_unique; [done |]. apply list_elem_of_bind. by exists p.
Qed.

Lemma new_of_enabled_models options providers mgr :
  new options (Config.getEnabledModels providers) = Some mgr ->
  (forall m, m ∈ models mgr <-> kept options providers m)
  /\ sublist (models mgr) (providers ≫= ProviderConfig.models).
Proof.
  unfold new. cbv zeta.
  pose proof (filtered_passes (Options.providers options)
                (fun m => providerString (ModelConfig.provider m))
                (Config.getEnabledModels providers)) as [H1 S1].
  cbv zeta in H1, S1.
  match type of S1 with sublist ?l _ => set (l1 := l) in * end.
  pose proof (filtered_passes (Options.modelIds options) ModelConfig.id l1)
    as [H2 S2].
  cbv zeta in H2, S2.
  match type of S2 with sublist ?l _ => set (l2 := l) in * end.
  intros Hnew.
  assert (Hm : models mgr = l2)
    by (destruct l2; [discriminate | by injection Hnew as <-]).
  rewrite Hm. split.
  - intros m. rewrite H2, H1, getEnabledModels_configured. unfold kept. tauto.
  - etransitivity; [exact S2 |]. etransitivity; [exact S1 |].
    apply getEnabledModels_sublist.
Qed.

(** With ids that are unique across the providers, [getModelById] finds a
    model exactly when it is a model of some provider and has the id asked
    for; enabled or not makes no difference. *)
Theorem getModelById_round_trip providers modelId m :
  NoDup (ModelConfig.id <$> (providers ≫= ProviderConfig.models)) ->
  Config.getModelById providers modelId = Some m
  <-> (exists p, p ∈ providers /\ m ∈ ProviderConfig.models p)
      /\ ModelConfig.id m = modelId.
Proof.
  intros Hnd. rewrite getModelById_flat. split.
  - intros H. apply find_by_id_inv in H as [Hin Hid]. split; [| done].
    apply list_elem_of_bind in Hin as (p & Hm & Hp). by exists p.
  - intros [(p & Hp & Hm) <-]. rewrite <- getModelById_flat.
    by eapply getModelById_unique.
Qed.

Lemma getModelById_round_trip_witness :
  NoDup (ModelConfig.id <$> (Config.providers ≫= ProviderConfig.models))
  /\ forall m,
       Config.getModelById Config.providers "meta-llama/llama-guard-4-12b" = Some m
       <-> (exists p, p ∈ Config.providers /\ m ∈ ProviderConfig.models p)
           /\ ModelConfig.id m = "meta-llama/llama-guard-4-12b"%string.
Proof.
  assert (Hnd : NoDup (ModelConfig.id <$> (Config.providers ≫= ProviderConfig.models)))
    by (apply (bool_decide_unpack _); by vm_compute).
  split; [exact Hnd |].
  intros m.
  exact (getModelById_round_trip Config.providers "meta-llama/llama-guard-4-12b" m Hnd).
Defined.

(** A manager built from a configuration with unique ids finds by id
    exactly its candidates, the enabled models that passed the filters; and
    what it finds is the model the configuration has under that id. *)
Theorem getModel_of_constructed options providers mgr modelId m :
  NoDup (ModelConfig.id <$> (providers ≫= ProviderConfig.models)) ->
  new options (Config.getEnabledModels providers) = Some mgr ->
  (getModel mgr modelId = Some m
   <-> kept options providers m /\ ModelConfig.id m = modelId)
  /\ (getModel mgr modelId = Some m ->
      Config.getModelById providers modelId = Some m).
Proof.
  intros Hnd Hnew.
  destruct (new_of_enabled_models _ _ _ Hnew) as (Hkept & Hsub).
  assert (Hnd' : NoDup (ModelConfig.id <$> models mgr)).
  { eapply sublist_NoDup; [exact Hnd | by apply fmap_sublist]. }
  assert (Hiff : getModel mgr modelId = Some m
                 <-> kept options providers m /\ ModelConfig.id m = modelId).
  { unfold getModel. split.
    - intros H. apply find_by_id_inv in H as [Hin Hid]. split; [| done].
      by apply Hkept.
    - intros [Hk <-]. apply find_by_id_unique; [done |]. by apply Hkept. }
  split; [exact Hiff |].
  intros H. apply Hiff in H as [((p & Hp & Hm & _) & _) <-].
  by eapply getModelById_unique.
Qed.

Lemma getModel_of_constructed_witness :
  NoDup (ModelConfig.id <$> (Config.providers ≫= ProviderConfig.models))
  /\ exists mgr,
       new (onlyProvider "cerebras") (Config.getEnabledModels Config.providers)
       = Some mgr
       /\ forall modelId m,
            (getModel mgr modelId = Some m
             <-> kept (onlyProvider "cerebras") Config.providers m
                 /\ ModelConfig.id m = modelId)
            /\ (getModel mgr modelId = Some m ->
                Config.getModelById Config.providers modelId = Some m).
Proof.
  assert (Hnd : NoDup (ModelConfig.id <$> (Config.providers ≫= ProviderConfig.models)))
    by (apply (bool_decide_unpack _); by vm_compute).
  split; [exact Hnd |].
  destruct (new (onlyProvider "cerebras") (Config.getEnabledModels Config.providers))
    as [mgr |] eqn:E; [| by vm_compute in E].
  exists mgr. split; [reflexivity |].
  intros modelId m.
  exact (getModel_of_constructed (onlyProvider "cerebras") Config.providers mgr
           modelId m Hnd E).
Defined.


(** ** Availability and status *)

Lemma canRequest_keeps tr model estimatedTokens dayStart now j s :
  stats tr !! j = Some s ->
  exists s',
    stats (canRequest tr model estimatedTokens dayStart now).1 !! j = Some s'
    /\ UsageStats.rateLimitState s' = UsageStats.rateLimitState s.
Proof.
  intros Hs. rewrite canRequest_tracker.
  destruct (getStats_keeps tr model dayStart j s Hs) as (s' & H1 & _ & H2).
  eauto.
Qed.

Lemma getRemainingCapacity_keeps tr model dayStart now j s :
  stats tr !! j = Some s ->
  exists s',
    stats (getRemainingCapacity tr model dayStart now).1 !! j = Some s'
    /\ UsageStats.rateLimitState s' = UsageStats.rateLimitState s.
Proof.
  intros Hs. rewrite getRemainingCapacity_tracker.
  destruct (getStats_keeps tr model dayStart j s Hs) as (s' & H1 & _ & H2).
  eauto.
Qed.

Lemma getRemainingCapacity_stateOf_other tr model dayStart now j :
  j <> ModelConfig.id model ->
  stateOf (getRemainingCapacity tr model dayStart now).1 j = stateOf tr j.
Proof.
  intros Hne. rewrite getRemainingCapacity_tracker. unfold stateOf, getUsageStats.
  by rewrite getStats_other.
Qed.

Lemma getRemainingCapacity_congr tr1 tr2 model dayStart1 dayStart2 now :
  UsageStats.rateLimitState (getStats tr1 model dayStart1).2
  = UsageStats.rateLimitState (getStats tr2 model dayStart2).2 ->
  (getRemainingCapacity tr1 model dayStart1 now).2
  = (getRemainingCapacity tr2 model dayStart2 now).2.
Proof.
  unfold getRemainingCapacity. intros H.
  destruct (getStats tr1 model dayStart1) as [tr1' s1].
  destruct (getStats tr2 model dayStart2) as [tr2' s2].
  simpl in H. destruct (ModelConfig.provider model); simpl; by rewrite H.
Qed.

Lemma getStats_state_after_check tr trc model estimatedTokens dayStart now dayStart1 dayStart2 :
  stateOf trc (ModelConfig.id model) = stateOf tr (ModelConfig.id model) ->
  UsageStats.rateLimitState
    (getStats (canRequest trc model estimatedTokens dayStart now).1 model dayStart1).2
  = UsageStats.rateLimitState (getStats tr model dayStart2).2.
Proof.
  intros H. rewrite canRequest_tracker.
  rewrite (getStats_state_existing _ model dayStart1 _
             (getStats_lookup trc model dayStart)).
  by apply getStats_state_congr.
Qed.

Lemma availableFrom_start tr estimatedTokens env l :
  forall i trc,
    NoDup (ModelConfig.id <$> l) ->
    (forall x, x ∈ l -> stateOf trc (ModelConfig.id x) = stateOf tr (ModelConfig.id x)) ->
    (availableFrom l i env estimatedTokens trc).2
    = admittedFrom tr estimatedTokens env i l.
Proof.
  induction l as [| a l IH]; intros i trc Hnd Hst; [done |].
  rewrite fmap_cons in Hnd. apply NoDup_cons in Hnd as [Ha Hnd].
  cbn [availableFrom admittedFrom].
  pose proof (checkAt_congr trc tr estimatedTokens env i a
                (Hst a ltac:(apply list_elem_of_here))) as Hv.
  unfold checkAt at 1 in Hv.
  assert (Hst1 : forall x, x ∈ l ->
            stateOf (canRequest trc a estimatedTokens
                       (Env.dayStart (env i)) (Env.now (env i))).1 (ModelConfig.id x)
            = stateOf tr (ModelConfig.id x)).
  { intros x Hx. rewrite canRequest_stateOf_other.
    - apply Hst. by apply list_elem_of_further.
    - intros E. apply Ha. rewrite <- E. by apply list_elem_of_fmap_2. }
  specialize (IH (S i) _ Hnd Hst1).
  destruct (canRequest trc a estimatedTokens _ _) as [tr1 check].
  cbn [fst snd] in IH, Hv. rewrite <- IH.
  destruct (availableFrom l (S i) env estimatedTokens tr1) as [tr2 available].
  cbn [snd]. unfold verdict in Hv. by injection Hv as -> _.
Qed.

Lemma availableFrom_keeps estimatedTokens env l :
  forall i trc j s,
    stats trc !! j = Some s ->
    exists s',
      stats (availableFrom l i env estimatedTokens trc).1 !! j = Some s'
      /\ UsageStats.rateLimitState s' = UsageStats.rateLimitState s.
Proof.
  induction l as [| a l IH]; intros i trc j s Hs; [by exists s |].
  cbn [availableFrom].
  destruct (canRequest_keeps trc a estimatedTokens
              (Env.dayStart (env i)) (Env.now (env i)) j s Hs) as (s1 & H1 & E1).
  destruct (canRequest trc a estimatedTokens _ _) as [tr1 check].
  cbn [fst] in H1.
  destruct (IH (S i) tr1 j s1 H1) as (s2 & H2 & E2).
  destruct (availableFrom l (S i) env estimatedTokens tr1) as [tr2 available].
  cbn [fst] in *. exists s2. split; [done | congruence].
Qed.

Lemma admittedFrom_sublist tr estimatedTokens env l :
  forall i, sublist (admittedFrom tr estimatedTokens env i l) l.
Proof.
  induction l as [| a l IH]; intros i; simpl; [done |].
  destruct (Check.allowed _); [by apply sublist_skip | by apply sublist_cons].
Qed.

(** With unique ids among the candidates, [getAvailableModels] returns, in
    order, the candidates that the tracker as it is before the call admits:
    the check of one candidate does not bear on the check of another.  The
    call leaves every stored rate-limit state as it is. *)
Theorem getAvailableModels_checks_start_state mgr tr estimatedTokens env :
  NoDup (ModelConfig.id <$> models mgr) ->
  let r := getAvailableModels mgr tr estimatedTokens env in
  r.2 = admittedFrom tr estimatedTokens env 0 (models mgr)
  /\ sublist r.2 (models mgr)
  /\ (forall j s,
        stats tr !! j = Some s ->
        stateOf r.1 j = Some (UsageStats.rateLimitState s)).
Proof.
  intros Hnd r. unfold r, getAvailableModels.
  assert (H : (availableFrom (models mgr) 0 env estimatedTokens tr).2
              = admittedFrom tr estimatedTokens env 0 (models mgr))
    by (by apply availableFrom_start).
  split; [exact H |]. split; [rewrite H; apply admittedFrom_sublist |].
  intros j s Hs.
  destruct (availableFrom_keeps estimatedTokens env (models mgr) 0 tr j s Hs)
    as (s' & H1 & H2).
  unfold stateOf, getUsageStats. rewrite H1. simpl. by rewrite H2.
Qed.

Lemma getAvailableModels_checks_start_state_witness :
  let r := getAvailableModels (sampleManager round_robin) exhaustedGroq (ofZ 0) quiet in
  r.2 = [modelB; modelC]
  /\ sublist r.2 [modelA; modelB; modelC]
  /\ (forall j s,
        stats exhaustedGroq !! j = Some s ->
        stateOf r.1 j = Some (UsageStats.rateLimitState s)).
Proof.
  apply (getAvailableModels_checks_start_state
           (sampleManager round_robin) exhaustedGroq (ofZ 0) quiet).
  apply (bool_decide_unpack _). by vm_compute.
Defined.

Lemma statusFrom_start tr env l :
  forall i trc,
    NoDup (ModelConfig.id <$> l) ->
    (forall x, x ∈ l -> stateOf trc (ModelConfig.id x) = stateOf tr (ModelConfig.id x)) ->
    (statusFrom l i env trc).2 = reportedFrom tr env i l.
Proof.
  induction l as [| a l IH]; intros i trc Hnd Hst; [done |].
  rewrite fmap_cons in Hnd. apply NoDup_cons in Hnd as [Ha Hnd].
  cbn [statusFrom reportedFrom].
  assert (Hsa : stateOf trc (ModelConfig.id a) = stateOf tr (ModelConfig.id a))
    by (apply Hst, list_elem_of_here).
  pose proof (checkAt_congr trc tr (ofZ 0) env i a Hsa) as Hv.
  unfold checkAt at 1 in Hv.
  pose proof (getRemainingCapacity_congr _ tr a
                (Env.dayStart (env (S i))) (Env.dayStart (env (S i)))
                (Env.now (env (S i)))
                (getStats_state_after_check tr trc a (ofZ 0)
                   (Env.dayStart (env i)) (Env.now (env i)) _ _ Hsa)) as Hcap.
  assert (Hst1 : forall x, x ∈ l ->
            stateOf (getRemainingCapacity
                       (canRequest trc a (ofZ 0)
                          (Env.dayStart (env i)) (Env.now (env i))).1
                       a (Env.dayStart (env (S i))) (Env.now (env (S i)))).1
              (ModelConfig.id x)
            = stateOf tr (ModelConfig.id x)).
  { intros x Hx.
    assert (Hne : ModelConfig.id x <> ModelConfig.id a)
      by (intros E; apply Ha; rewrite <- E; by apply list_elem_of_fmap_2).
    rewrite getRemainingCapacity_stateOf_other, canRequest_stateOf_other by done.
    apply Hst. by apply list_elem_of_further. }
  specialize (IH (S (S i)) _ Hnd Hst1).
  destruct (canRequest trc a (ofZ 0) _ _) as [tr1 check].
  cbn [fst snd] in IH, Hv, Hcap.
  destruct (getRemainingCapacity tr1 a _ _) as [tr2 remaining].
  cbn [fst snd] in IH, Hcap.
  destruct (statusFrom l (S (S i)) env tr2) as [tr3 statuses].
  cbn [snd] in IH |- *. rewrite IH. f_equal.
  unfold statusOf. cbv zeta. unfold verdict in Hv. injection Hv as -> ->.
  by rewrite Hcap.
Qed.

Lemma statusFrom_keeps env l :
  forall i trc j s,
    stats trc !! j = Some s ->
    exists s',
      stats (statusFrom l i env trc).1 !! j = Some s'
      /\ UsageStats.rateLimitState s' = UsageStats.rateLimitState s.
Proof.
  induction l as [| a l IH]; intros i trc j s Hs; [by exists s |].
  cbn [statusFrom].
  destruct (canRequest_keeps trc a (ofZ 0)
              (Env.dayStart (env i)) (Env.now (env i)) j s Hs) as (s1 & H1 & E1).
  destruct (canRequest trc a (ofZ 0) _ _) as [tr1 check].
  cbn [fst] in H1.
  destruct (getRemainingCapacity_keeps tr1 a
              (Env.dayStart (env (S i))) (Env.now (env (S i))) j s1 H1)
    as (s2 & H2 & E2).
  destruct (getRemainingCapacity tr1 a _ _) as [tr2 remaining].
  cbn [fst] in H2.
  destruct (IH (S (S i)) tr2 j s2 H2) as (s3 & H3 & E3).
  destruct (statusFrom l (S (S i)) env tr2) as [tr3 statuses].
  cbn [fst] in *. exists s3. split; [done | congruence].
Qed.

Lemma reportedFrom_available tr env l :
  forall i k,
    (forall n, Env.dayStart (k (i + n)%nat) = Env.dayStart (env (2 * i + 2 * n)%nat)
               /\ Env.now (k (i + n)%nat) = Env.now (env (2 * i + 2 * n)%nat)) ->
    Status.model <$> filter (fun st => Status.available st = true)
                       (reportedFrom tr env (2 * i) l)
    = admittedFrom tr (ofZ 0) k i l.
Proof.
  induction l as [| a l IH]; intros i k Hk; [done |].
  cbn [reportedFrom admittedFrom].
  replace (S (S (2 * i))) with (2 * S i)%nat by lia.
  assert (Hc : checkAt tr (ofZ 0) k i a = checkAt tr (ofZ 0) env (2 * i) a).
  { unfold checkAt. destruct (Hk 0%nat) as [H1 H2].
    rewrite !Nat.add_0_r in H1, H2. by rewrite H1, H2. }
  rewrite Hc.
  assert (IH' : Status.model <$> filter (fun st => Status.available st = true)
                                   (reportedFrom tr env (2 * S i) l)
                = admittedFrom tr (ofZ 0) k (S i) l).
  { apply IH. intros n. specialize (Hk (S n)).
    by replace (S i + n)%nat with (i + S n)%nat by lia;
       replace (2 * S i + 2 * n)%nat with (2 * i + 2 * S n)%nat by lia. }
  destruct (Check.allowed (checkAt tr (ofZ 0) env (2 * i) a)) eqn:E.
  - rewrite filter_cons_True by exact E. rewrite fmap_cons.
    by rewrite IH'.
  - rewrite filter_cons_False; [exact IH' |].
    change (Check.allowed (checkAt tr (ofZ 0) env (2 * i) a) <> true).
    by rewrite E.
Qed.

Lemma reportedFrom_models tr env l :
  forall i, Status.model <$> reportedFrom tr env i l = l.
Proof.
  induction l as [| a l IH]; intros i; [done |].
  cbn [reportedFrom]. rewrite fmap_cons. by rewrite IH.
Qed.

(** With unique ids among the candidates, [getStatus] reports every
    candidate, in order, as the tracker as it is before the call answers
    for it; the candidates it reports available are those
    [getAvailableModels] returns for the same clock readings and no
    estimate; and the call leaves every stored rate-limit state as it is. *)
Theorem getStatus_reports_start_state mgr tr env :
  NoDup (ModelConfig.id <$> models mgr) ->
  let r := getStatus mgr tr env in
  r.2 = reportedFrom tr env 0 (models mgr)
  /\ Status.model <$> r.2 = models mgr
  /\ Status.model <$> filter (fun st => Status.available st = true) r.2
     = (getAvailableModels mgr tr (ofZ 0) (checksOf env)).2
  /\ (forall j s,
        stats tr !! j = Some s ->
        stateOf r.1 j = Some (UsageStats.rateLimitState s)).
Proof.
  intros Hnd r. unfold r, getStatus.
  assert (H : (statusFrom (models mgr) 0 env tr).2
              = reportedFrom tr env 0 (models mgr))
    by (by apply statusFrom_start).
  split; [exact H |]. rewrite H. split; [| split].
  - apply reportedFrom_models.
  - unfold getAvailableModels. rewrite (availableFrom_start tr) by done.
    apply (reportedFrom_available tr env (models mgr) 0 (checksOf env)).
    intros n. unfold checksOf. by replace (2 * (0 + n))%nat with (2 * 0 + 2 * n)%nat by lia.
  - intros j s Hs.
    destruct (statusFrom_keeps env (models mgr) 0 tr j s Hs) as (s' & H1 & H2).
    unfold stateOf, getUsageStats. rewrite H1. simpl. by rewrite H2.
Qed.

Lemma getStatus_reports_start_state_witness :
  let r := getStatus (sampleManager round_robin) exhaustedGroq quiet in
  r.2 = reportedFrom exhaustedGroq quiet 0 [modelA; modelB; modelC]
  /\ Status.model <$> r.2 = [modelA; modelB; modelC]
  /\ Status.model <$> filter (fun st => Status.available st = true) r.2
     = (getAvailableModels (sampleManager round_robin) exhaustedGroq (ofZ 0)
          (checksOf quiet)).2
  /\ (forall j s,
        stats exhaustedGroq !! j = Some s ->
        stateOf r.1 j = Some (UsageStats.rateLimitState s)).
Proof.
  apply (getStatus_reports_start_state (sampleManager round_robin) exhaustedGroq quiet).
  apply (bool_decide_unpack _). by vm_compute.
Defined.

(** ** Reported capacity and admission *)

Lemma ngt_not_nle (a b : num) : ngt a b = true -> nle a b = false.
Proof.
  intros H. apply ngt_true_inv in H as (x & y & -> & -> & H).
  destruct (nle (Num x) (Num y)) eqn:E; [| done].
  apply nle_Num in E. lra.
Qed.

Lemma nle_not_nlt (a b : num) : nle a b = true -> nlt b a = false.
Proof.
  intros H. apply nle_true_inv in H as (x & y & -> & -> & H).
  destruct (nlt (Num y) (Num x)) eqn:E; [| done].
  apply nlt_Num in E. lra.
Qed.

(** A model whose reported capacity has requests left and covers the
    estimate is admitted at the same moment, unless it is a Groq model in
    its cooldown: the capacity report does not show the cooldown. *)
Theorem reported_capacity_admits tr model estimatedTokens dayStart now :
  let capacity := (getRemainingCapacity tr model dayStart now).2 in
  let check := (canRequest tr model estimatedTokens dayStart now).2 in
  ngt (Capacity.requests capacity) (ofZ 0) = true ->
  nle estimatedTokens (Capacity.tokens capacity) = true ->
  Check.allowed check = true
  \/ (ModelConfig.provider model = groq
      /\ exists waitSec, Check.reason check = Some (RetryAfterReason waitSec)).
Proof.
  unfold getRemainingCapacity, canRequest.
  destruct (getStats tr model dayStart) as [tr' s].
  destruct (ModelConfig.provider model); cbn [snd Capacity.requests Capacity.tokens];
    intros Hr Ht; apply ngt_not_nle in Hr; apply nle_not_nlt in Ht.
  - unfold canRequestGroq. cbv zeta. rewrite Hr, Ht. cbn [andb].
    next_guard; [right; split; [done | eauto] | by left].
  - unfold canRequestCerebras. cbv zeta. rewrite Hr, Ht. by left.
Qed.

Lemma reported_capacity_admits_witness :
  Check.allowed (canRequest cooldownTracker modelA (ofZ 25) 0 5000).2 = true
  \/ (ModelConfig.provider modelA = groq
      /\ exists waitSec,
           Check.reason (canRequest cooldownTracker modelA (ofZ 25) 0 5000).2
           = Some (RetryAfterReason waitSec)).
Proof.
  apply (reported_capacity_admits cooldownTracker modelA (ofZ 25) 0 5000);
    reflexivity.
Defined.

(** ** The chat route *)

Lemma estimateTokens_nonneg (messages : list ChatMessage) :
  nle (ofZ 0) (estimateTokens messages) = true.
Proof.
  destruct (estimateTokens_bounds messages) as (e & -> & Hb).
  apply nle_Num. rewrite <- Zle_Qle. lia.
Qed.

Lemma canRequest_smaller_estimate tr model low high dayStart now :
  nle low high = true ->
  Check.allowed (canRequest tr model high dayStart now).2 = true ->
  Check.allowed (canRequest tr model low dayStart now).2 = true.
Proof.
  intros Hle. unfold canRequest.
  destruct (getStats tr model dayStart) as [tr' stats].
  destruct (ModelConfig.provider model); simpl.
  - by apply canRequestGroq_smaller.
  - by apply canRequestCerebras_smaller.
Qed.

(** A request that names a candidate by its id: the manager is left as it
    is (no rotation, no usage counted), the model is checked with an
    estimate of no tokens, so the handler goes on to the provider whenever
    the rotation's check of that model, with the estimate of the messages,
    allows; otherwise it answers 429 with the reason of the check. *)
Theorem chat_named_model mgr tr first rest requestedModelId m env :
  let messages := first :: rest in
  existsb Chat.invalidRole messages = false ->
  requestedModelId <> ""%string ->
  getModel mgr requestedModelId = Some m ->
  let r := Chat.chat mgr tr (Some messages) (Some requestedModelId) env in
  r.1.1 = mgr
  /\ (r.2 = Chat.Call m []
      \/ r.2 = Chat.Json 429
                 (Chat.CheckReason (Check.reason (checkAt tr (ofZ 0) env 0 m))))
  /\ (Check.allowed (checkAt tr (estimateTokens messages) env 0 m) = true ->
      r.2 = Chat.Call m []).
Proof.
  intros messages Hroles Hne Hm r. unfold r, Chat.chat.
  fold messages. rewrite Hroles.
  apply String.eqb_neq in Hne. rewrite Hne, Hm.
  pose proof (canRequest_smaller_estimate tr m (ofZ 0) (estimateTokens messages)
                (Env.dayStart (env 0%nat)) (Env.now (env 0%nat))
                (estimateTokens_nonneg messages)) as Hmono.
  unfold checkAt.
  destruct (canRequest tr m (ofZ 0) _ _) as [tr1 check]. cbn [snd] in *.
  destruct (Check.allowed check) eqn:Ha; cbn [fst snd].
  - split; [done |]. split; [by left | done].
  - split; [done |]. split; [by right |].
    intros H. apply Hmono in H. congruence.
Qed.

Lemma chat_named_model_witness :
  let first := ChatMessage.mk "user" (ContentString hundredChars) in
  let r := Chat.chat (sampleManager round_robin) exhaustedGroq
             (Some [first; first]) (Some "model-a"%string) quiet in
  r.1.1 = sampleManager round_robin
  /\ (r.2 = Chat.Call modelA []
      \/ r.2 = Chat.Json 429
                 (Chat.CheckReason
                    (Check.reason (checkAt exhaustedGroq (ofZ 0) quiet 0 modelA))))
  /\ (Check.allowed (checkAt exhaustedGroq (estimateTokens [first; first]) quiet 0 modelA)
      = true ->
      r.2 = Chat.Call modelA []).
Proof.
  intros first.
  apply (chat_named_model (sampleManager round_robin) exhaustedGroq first [first]
           "model-a" modelA quiet); [reflexivity | discriminate | reflexivity].
Defined.






(** ** The models of a provider *)

Lemma getProviderConfig_unique providers p :
  NoDup ((fun p => providerString (ProviderConfig.name p)) <$> providers) ->
  p ∈ providers ->
  Config.getProviderConfig providers (providerString (ProviderConfig.name p)) = Some p.
Proof.
  unfold Config.getProviderConfig.
  induction providers as [| a l IH]; intros Hnd Hin; [by apply elem_of_nil in Hin |].
  rewrite fmap_cons in Hnd. apply NoDup_cons in Hnd as [Ha Hnd]. simpl.
  apply elem_of_cons in Hin as [-> | Hin]; [by rewrite String.eqb_refl |].
  destruct (String.eqb (providerString (ProviderConfig.name a))
              (providerString (ProviderConfig.name p))) eqn:E.
  - apply String.eqb_eq in E. exfalso. apply Ha. rewrite E.
    by apply (list_elem_of_fmap_2 (fun p => providerString (ProviderConfig.name p))).
  - by apply IH.
Qed.

Lemma getProviderConfig_inv providers name p :
  Config.getProviderConfig providers name = Some p ->
  p ∈ providers /\ providerString (ProviderConfig.name p) = name.
Proof.
  unfold Config.getProviderConfig. intros H. apply find_some in H as [Hin Heq].
  split; [by apply list_elem_of_In | by apply String.eqb_eq].
Qed.

(** With provider names that are unique, the models that
    [getProviderModels] gives for the providers one after the other make up
    [getEnabledModels], and an enabled model is among those of a name
    exactly when its provider entry carries that name; a name that no
    provider carries gives no model. *)
Theorem getProviderModels_partition providers :
  NoDup ((fun p => providerString (ProviderConfig.name p)) <$> providers) ->
  Config.getEnabledModels providers
  = providers ≫=
      (fun p => Config.getProviderModels providers
                  (providerString (ProviderConfig.name p)))
  /\ (forall name m,
        m ∈ Config.getProviderModels providers name
        <-> exists p,
              p ∈ providers
              /\ providerString (ProviderConfig.name p) = name
              /\ m ∈ ProviderConfig.models p
              /\ ModelConfig.enabled m = true)
  /\ (forall name,
        (forall p, p ∈ providers -> providerString (ProviderConfig.name p) <> name) ->
        Config.getProviderModels providers name = []).
Proof.
  intros Hnd. split; [| split].
  - unfold Config.getEnabledModels.
    assert (H : forall l, (forall p, p ∈ l -> p ∈ providers) ->
              l ≫= (fun p => filter (fun m => ModelConfig.enabled m = true)
                               (ProviderConfig.models p))
              = l ≫= (fun p => Config.getProviderModels providers
                                 (providerString (ProviderConfig.name p)))).
    { induction l as [| a l IH]; intros Hl; [done |].
      rewrite !bind_cons. rewrite IH.
      - f_equal. unfold Config.getProviderModels.
        rewrite getProviderConfig_unique; [done | done |].
        apply Hl, list_elem_of_here.
      - intros p Hp. by apply Hl, list_elem_of_further. }
    by apply H.
  - intros name m. unfold Config.getProviderModels. split.
    + destruct (Config.getProviderConfig providers name) as [p |] eqn:E;
        [| by intros H; apply elem_of_nil in H].
      apply getProviderConfig_inv in E as [Hp Hn].
      intros H. apply list_elem_of_filter in H as [He Hm]. by exists p.
    + intros (p & Hp & <- & Hm & He).
      rewrite getProviderConfig_unique by done. by apply list_elem_of_filter.
  - intros name Hno. unfold Config.getProviderModels.
    destruct (Config.getProviderConfig providers name) as [p |] eqn:E; [| done].
    apply getProviderConfig_inv in E as [Hp Hn]. by destruct (Hno p Hp).
Qed.

Lemma getProviderModels_partition_witness :
  Config.getEnabledModels Config.providers
  = Config.getProviderModels Config.providers "groq"
    ++ Config.getProviderModels Config.providers "cerebras"
  /\ Config.getProviderModels Config.providers "openai" = [].
Proof.
  destruct (getProviderModels_partition Config.providers) as (H1 & _ & H3).
  - apply (bool_decide_unpack _). by vm_compute.
  - split.
    + rewrite H1. reflexivity.
    + apply H3. intros p Hp.
      apply elem_of_cons in Hp as [-> | Hp]; [discriminate |].
      apply elem_of_cons in Hp as [-> | Hp]; [discriminate |].
      by apply elem_of_nil in Hp.
Defined.
